(** * Dataset.py: samples, physics processes and the histogram pipeline

    A shallow embedding of [plotting/Dataset.py]: the cut resolution of a
    [Dataset], its histogram, yield and value queries with the histogram
    store, the fan-out of a [PhysicsProcess] over its daughters, and
    [Dataset.copy] over a small heap of Python objects.

    Python floats are kept abstract (class [Arith]): no theorem below uses
    an algebraic law of the arithmetic, so each holds for IEEE doubles as
    well as for the rationals used in the examples. *)

From Stdlib Require Import QArith Ascii String.
From stdpp Require Import base option list strings gmap.

Open Scope string_scope.

(** ** Numbers *)

(** The float operations the module uses.  [truthy x] is the Python truth
    value of a number ([x != 0]). *)
Class Arith (num : Type) := {
  nzero : num;
  nunit : num;
  nadd : num -> num -> num;
  nmul : num -> num -> num;
  ndiv : num -> num -> num;
  nsqrt : num -> num;
  truthy : num -> bool
}.

(** Rationals, used to evaluate the model on concrete inputs.  The square
    root of [n/d] is the integer root of [n*d] over [d]: exact on the
    squares used below. *)
Definition Qsqrt_floor (q : Q) : Q :=
  Qmake (Z.sqrt (Qnum q * Zpos (Qden q))) (Qden q).

#[export] Instance Q_Arith : Arith Q := {|
  nzero := 0%Q;
  nunit := 1%Q;
  nadd := fun a b => Qred (a + b);
  nmul := fun a b => Qred (a * b);
  ndiv := fun a b => Qred (a / b);
  nsqrt := Qsqrt_floor;
  truthy := fun q => negb (Qeq_bool q 0%Q)
|}.

(** ** Cuts *)

(** Modelled from the spec: [plotting.Cut] is imported by Dataset.py but is
    not among the sources.  A cut is a conjunction of selection terms,
    multiplied by weight factors, with a title.  Combining two cuts
    conjoins their terms and joins the titles with a space (an empty
    operand is the identity); multiplying by a weight expression appends
    its factors; removing a cut deletes the first place where its terms
    occur as a block and returns the cut unchanged when they do not occur. *)
Record Cut := mkCut {
  terms : list string;
  factors : list string;
  ctitle : string
}.

#[export] Instance Cut_eq_dec : EqDecision Cut.
Proof. solve_decision. Defined.

(** A weight expression: a product of factors, [[]] for the empty string. *)
Definition Weight := list string.

Definition Cut_empty : Cut := mkCut [] [] "".

Definition join_titles (a b : string) : string :=
  if decide (a = "") then b
  else if decide (b = "") then a
  else a ++ " " ++ b.

(** [a + b] *)
Definition Cut_add (a b : Cut) : Cut :=
  mkCut (terms a ++ terms b)%list (factors a ++ factors b)%list
        (join_titles (ctitle a) (ctitle b)).

(** [a * w] *)
Definition Cut_mul (a : Cut) (w : Weight) : Cut :=
  mkCut (terms a) (factors a ++ w)%list (ctitle a).

Fixpoint strip_prefix (p l : list string) : option (list string) :=
  match p, l with
  | [], _ => Some l
  | _ :: _, [] => None
  | x :: p', y :: l' => if decide (x = y) then strip_prefix p' l' else None
  end.

Fixpoint remove_block (p l : list string) : list string :=
  match p with
  | [] => l
  | _ :: _ =>
    match strip_prefix p l with
    | Some rest => rest
    | None =>
      match l with
      | [] => []
      | y :: l' => y :: remove_block p l'
      end
    end
  end.

(** [a.withoutCut(sub)] *)
Definition withoutCut (a sub : Cut) : Cut :=
  mkCut (remove_block (terms sub) (terms a)) (factors a) (ctitle a).

Fixpoint join_with (sep : string) (l : list string) : string :=
  match l with
  | [] => ""
  | [x] => x
  | x :: l' => x ++ sep ++ join_with sep l'
  end.

(** The expression string of a cut, [cut.cut]. *)
Definition Cut_expression (c : Cut) : string :=
  join_with " * "
    (match terms c with
     | [] => []
     | ts => [join_with " && " (map (fun t => "(" ++ t ++ ")") ts)]
     end ++ map (fun f => "(" ++ f ++ ")") (factors c)).

(** ** Variables, systematic variations, styles *)

(** Modelled from the spec: [plotting.Variable] is not among the sources.
    A variable is what the spec calls a variable and binning descriptor:
    the draw command and the binning ([Variable] is reserved in Rocq, hence
    [Var]).  Scanning a tree into a histogram and blinding are the scan
    engine's, see [Externals]. *)
Record Var := mkVariable {
  command : string;
  binning : string
}.

#[export] Instance Var_eq_dec : EqDecision Var.
Proof. solve_decision. Defined.

(** Modelled from the spec: [var_Yield] of plotting.Variable is not among
    the sources; the spec calls it an integral proxy variable with a single
    bin. *)
Definition var_Yield : Var := mkVariable "1" "1,0.5,1.5".

(** Modelled from the spec: [plotting.Systematics] is not among the
    sources.  A [TreeSystematicVariation] has a name, the tree to read, the
    owning systematics (none for the nominal variation) and the flag of a
    shape variation, as Dataset.py reads them. *)
Record TreeSystematicVariation := mkVariation {
  vname : string;
  treeName : string;
  systematics : option string;
  isShapeSystematics : bool
}.

(** A [Style] of plotting.AtlasStyle, as far as Dataset.py reads it. *)
Record Style := mkStyle { lineColor : Z }.

(** ** Histograms *)

Section Model.
Context {num : Type} `{Arith num}.

(** ROOT's TH1 as the code uses it: bin 0 is the underflow bin, bins
    [1..n] the regular ones and bin [n+1] the overflow bin. *)
Record Hist := mkHist {
  htitle : string;
  bins : list num;
  sumw2 : list num;
  entries : num;
  hstyle : option Style
}.

Definition nsum (l : list num) : num := fold_left nadd l nzero.

Definition SetTitle (t : string) (h : Hist) : Hist :=
  mkHist t (bins h) (sumw2 h) (entries h) (hstyle h).

(** [h.Scale(c)]: contents times [c], squared errors times [c*c], the
    number of entries untouched. *)
Definition Scale (c : num) (h : Hist) : Hist :=
  mkHist (htitle h) (map (fun x => nmul x c) (bins h))
         (map (fun x => nmul x (nmul c c)) (sumw2 h)) (entries h) (hstyle h).

Fixpoint zip_add (a b : list num) : list num :=
  match a, b with
  | x :: a', y :: b' => nadd x y :: zip_add a' b'
  | _, [] => a
  | [], _ => []
  end.

(** [h.Add(h2)] *)
Definition Add (h2 h : Hist) : Hist :=
  mkHist (htitle h) (zip_add (bins h) (bins h2)) (zip_add (sumw2 h) (sumw2 h2))
         (nadd (entries h) (entries h2)) (hstyle h).

Definition GetNbinsX (h : Hist) : nat := length (bins h) - 2.
Definition GetEntries (h : Hist) : num := entries h.

Definition range {A} (lo hi : nat) (l : list A) : list A :=
  take (hi + 1 - lo) (drop lo l).

(** [h.Integral(lo, hi)]; bins past the overflow bin do not exist. *)
Definition Integral (lo hi : nat) (h : Hist) : num := nsum (range lo hi (bins h)).

(** [h.IntegralAndError(lo, hi, error)] as the pair (value, error). *)
Definition IntegralAndError (lo hi : nat) (h : Hist) : num * num :=
  (Integral lo hi h, nsqrt (nsum (range lo hi (sumw2 h)))).

(** [style.apply(hist)] *)
Definition Style_apply (s : Style) (h : Hist) : Hist :=
  mkHist (htitle h) (bins h) (sumw2 h) (entries h) (Some s).

(** ** Datasets *)

(** The attributes of a [Dataset] that the queries read.  [scaleFactors] is
    the dictionary in iteration order; [sumOfWeights] is the value the
    property returns (preset or calculated); [histogramStore] names the
    store the dataset writes to, [None] when it has none. *)
Record Dataset := mkDataset {
  name : string;
  title : string;
  style : option Style;
  weightExpression : Weight;
  sumOfWeights : num;
  scaleFactors : list (string * num);
  fileNames : list string;
  isData : bool;
  ignoreCuts : list Cut;
  addCuts : list Cut;
  replaceVariables : list (Var * Var);
  histogramStore : option string;
  systematicsSet : gset string;
  nominalSystematics : TreeSystematicVariation;
  preselection : Cut
}.

(** A [Dataset] or a [PhysicsProcess] with its own attributes and its
    daughters. *)
#[warnings="-register-all"] Inductive Sample :=
| Leaf (d : Dataset)
| Process (p : Dataset) (datasets : list Sample).

(** What [Dataset._open] hands back: the chain, the number of files that
    were added to it, its Python truth value and the entry list of the
    preselection. *)
Record Tree := mkTree {
  tname : string;
  tfiles : list string;
  nFiles : nat;
  tvalid : bool;
  entryList : Cut
}.

(** The collaborators Dataset.py imports and that are not among the
    sources: ROOT's TChain, the scan engine (TreePlot, Variable), the
    systematics set, Tools and the blinding of a Variable. *)
Record Externals := mkExternals {
  TChain_Add : list string -> string -> nat;
  TChain_bool : list string -> string -> bool;
  createHistogramFromTree :
    Var -> Tree -> string -> Cut -> Weight -> string -> option Style -> option Hist;
  create2DHistogramFromTree :
    Tree -> Var -> Var -> string -> Cut -> Weight -> bool -> option Hist;
  getValuesFromTree : Tree -> string -> string -> list num * list num;
  totalWeight : gset string -> TreeSystematicVariation -> option Cut -> Weight;
  totalScaleFactor : gset string -> TreeSystematicVariation -> Cut -> num;
  forceBinning : Hist -> Var -> Hist;
  overflowIntoLastBins : Hist -> Hist;
  applyBlinding : Var -> Cut -> Hist -> Hist
}.

(** ** The world the queries run in *)

Inductive Level := WARNING | ERROR.

#[export] Instance Level_eq_dec : EqDecision Level.
Proof. solve_decision. Defined.

(** The key of a stored histogram.  Modelled from the spec:
    [plotting.HistogramStore] is not among the sources; the spec keys an
    entry by sample name, variation, variable and binning, and cut
    expression, and has [get] return what [put] stored last. *)
Definition Key : Type := string * string * (string * string) * string.

(** The state a query reads and leaves: the histogram stores by file
    name, the number of scans so far and the log.  A scan is a call of
    [createHistogramFromTree], [create2DHistogramFromTree] or
    [getValuesFromTree]; what ROOT does besides, such as drawing the entry
    list of a preselection when a chain is opened (line 435), is not
    counted. *)
Record World := mkWorld {
  stores : gmap (string * Key) Hist;
  scans : nat;
  log : list (Level * string)
}.

Definition logging (l : Level) (msg : string) (w : World) : World :=
  mkWorld (stores w) (scans w) (log w ++ [(l, msg)]).

Definition count_scan (w : World) : World :=
  mkWorld (stores w) (S (scans w)) (log w).

Definition mkKey (d : Dataset) (v : TreeSystematicVariation) (x : Var) (c : Cut) : Key :=
  (name d, vname v, (command x, binning x), Cut_expression c).

(** [store.getHistogram(dataset, variation, xVar, cut)] *)
Definition store_getHistogram (s : string) (d : Dataset) (v : TreeSystematicVariation)
    (x : Var) (c : Cut) (w : World) : option Hist :=
  stores w !! (s, mkKey d v x c).

(** [store.putHistogram(dataset, variation, xVar, cut, hist)]; a null
    histogram stores nothing. *)
Definition store_putHistogram (s : string) (d : Dataset) (v : TreeSystematicVariation)
    (x : Var) (c : Cut) (h : option Hist) (w : World) : World :=
  match h with
  | Some h => mkWorld (<[(s, mkKey d v x c) := h]> (stores w)) (scans w) (log w)
  | None => w
  end.

(** ** Dataset: helpers *)

Variable E : Externals.

(** [d[k]] for a dictionary kept as the list of its items. *)
Fixpoint assoc_lookup {K V : Type} `{EqDecision K} (k : K) (l : list (K * V)) : option V :=
  match l with
  | [] => None
  | (k', v) :: l' => if decide (k = k') then Some v else assoc_lookup k l'
  end.

(** [Dataset._determineVariable] *)
Definition _determineVariable (d : Dataset) (variable : Var) : Var :=
  match assoc_lookup variable (replaceVariables d) with
  | Some v => v
  | None => variable
  end.

(** [Dataset._determineCut] *)
Definition _determineCut (d : Dataset) (cut : Cut) : Cut :=
  let cut := Cut_add Cut_empty cut in
  let cut := fold_left (fun cut ignoredCut => withoutCut cut ignoredCut) (ignoreCuts d) cut in
  fold_left (fun cut addedCut => Cut_add cut addedCut) (addCuts d) cut.

(** [Dataset.combinedScaleFactors] *)
Definition combinedScaleFactors (d : Dataset) : num :=
  fold_left (fun product kv => nmul product (snd kv)) (scaleFactors d) nunit.

(** The chain [Dataset._open] builds for a tree name: the dataset's files
    are added to it and, when some were found, the preselection becomes
    its entry list. *)
Definition TChain (d : Dataset) (tree : string) : Tree :=
  let treeName := if decide (tree = "") then treeName (nominalSystematics d) else tree in
  let n := TChain_Add E (fileNames d) treeName in
  mkTree treeName (fileNames d) n (TChain_bool E (fileNames d) treeName)
         (if decide (0 < n)%nat then preselection d else Cut_empty).

(** [Dataset._open]: the chain, with a warning logged when no file was
    found.  The [openTrees] cache only decides whether the chain object is
    reused and is left out.  The preselection of the dataset is carried by
    the chain; the entry list that [_applyPreselectionToTree] has ROOT draw
    for it, and the [treeEntryLists] cache of these lists, have no state
    here and are no scan of [World]. *)
Definition _open (d : Dataset) (tree : string) (w : World) : Tree * World :=
  let t := TChain d tree in
  (t, if decide (0 < nFiles t)%nat then w
      else logging WARNING "_open(): found no files" w).

(** [self.systematicsSet.union( systematicsSet ) if systematicsSet else
    self.systematicsSet] *)
Definition unionSystematics (d : Dataset) (extra : option (gset string)) : gset string :=
  match extra with
  | Some s => if decide (s = ∅) then systematicsSet d else systematicsSet d ∪ s
  | None => systematicsSet d
  end.

(** [systematicVariation if systematicVariation else self.nominalSystematics] *)
Definition orNominal (d : Dataset) (v : option TreeSystematicVariation) : TreeSystematicVariation :=
  match v with
  | Some v => v
  | None => nominalSystematics d
  end.

(** [if not systematics or systematics not in systematicsSet:
       systematicVariation = self.nominalSystematics] *)
Definition demote (d : Dataset) (set : gset string) (v : TreeSystematicVariation)
    : TreeSystematicVariation :=
  match systematics v with
  | Some s => if decide (s ∈ set) then v else nominalSystematics d
  | None => nominalSystematics d
  end.

(** ** Dataset.getHistogram *)

Record HistArgs := mkHistArgs {
  a_title : string;
  a_cut : Cut;
  a_weightExpression : Weight;
  a_drawOption : string;
  a_style : option Style;
  a_luminosity : num;
  a_recreate : bool;
  a_systematicVariation : option TreeSystematicVariation;
  a_includeOverflowBins : bool;
  a_ignoreDataWeight : bool;
  a_systematicsSet : option (gset string);
  a_forceBinning : bool
}.

(** [title if title else self.title] *)
Definition orTitle (d : Dataset) (t : string) : string :=
  if decide (t = "") then title d else t.

(** [style if style else self.style] *)
Definition orStyle (d : Dataset) (s : option Style) : option Style :=
  match s with
  | Some s => Some s
  | None => style d
  end.

(** The weight expression of a query: the override when given, the
    dataset's own otherwise and always for data under [ignoreDataWeight]. *)
Definition orWeight (d : Dataset) (we : Weight) (ignoreDataWeight : bool) : Weight :=
  let we := match we with [] => weightExpression d | _ => we end in
  if ignoreDataWeight && isData d then weightExpression d else we.

(** Lines 870-872: the division by the sum of weights. *)
Definition divideBySumOfWeights (d : Dataset) (hist : Hist) : Hist :=
  if truthy (sumOfWeights d) && truthy (Integral 0 (GetNbinsX hist + 1) hist)
     && negb (isData d)
  then Scale (ndiv nunit (sumOfWeights d)) hist
  else hist.

(** Lines 877-887: binning, overflow and the scale factors. *)
Definition applyScaleFactors (d : Dataset) (set : gset string)
    (v : TreeSystematicVariation) (cut : Cut) (xVar : Var) (a : HistArgs)
    (hist : Hist) : Hist :=
  let hist := if a_forceBinning a then forceBinning E hist xVar else hist in
  let hist := if a_includeOverflowBins a then overflowIntoLastBins E hist else hist in
  let sF := nmul (combinedScaleFactors d) (totalScaleFactor E set v cut) in
  let sF := if isData d then sF else nmul sF (a_luminosity a) in
  Scale sF hist.

(** Lines 876-896: what happens to the histogram after the store. *)
Definition finishHistogram (d : Dataset) (set : gset string)
    (v : TreeSystematicVariation) (cut : Cut) (xVar : Var) (sty : option Style)
    (a : HistArgs) (hist : option Hist) : option Hist :=
  let hist := applyScaleFactors d set v cut xVar a <$> hist in
  let hist := match sty with
              | Some s => Style_apply s <$> hist
              | None => hist
              end in
  if isData d then applyBlinding E xVar cut <$> hist else hist.

(** [Dataset.getHistogram].  A call of [createHistogramFromTree] is one
    scan.  Blinding leaves a missing histogram missing; the closing of the
    tree at the end (line 895) has no state here. *)
Definition getHistogram (d : Dataset) (xVar : Var) (a : HistArgs) (w : World)
    : option Hist * World :=
  let title := orTitle d (a_title a) in
  let sty := orStyle d (a_style a) in
  let weightExpression := orWeight d (a_weightExpression a) (a_ignoreDataWeight a) in
  let cut := _determineCut d (a_cut a) in
  let xVar := _determineVariable d xVar in
  let systematicVariation := orNominal d (a_systematicVariation a) in
  let set := unionSystematics d (a_systematicsSet a) in
  let systematicVariation := demote d set systematicVariation in
  let storeSystematicVariation :=
    if isShapeSystematics systematicVariation then systematicVariation
    else nominalSystematics d in
  let hist :=
    match histogramStore d with
    | Some s => SetTitle title <$> store_getHistogram s d storeSystematicVariation xVar cut w
    | None => None
    end in
  if (if hist is Some _ then a_recreate a else true)
  then
    let '(tree, w) := _open d (treeName systematicVariation) w in
    if negb (tvalid tree) then (None, w)
    else
      let weightExpression :=
        (weightExpression ++ totalWeight E set systematicVariation (Some cut))%list in
      let hist := createHistogramFromTree E xVar tree title cut weightExpression
                    (a_drawOption a) sty in
      let w := count_scan w in
      let hist := divideBySumOfWeights d <$> hist in
      let w := match histogramStore d with
               | Some s => store_putHistogram s d storeSystematicVariation xVar cut hist w
               | None => w
               end in
      (finishHistogram d set systematicVariation cut xVar sty a hist, w)
  else (finishHistogram d set systematicVariation cut xVar sty a hist, w).

(** ** Dataset.getHistogram2D and Dataset.getValues *)

(** Lines 937-950 of [getHistogram2D]: the division by the sum of weights,
    the scale factors and the style. *)
Definition finish2D (d : Dataset) (set : gset string) (v : TreeSystematicVariation)
    (cut : Cut) (sty : option Style) (luminosity : num) (hist : Hist) : Hist :=
  let hist :=
    if truthy (sumOfWeights d) && truthy (Integral 1 (GetNbinsX hist) hist)
       && negb (isData d)
    then Scale (ndiv nunit (sumOfWeights d)) hist
    else hist in
  let sF := nmul (combinedScaleFactors d) (totalScaleFactor E set v cut) in
  let sF := if isData d then sF else nmul sF luminosity in
  let hist := Scale sF hist in
  match sty with
  | Some s => Style_apply s hist
  | None => hist
  end.

(** [Dataset.getHistogram2D]: no store; the variation is tested against
    the dataset's own systematics set (line 927). *)
Definition getHistogram2D (d : Dataset) (xVar yVar : Var) (a : HistArgs) (profile : bool)
    (w : World) : option Hist * World :=
  let title := orTitle d (a_title a) in
  let sty := orStyle d (a_style a) in
  let weightExpression :=
    match a_weightExpression a with [] => weightExpression d | we => we end in
  let systematicVariation := orNominal d (a_systematicVariation a) in
  let cut := _determineCut d (a_cut a) in
  let xVar := _determineVariable d xVar in
  let set := unionSystematics d (a_systematicsSet a) in
  let systematicVariation := demote d (systematicsSet d) systematicVariation in
  let weightExpression :=
    (weightExpression ++ totalWeight E set systematicVariation (Some cut))%list in
  let '(tree, w) := _open d (treeName systematicVariation) w in
  if negb (tvalid tree) then (None, w)
  else
    let hist := create2DHistogramFromTree E tree xVar yVar title cut weightExpression profile in
    let w := count_scan w in
    (finish2D d set systematicVariation cut sty (a_luminosity a) <$> hist, w).

(** [Dataset.getValues]: the values and weights of the rows that pass the
    cut, [None] when the tree is null.  The variation is used as given. *)
Definition getValues (d : Dataset) (xVar : Var) (cut : Cut) (we : Weight)
    (luminosity : num) (variation : option TreeSystematicVariation)
    (extra : option (gset string)) (w : World)
    : option (list num * list num) * World :=
  let weightExpression := match we with [] => weightExpression d | _ => we end in
  let systematicVariation := orNominal d variation in
  let set := unionSystematics d extra in
  let cut := Cut_mul (Cut_mul (_determineCut d cut) weightExpression)
                     (totalWeight E set systematicVariation None) in
  let xVar := _determineVariable d xVar in
  let '(tree, w) := _open d (treeName systematicVariation) w in
  if negb (tvalid tree) then (None, w)
  else
    let '(values, weights) := getValuesFromTree E tree (command xVar) (Cut_expression cut) in
    let w := count_scan w in
    let sF := nmul (combinedScaleFactors d) (totalScaleFactor E set systematicVariation cut) in
    let sF := if isData d then sF else nmul sF luminosity in
    (Some (values, map (fun x => nmul x sF) weights), w).

(** ** PhysicsProcess.getHistogram *)

(** One turn of the loop over the daughters (lines 1382-1391): [h] is what
    the daughter returned. *)
Definition mergeStep (title : string) (h : option Hist) (histogram : option Hist)
    (w : World) : option Hist * World :=
  match h with
  | None => (histogram, logging WARNING "getHistogram(): no histogram created" w)
  | Some h =>
    match histogram with
    | None => (Some (SetTitle title h), w)
    | Some histogram => (Some (Add h histogram), w)
    end
  end.

(** The loop over [self.datasets]; [query] asks one daughter. *)
Definition mergeLoop (query : Sample -> World -> option Hist * World) (title : string)
    : list Sample -> option Hist -> World -> option Hist * World :=
  fix loop (datasets : list Sample) (histogram : option Hist) (w : World) :=
    match datasets with
    | [] => (histogram, w)
    | dataset :: rest =>
      let '(h, w) := query dataset w in
      let '(histogram, w) := mergeStep title h histogram w in
      loop rest histogram w
    end.

(** The arguments a process hands to each daughter (line 1383). *)
Definition daughterArgs (p : Dataset) (a : HistArgs) : HistArgs :=
  mkHistArgs (orTitle p (a_title a)) (_determineCut p (a_cut a)) (a_weightExpression a)
    (a_drawOption a) (orStyle p (a_style a)) (a_luminosity a) (a_recreate a)
    (a_systematicVariation a) (a_includeOverflowBins a) (a_ignoreDataWeight a)
    (Some (unionSystematics p (a_systematicsSet a))) (a_forceBinning a).

(** Lines 1392-1396: style and the process's own scale factors. *)
Definition finishProcess (p : Dataset) (sty : option Style) (histogram : option Hist)
    : option Hist :=
  (fun h =>
     let h := match sty with Some s => Style_apply s h | None => h end in
     Scale (combinedScaleFactors p) h) <$> histogram.

(** [getHistogram] with dynamic dispatch: [Dataset.getHistogram] on a
    dataset, [PhysicsProcess.getHistogram] on a process. *)
Fixpoint Sample_getHistogram (s : Sample) (xVar : Var) (a : HistArgs) (w : World)
    {struct s} : option Hist * World :=
  match s with
  | Leaf d => getHistogram d xVar a w
  | Process p datasets =>
    let a' := daughterArgs p a in
    let xVar := _determineVariable p xVar in
    let '(histogram, w) :=
      mergeLoop (fun dataset w => Sample_getHistogram dataset xVar a' w)
                (a_title a') datasets None w in
    (finishProcess p (a_style a') histogram, w)
  end.

(** ** Dataset.getYield *)

Inductive Exn := AttributeError.

Inductive Outcome (A : Type) :=
| Returned (x : A)
| Raised (e : Exn).

Record YieldArgs := mkYieldArgs {
  y_cut : Cut;
  y_weightExpression : Weight;
  y_luminosity : num;
  y_ignoreWeights : bool;
  y_systematicVariation : option TreeSystematicVariation;
  y_ignoreDataWeight : bool;
  y_ignoreSF : bool;
  y_systematicsSet : option (gset string);
  y_recreate : bool
}.

(** The arguments [getYield] passes to [getHistogram] (line 782). *)
Definition yieldHistArgs (y : YieldArgs) : HistArgs :=
  mkHistArgs "" (y_cut y) (y_weightExpression y) "" None (y_luminosity y) (y_recreate y)
    (y_systematicVariation y) false (y_ignoreDataWeight y) (y_systematicsSet y) false.

(** [Dataset.getYield], inherited by [PhysicsProcess].  A method call on
    [None] raises AttributeError. *)
Definition getYield (s : Sample) (y : YieldArgs) (w : World)
    : Outcome (num * num) * World :=
  let '(hist, w) := Sample_getHistogram s var_Yield (yieldHistArgs y) w in
  match hist with
  | None => (Raised _ AttributeError, w)
  | Some hist =>
    if y_ignoreWeights y
    then let value := GetEntries hist in (Returned _ (value, nsqrt value), w)
    else (Returned _ (IntegralAndError 0 (GetNbinsX hist + 2) hist), w)
  end.

(** ** The stages of Dataset.getHistogram by name *)

(** The variation a query runs with (lines 845-849). *)
Definition queryVariation (d : Dataset) (a : HistArgs) : TreeSystematicVariation :=
  demote d (unionSystematics d (a_systematicsSet a)) (orNominal d (a_systematicVariation a)).

(** The variation a histogram is stored under (line 854). *)
Definition storeVariation (d : Dataset) (a : HistArgs) : TreeSystematicVariation :=
  if isShapeSystematics (queryVariation d a) then queryVariation d a
  else nominalSystematics d.

(** The key of lines 856 and 874. *)
Definition queryKey (d : Dataset) (xVar : Var) (a : HistArgs) : Key :=
  mkKey d (storeVariation d a) (_determineVariable d xVar) (_determineCut d (a_cut a)).

(** What the dataset's store holds for a query. *)
Definition cached (d : Dataset) (xVar : Var) (a : HistArgs) (w : World) : option Hist :=
  s ← histogramStore d; stores w !! (s, queryKey d xVar a).

(** The tree a query reads (line 863). *)
Definition queryTree (d : Dataset) (a : HistArgs) : Tree :=
  TChain d (treeName (queryVariation d a)).

(** The raw result of the scan of line 868. *)
Definition scanned (d : Dataset) (xVar : Var) (a : HistArgs) : option Hist :=
  createHistogramFromTree E (_determineVariable d xVar) (queryTree d a)
    (orTitle d (a_title a)) (_determineCut d (a_cut a))
    (orWeight d (a_weightExpression a) (a_ignoreDataWeight a) ++
     totalWeight E (unionSystematics d (a_systematicsSet a)) (queryVariation d a)
       (Some (_determineCut d (a_cut a))))%list
    (a_drawOption a) (orStyle d (a_style a)).

(** Lines 876-896 for a query: everything applied after the store. *)
Definition afterStore (d : Dataset) (xVar : Var) (a : HistArgs) (hist : option Hist)
    : option Hist :=
  finishHistogram d (unionSystematics d (a_systematicsSet a)) (queryVariation d a)
    (_determineCut d (a_cut a)) (_determineVariable d xVar) (orStyle d (a_style a)) a hist.

(** The world a scanning query leaves: the chain opened, the scan counted
    and the histogram, divided by the sum of weights, put into the store
    (lines 863-874). *)
Definition scanWorld (d : Dataset) (xVar : Var) (a : HistArgs) (w : World) : World :=
  let w := count_scan (snd (_open d (treeName (queryVariation d a)) w)) in
  match histogramStore d with
  | Some s =>
    store_putHistogram s d (storeVariation d a) (_determineVariable d xVar)
      (_determineCut d (a_cut a)) (divideBySumOfWeights d <$> scanned d xVar a) w
  | None => w
  end.

(** ** Changing one attribute or argument *)

Definition set_scaleFactors (sf : list (string * num)) (d : Dataset) : Dataset :=
  mkDataset (name d) (title d) (style d) (weightExpression d) (sumOfWeights d) sf
    (fileNames d) (isData d) (ignoreCuts d) (addCuts d) (replaceVariables d)
    (histogramStore d) (systematicsSet d) (nominalSystematics d) (preselection d).

Definition set_sumOfWeights (sw : num) (d : Dataset) : Dataset :=
  mkDataset (name d) (title d) (style d) (weightExpression d) sw (scaleFactors d)
    (fileNames d) (isData d) (ignoreCuts d) (addCuts d) (replaceVariables d)
    (histogramStore d) (systematicsSet d) (nominalSystematics d) (preselection d).

(** The arguments with another luminosity, overflow and binning request. *)
Definition set_normalisation (luminosity : num) (includeOverflowBins forceBinning : bool)
    (a : HistArgs) : HistArgs :=
  mkHistArgs (a_title a) (a_cut a) (a_weightExpression a) (a_drawOption a) (a_style a)
    luminosity (a_recreate a) (a_systematicVariation a) includeOverflowBins
    (a_ignoreDataWeight a) (a_systematicsSet a) forceBinning.

Definition set_luminosity (luminosity : num) (a : HistArgs) : HistArgs :=
  set_normalisation luminosity (a_includeOverflowBins a) (a_forceBinning a) a.

Definition set_variation (v : option TreeSystematicVariation) (a : HistArgs) : HistArgs :=
  mkHistArgs (a_title a) (a_cut a) (a_weightExpression a) (a_drawOption a) (a_style a)
    (a_luminosity a) (a_recreate a) v (a_includeOverflowBins a)
    (a_ignoreDataWeight a) (a_systematicsSet a) (a_forceBinning a).

Definition set_yield_luminosity (luminosity : num) (y : YieldArgs) : YieldArgs :=
  mkYieldArgs (y_cut y) (y_weightExpression y) luminosity (y_ignoreWeights y)
    (y_systematicVariation y) (y_ignoreDataWeight y) (y_ignoreSF y) (y_systematicsSet y)
    (y_recreate y).

(** ** The fan-out of a process as the spec words it *)

(** Section 4.4: each daughter is asked in turn with the resolved context;
    a daughter without result is reported. *)
Fixpoint askDaughters (query : Sample -> World -> option Hist * World)
    (datasets : list Sample) (w : World) : list (option Hist) * World :=
  match datasets with
  | [] => ([], w)
  | dataset :: rest =>
    let '(h, w) := query dataset w in
    let w := match h with
             | Some _ => w
             | None => logging WARNING "getHistogram(): no histogram created" w
             end in
    let '(hs, w) := askDaughters query rest w in
    (h :: hs, w)
  end.

(** Section 4.4: histograms merge by bin-wise sum; no histogram when there
    is none to merge. *)
Definition mergeBinwise (title : string) (hs : list Hist) : option Hist :=
  match hs with
  | [] => None
  | h :: rest => Some (fold_left (fun acc h' => Add h' acc) rest (SetTitle title h))
  end.

(** The number of daughters that returned no histogram. *)
Fixpoint missing (rs : list (option Hist)) : nat :=
  match rs with
  | [] => 0
  | None :: rest => S (missing rest)
  | Some _ :: rest => missing rest
  end.

(** The number of warnings of line 1385 in the log. *)
Definition noHistogramWarnings (w : World) : nat :=
  length (filter (fun e => e = (WARNING, "getHistogram(): no histogram created")) (log w)).

(** ** More of Dataset and PhysicsProcess *)

Definition set_systematicsSet (ss : gset string) (d : Dataset) : Dataset :=
  mkDataset (name d) (title d) (style d) (weightExpression d) (sumOfWeights d)
    (scaleFactors d) (fileNames d) (isData d) (ignoreCuts d) (addCuts d)
    (replaceVariables d) (histogramStore d) ss (nominalSystematics d) (preselection d).

Definition set_preselection (cut : Cut) (d : Dataset) : Dataset :=
  mkDataset (name d) (title d) (style d) (weightExpression d) (sumOfWeights d)
    (scaleFactors d) (fileNames d) (isData d) (ignoreCuts d) (addCuts d)
    (replaceVariables d) (histogramStore d) (systematicsSet d) (nominalSystematics d) cut.

(** What [addSystematics] is given: a set of systematics, which [|=]
    unites with the dataset's, or one systematics, added after the
    TypeError. *)
Inductive SystematicsArg :=
| ManySystematics (xs : gset string)
| OneSystematics (x : string).

(** [Dataset.addSystematics] *)
Definition addSystematics (x : SystematicsArg) (d : Dataset) : Dataset :=
  match x with
  | ManySystematics xs => set_systematicsSet (systematicsSet d ∪ xs) d
  | OneSystematics x => set_systematicsSet (systematicsSet d ∪ {[x]}) d
  end.

(** [Dataset.removeSystematics] *)
Definition removeSystematics (x : string) (d : Dataset) : Dataset :=
  set_systematicsSet (systematicsSet d ∖ {[x]}) d.

(** [addSystematicsToAllDaughters]: a dataset adds to itself, a process
    hands on to its daughters and leaves its own set alone. *)
Fixpoint addSystematicsToAllDaughters (x : SystematicsArg) (s : Sample) : Sample :=
  match s with
  | Leaf d => Leaf (addSystematics x d)
  | Process p datasets => Process p (map (addSystematicsToAllDaughters x) datasets)
  end.

(** [removeSystematicsFromAllDaughters]: a process discards from its own
    set as well. *)
Fixpoint removeSystematicsFromAllDaughters (x : string) (s : Sample) : Sample :=
  match s with
  | Leaf d => Leaf (removeSystematics x d)
  | Process p datasets =>
    Process (removeSystematics x p) (map (removeSystematicsFromAllDaughters x) datasets)
  end.

(** [combinedSystematicsSet] *)
Fixpoint combinedSystematicsSet (s : Sample) : gset string :=
  match s with
  | Leaf d => systematicsSet d
  | Process p datasets =>
    fold_left (fun result dataset => result ∪ combinedSystematicsSet dataset) datasets
              (systematicsSet p)
  end.

(** [trueDatasets] *)
Fixpoint trueDatasets (s : Sample) : list Dataset :=
  match s with
  | Leaf d => [d]
  | Process p datasets =>
    fold_left (fun result dataset => (result ++ trueDatasets dataset)%list) datasets []
  end.

(** The setter of [preselection]: a dataset takes the cut, a process hands
    it to every daughter.  The entry lists, which the setter clears, are
    made anew from the preselection whenever [_open] builds a chain. *)
Fixpoint Sample_set_preselection (cut : Cut) (s : Sample) : Sample :=
  match s with
  | Leaf d => Leaf (set_preselection cut d)
  | Process p datasets => Process p (map (Sample_set_preselection cut) datasets)
  end.

(** The getter of [preselection]: a process returns what its first
    daughter returns, [None] without daughters. *)
Fixpoint Sample_preselection (s : Sample) : option Cut :=
  match s with
  | Leaf d => Some (preselection d)
  | Process p datasets =>
    match datasets with
    | [] => None
    | dataset :: _ => Sample_preselection dataset
    end
  end.

(** [Dataset.entries]: the entries of the nominal tree, which is opened
    for it; [GetEntries] is ROOT's. *)
Definition Dataset_entries (GetEntries : Tree -> nat) (d : Dataset) (w : World)
    : nat * World :=
  let '(tree, w) := _open d (treeName (nominalSystematics d)) w in
  (GetEntries tree, w).

(** [entries] with dynamic dispatch: a process adds up its daughters'. *)
Fixpoint Sample_entries (GetEntries : Tree -> nat) (s : Sample) (w : World)
    {struct s} : nat * World :=
  match s with
  | Leaf d => Dataset_entries GetEntries d w
  | Process p datasets =>
    fold_left (fun acc dataset =>
                 let '(n, w) := Sample_entries GetEntries dataset (snd acc) in
                 (fst acc + n, w))
              datasets (0, w)
  end.

(** ** PhysicsProcess.getHistogram2D *)

(** One turn of the loop of lines 1421-1430. *)
Definition mergeStep2D (title : string) (h : option Hist) (histogram : option Hist)
    (w : World) : option Hist * World :=
  match h with
  | None => (histogram, logging WARNING "getHistogram2D(): no histogram created" w)
  | Some h =>
    match histogram with
    | None => (Some (SetTitle title h), w)
    | Some histogram => (Some (Add h histogram), w)
    end
  end.

Definition mergeLoop2D (query : Sample -> World -> option Hist * World) (title : string)
    : list Sample -> option Hist -> World -> option Hist * World :=
  fix loop (datasets : list Sample) (histogram : option Hist) (w : World) :=
    match datasets with
    | [] => (histogram, w)
    | dataset :: rest =>
      let '(h, w) := query dataset w in
      let '(histogram, w) := mergeStep2D title h histogram w in
      loop rest histogram w
    end.

(** The arguments of line 1422: the systematics set is not among them. *)
Definition daughterArgs2D (p : Dataset) (a : HistArgs) : HistArgs :=
  mkHistArgs (orTitle p (a_title a)) (_determineCut p (a_cut a)) (a_weightExpression a)
    (a_drawOption a) (orStyle p (a_style a)) (a_luminosity a) (a_recreate a)
    (a_systematicVariation a) (a_includeOverflowBins a) (a_ignoreDataWeight a)
    None (a_forceBinning a).

(** [getHistogram2D] with dynamic dispatch. *)
Fixpoint Sample_getHistogram2D (s : Sample) (xVar yVar : Var) (a : HistArgs)
    (profile : bool) (w : World) {struct s} : option Hist * World :=
  match s with
  | Leaf d => getHistogram2D d xVar yVar a profile w
  | Process p datasets =>
    let a' := daughterArgs2D p a in
    let xVar := _determineVariable p xVar in
    let yVar := _determineVariable p yVar in
    let '(histogram, w) :=
      mergeLoop2D (fun dataset w => Sample_getHistogram2D dataset xVar yVar a' profile w)
                  (a_title a') datasets None w in
    (finishProcess p (a_style a') histogram, w)
  end.

(** ** PhysicsProcess.getValues *)

Inductive PyExc := TypeError.

Inductive Result (A : Type) :=
| Ok (x : A)
| Raise (e : PyExc).

(** The loop of lines 1354-1357: unpacking [None] raises TypeError,
    [numpy.append] concatenates. *)
Definition valuesLoop
    (query : Sample -> World -> Result (option (list num * list num)) * World)
    : list Sample -> list num -> list num -> World
      -> Result (list num * list num) * World :=
  fix loop (datasets : list Sample) (values weights : list num) (w : World) :=
    match datasets with
    | [] => (Ok _ (values, weights), w)
    | dataset :: rest =>
      match query dataset w with
      | (Raise _ e, w) => (Raise _ e, w)
      | (Ok _ None, w) => (Raise _ TypeError, w)
      | (Ok _ (Some (v, wt)), w) => loop rest (values ++ v)%list (weights ++ wt)%list w
      end
    end.

(** [getValues] with dynamic dispatch: [Dataset.getValues] on a dataset,
    [PhysicsProcess.getValues] on a process. *)
Fixpoint Sample_getValues (s : Sample) (xVar : Var) (cut : Cut) (we : Weight)
    (luminosity : num) (variation : option TreeSystematicVariation)
    (extra : option (gset string)) (w : World) {struct s}
    : Result (option (list num * list num)) * World :=
  match s with
  | Leaf d =>
    let '(r, w) := getValues d xVar cut we luminosity variation extra w in (Ok _ r, w)
  | Process p datasets =>
    let set := unionSystematics p extra in
    let cut := _determineCut p cut in
    let xVar := _determineVariable p xVar in
    match valuesLoop (fun dataset w =>
                        Sample_getValues dataset xVar cut we luminosity variation
                          (Some set) w)
                     datasets [] [] w with
    | (Ok _ (values, weights), w) =>
      (Ok _ (Some (values, map (fun x => nmul x (combinedScaleFactors p)) weights)), w)
    | (Raise _ e, w) => (Raise _ e, w)
    end
  end.

End Model.

Arguments Returned {A} x.
Arguments Raised {A} e.

(** The selection as the spec words it (section 4.3, resolveCut):
    preselection and user cut and injected cuts, minus the excluded cuts,
    in that order. *)
Definition resolveCut_spec {num : Type} (d : @Dataset num) (cut : Cut) : Cut :=
  let combined :=
    fold_left (fun c addedCut => Cut_add c addedCut) (addCuts d)
              (Cut_add (preselection d) cut) in
  fold_left (fun c ignoredCut => withoutCut c ignoredCut) (ignoreCuts d) combined.

(** ** Python objects: Dataset.__init__ and Dataset.copy *)

Module Py.
Section Objects.
Context {num : Type} `{Arith num}.

Definition loc := nat.

(** What an attribute, a dictionary entry or a list element holds: an
    immediate or a reference to an object on the heap. *)
Inductive Value :=
| VNone
| VBool (b : bool)
| VStr (s : string)
| VNum (x : num)
| VRef (l : loc).

Inductive Obj :=
| ODict (m : gmap string Value)
| OList (l : list Value)
| OInstance (cls : string) (attrs : gmap string Value).

(** The heap, the module-level registry [DATASETS] and the warnings. *)
Record State := mkState {
  heap : list Obj;
  DATASETS : gmap string loc;
  warnings : list string
}.

Definition empty_state : State := mkState [] ∅ [].

Definition alloc (o : Obj) (s : State) : loc * State :=
  (length (heap s), mkState (heap s ++ [o]) (DATASETS s) (warnings s)).

Definition store_obj (l : loc) (o : Obj) (s : State) : State :=
  mkState (<[l := o]> (heap s)) (DATASETS s) (warnings s).

(** [self.a] *)
Definition getattr (self : loc) (a : string) (s : State) : option Value :=
  match heap s !! self with
  | Some (OInstance _ attrs) => attrs !! a
  | _ => None
  end.

(** [self.a = v] *)
Definition setattr (self : loc) (a : string) (v : Value) (s : State) : option State :=
  match heap s !! self with
  | Some (OInstance cls attrs) => Some (store_obj self (OInstance cls (<[a := v]> attrs)) s)
  | _ => None
  end.

(** [copy(x)], [x.copy()]: a new object with the same entries. *)
Definition shallow_copy (l : loc) (s : State) : option (loc * State) :=
  o ← heap s !! l; Some (alloc o s).

(** [a = {}], [a = []] and the like: a fresh object bound to [self.a]. *)
Definition new_attr (self : loc) (a : string) (o : Obj) (s : State) : option State :=
  let '(l, s) := alloc o s in setattr self a (VRef l) s.

(** [Dataset._register] *)
Definition _register (self : loc) (oldName : string) (s : State) : option State :=
  n ← getattr self "_name" s;
  match n with
  | VStr name =>
    let reg := if decide (oldName <> "" /\ DATASETS s !! oldName = Some self)
               then delete oldName (DATASETS s) else DATASETS s in
    let ws := match reg !! name with
              | Some other => if decide (other = self) then warnings s
                              else (warnings s ++ ["name(): registering a Dataset with an already existing name"])%list
              | None => warnings s
              end in
    Some (mkState (heap s) (<[name := self]> reg) ws)
  | _ => None
  end.

(** The setter of [Dataset.name].  [oldName] is [None] while the object
    has no [_name] (the [AttributeError] branch); a name is never [None],
    so the first assignment always registers, also under the empty name.
    [_register] is then called with [None], which its test [if oldName]
    treats like the empty string.  Between two names, [name is not
    oldName] is read as the two strings being different. *)
Definition set_name (self : loc) (name : string) (s : State) : option State :=
  let oldName := match getattr self "_name" s with
                 | Some (VStr n) => Some n
                 | _ => None
                 end in
  s ← setattr self "_name" (VStr name) s;
  match oldName with
  | Some n => if decide (name = n) then Some s else _register self n s
  | None => _register self "" s
  end.

(** [self.a[k] = v] *)
Definition dict_setitem (self : loc) (a k : string) (v : Value) (s : State) : option State :=
  r ← getattr self a s;
  match r with
  | VRef l =>
    match heap s !! l with
    | Some (ODict m) => Some (store_obj l (ODict (<[k := v]> m)) s)
    | _ => None
    end
  | _ => None
  end.

(** [self.a.get(k)] *)
Definition dict_get (self : loc) (a k : string) (s : State) : option Value :=
  r ← getattr self a s;
  match r with
  | VRef l =>
    match heap s !! l with
    | Some (ODict m) => m !! k
    | _ => None
    end
  | _ => None
  end.

(** [self.a.append(v)] *)
Definition list_append (self : loc) (a : string) (v : Value) (s : State) : option State :=
  r ← getattr self a s;
  match r with
  | VRef l =>
    match heap s !! l with
    | Some (OList vs) => Some (store_obj l (OList (vs ++ [v])) s)
    | _ => None
    end
  | _ => None
  end.

(** The object [self.a] refers to. *)
Definition deref (self : loc) (a : string) (s : State) : option Obj :=
  r ← getattr self a s;
  match r with
  | VRef l => heap s !! l
  | _ => None
  end.

(** The setter of [Dataset.crossSection] and of [Dataset.kFactor]. *)
Definition set_factor (self : loc) (key attr : string) (value : num) (s : State)
    : option State :=
  s ← dict_setitem self "scaleFactors" key (VNum value) s;
  setattr self attr (VNum value) s.

(** A copy of a class-level default calculator. *)
Definition new_calculator (self : loc) (a : string) (binIndex : string) (s : State)
    : option State :=
  new_attr self a
    (OInstance "HistogramBasedSumOfWeightsCalculator"
       (<["sumOfWeights" := VNum nzero]> (<["calculated" := VBool false]>
        (<["histogramName" := VStr "h_metadata"]> (<["binIndex" := VStr binIndex]> ∅))))) s.

Fixpoint replace_hash (t : string) : string :=
  match t with
  | EmptyString => EmptyString
  | String c t' =>
    String (if decide (c = "#"%char) then "\"%char else c) (replace_hash t')
  end.

(** [Dataset.__init__] on a new instance; the file names are the
    caller's list when it is not empty, the style is left out. *)
Definition Dataset_init (name title : string) (fileNames : option loc) (treeName : string)
    (weightExpression : string) (crossSection kFactor : num) (isData : bool)
    (titleLatex : string) (s : State) : option (loc * State) :=
  let '(self, s) := alloc (OInstance "Dataset" ∅) s in
  s ← new_attr self "openTrees" (ODict ∅) s;
  s ← setattr self "keepTreesInMemory" (VBool false) s;
  s ← new_attr self "treeEntryLists" (ODict ∅) s;
  s ← set_name self name s;
  s ← new_attr self "scaleFactors" (ODict ∅) s;
  s ← new_attr self "scaleFactorsUncertainty" (ODict ∅) s;
  s ← setattr self "title" (VStr (if decide (title = "") then name else title)) s;
  s ← setattr self "titleLatex"
        (VStr (if decide (titleLatex = "") then replace_hash title else titleLatex)) s;
  s ← setattr self "_Dataset__weightExpression" (VStr weightExpression) s;
  s ← setattr self "_Dataset__sumOfWeights" (VNum nzero) s;
  s ← set_factor self "crossSection" "_Dataset__crossSection" crossSection s;
  s ← set_factor self "kFactor" "_Dataset__kFactor" kFactor s;
  s ← match fileNames with
      | Some l =>
        match heap s !! l with
        | Some (OList (_ :: _)) => setattr self "fileNames" (VRef l) s
        | _ => new_attr self "fileNames" (OList []) s
        end
      | None => new_attr self "fileNames" (OList []) s
      end;
  s ← new_attr self "friendTrees" (OList []) s;
  s ← setattr self "isData" (VBool isData) s;
  s ← new_attr self "ignoreCuts" (OList []) s;
  s ← new_attr self "addCuts" (OList []) s;
  s ← new_attr self "replaceVariables" (ODict ∅) s;
  s ← setattr self "histogramStore" VNone s;
  s ← new_calculator self "sumOfEventsCalculator" "7" s;
  s ← new_calculator self "sumOfWeightsCalculator" "8" s;
  s ← new_calculator self "sumOfWeightsSquaredCalculator" "9" s;
  s ← new_attr self "_Dataset__systematicsSet" (OList []) s;
  s ← new_attr self "nominalSystematics"
        (OInstance "TreeSystematicVariation"
           (<["name" := VStr "nominal"]> (<["treeName" := VStr treeName]> ∅))) s;
  s ← new_attr self "_preselection" (OInstance "Cut" (<["cut" := VStr ""]> ∅)) s;
  s ← setattr self "metadata" VNone s;
  Some (self, s).

(** [dataset.a = copy(self.a)] *)
Definition copy_attr (self dataset : loc) (a : string) (s : State) : option State :=
  r ← getattr self a s;
  match r with
  | VRef l => '(l', s) ← shallow_copy l s; setattr dataset a (VRef l') s
  | _ => None
  end.

(** [Dataset.copy] *)
Definition Dataset_copy (self : loc) (name title : string) (s : State)
    : option (loc * State) :=
  '(dataset, s) ← shallow_copy self s;
  s ← set_name dataset name s;
  s ← setattr dataset "title" (VStr title) s;
  s ← copy_attr self dataset "openTrees" s;
  s ← copy_attr self dataset "friendTrees" s;
  s ← copy_attr self dataset "scaleFactors" s;
  s ← copy_attr self dataset "fileNames" s;
  s ← copy_attr self dataset "ignoreCuts" s;
  s ← copy_attr self dataset "addCuts" s;
  s ← copy_attr self dataset "_Dataset__systematicsSet" s;
  Some (dataset, s).

(** [st'] differs from [st] at most in the attributes [xs] of object [o],
    in objects allocated since, in the registry and in the warnings. *)
Definition touches_only (o : loc) (xs : list string) (st st' : State) : Prop :=
  length (heap st) <= length (heap st') /\
  (forall l, l < length (heap st) -> l <> o -> heap st' !! l = heap st !! l) /\
  (forall a, a ∉ xs -> getattr o a st' = getattr o a st).

(** The attributes [Dataset.copy] assigns anew. *)
Definition copied_attrs : list string :=
  ["_name"; "title"; "openTrees"; "friendTrees"; "scaleFactors"; "fileNames";
   "ignoreCuts"; "addCuts"; "_Dataset__systematicsSet"].

(** The containers [Dataset.copy] duplicates (lines 263-269). *)
Definition copied_containers : list string :=
  ["openTrees"; "friendTrees"; "scaleFactors"; "fileNames"; "ignoreCuts"; "addCuts";
   "_Dataset__systematicsSet"].

(** [dataset.a = copy(self.a)] for each [a] of a list, in order. *)
Fixpoint copy_attrs (self dataset : loc) (xs : list string) (s : State) : option State :=
  match xs with
  | [] => Some s
  | x :: xs => s ← copy_attr self dataset x s; copy_attrs self dataset xs s
  end.

(** An instance lives at [self]. *)
Definition is_instance (self : loc) (s : State) : Prop :=
  exists cls attrs, heap s !! self = Some (OInstance cls attrs).

(** [st'] comes from [st] by an assignment to the attributes [xs] of the
    instance [o]: registry and warnings are as before. *)
Definition assigns (o : loc) (xs : list string) (st st' : State) : Prop :=
  is_instance o st' /\ touches_only o xs st st' /\
  DATASETS st' = DATASETS st /\ warnings st' = warnings st.

(** The objects of [s] are in [st] as they were. *)
Definition extends (s st : State) : Prop :=
  forall l, l < length (heap s) -> heap st !! l = heap s !! l.

(** The warnings after a registration of [o] under [name]. *)
Definition warned (name : string) (o : loc) (s : State) : list string :=
  match DATASETS s !! name with
  | Some other =>
    if decide (other = o) then warnings s
    else (warnings s ++ ["name(): registering a Dataset with an already existing name"])%list
  | None => warnings s
  end.

(** [HistogramBasedSumOfWeightsCalculator.calculate]: [binContent] is
    [getDatasetHistogramBinContent], which reads the dataset's files, and
    [tiny x] is [abs(x) < 1e-09]. *)
Definition calculate (binContent : State -> loc -> Value -> Value -> num)
    (tiny : num -> bool) (self dataset : loc) (s : State) : option (Value * State) :=
  c ← getattr self "calculated" s;
  match c with
  | VBool true => w ← getattr self "sumOfWeights" s; Some (w, s)
  | VBool false =>
    histogramName ← getattr self "histogramName" s;
    binIndex ← getattr self "binIndex" s;
    s ← setattr self "sumOfWeights" (VNum (binContent s dataset histogramName binIndex)) s;
    w ← getattr self "sumOfWeights" s;
    s ← match w with
        | VNum x => if tiny x then setattr self "sumOfWeights" (VNum nzero) s else Some s
        | _ => None
        end;
    w ← getattr self "sumOfWeights" s;
    Some (w, s)
  | _ => None
  end.

(** The getter of [Dataset.sumOfWeights]: the value that was set when it
    is not zero, the calculator's otherwise. *)
Definition Dataset_sumOfWeights (binContent : State -> loc -> Value -> Value -> num)
    (tiny : num -> bool) (self : loc) (s : State) : option (Value * State) :=
  w ← getattr self "_Dataset__sumOfWeights" s;
  match w with
  | VNum x =>
    if truthy x then Some (w, s)
    else
      c ← getattr self "sumOfWeightsCalculator" s;
      match c with
      | VRef calculator => calculate binContent tiny calculator self s
      | _ => None
      end
  | _ => None
  end.

End Objects.
End Py.
Arguments Ok {A} x.
Arguments Raise {A} e.

(** * Text lines: toString, fromString and the text files *)

Module Text.

(** [s.split(c)] *)
Fixpoint split (c : ascii) (s : string) : list string :=
  match s with
  | EmptyString => [EmptyString]
  | String a s' =>
    if decide (a = c) then EmptyString :: split c s'
    else match split c s' with
         | [] => [String a EmptyString]
         | w :: ws => String a w :: ws
         end
  end.

(** The characters [lstrip] and [rstrip] remove when called without
    argument: space, tab, line feed, vertical tab, form feed, carriage
    return. *)
Definition whitespace (a : ascii) : bool :=
  bool_decide (a ∈ [" "; "009"; "010"; "011"; "012"; "013"]%char).

(** The characters of [rstrip(', ')]. *)
Definition comma_or_space (a : ascii) : bool :=
  bool_decide (a = ","%char) || bool_decide (a = " "%char).

Fixpoint lstrip (p : ascii -> bool) (s : string) : string :=
  match s with
  | EmptyString => EmptyString
  | String a s' => if p a then lstrip p s' else s
  end.

Fixpoint rstrip (p : ascii -> bool) (s : string) : string :=
  match s with
  | EmptyString => EmptyString
  | String a s' =>
    match rstrip p s' with
    | EmptyString => if p a then EmptyString else String a EmptyString
    | r => String a r
    end
  end.

(** [x.lstrip().rstrip()], and [x.strip()] *)
Definition strip (s : string) : string := rstrip whitespace (lstrip whitespace s).

(** Whether [c] is a character of [s]. *)
Fixpoint occurs (c : ascii) (s : string) : bool :=
  match s with
  | EmptyString => false
  | String a s' => bool_decide (a = c) || occurs c s'
  end.

Inductive Error := AttributeError | ValueError.

Inductive Parsed (A : Type) :=
| Built (x : A)
| Failed (e : Error).

Arguments Built {A} x.
Arguments Failed {A} e.

Section Lines.
Context {num : Type} `{Arith num}.

(** Python's [int] and [float] on a string, [None] for ValueError, and the
    formats [%d] and [%g]. *)
Variables (py_int : string -> option Z) (py_float : string -> option num)
          (fmt_d : Z -> string) (fmt_g : num -> string).

(** What [toString] reads of a dataset and [fromString] sets. *)
Record Fields := mkFields {
  f_name : string;
  f_title : string;
  f_titleLatex : string;
  f_fileNames : list string;
  f_treeName : string;
  f_lineColor : Z;
  f_crossSection : num;
  f_kFactor : num
}.

(** [Dataset.toString] *)
Definition toString (self : Fields) : string :=
  let s := f_name self ++ "; " ++ f_title self ++ "; " ++ f_treeName self ++ "; "
           ++ fmt_d (f_lineColor self) ++ "; " ++ fmt_g (f_crossSection self) ++ "; "
           ++ fmt_g (f_kFactor self) ++ "; " in
  let s := fold_left (fun s fileName => s ++ (fileName ++ ", ")) (f_fileNames self) s in
  rstrip comma_or_space s.

(** The titles as [Dataset.__init__] sets them: the title falls back to
    the name, and the LaTeX title is made from the title that was passed,
    which raises AttributeError on [None]. *)
Definition init_titles (name : string) (title : option string) : Parsed (string * string) :=
  let title' := match title with
                | Some t => if decide (t = "") then name else t
                | None => name
                end in
  match title with
  | None => Failed AttributeError
  | Some t => Built (title', Py.replace_hash t)
  end.

(** The part of [Dataset.__init__] that [fromString] reaches; an empty
    list of file names is replaced by a new one. *)
Definition init_fields (name : string) (title : option string) (fileNames : list string)
    (treeName : string) (lineColor : Z) (crossSection kFactor : num) : Parsed Fields :=
  match init_titles name title with
  | Failed e => Failed e
  | Built (title', titleLatex) =>
    Built (mkFields name title' titleLatex
             (match fileNames with [] => [] | _ :: _ => fileNames end)
             treeName lineColor crossSection kFactor)
  end.

(** [result[i] if len(result) > i else d], parsed by [conv]. *)
Definition field {A} (conv : string -> option A) (result : list string) (i : nat) (d : A)
    : option A :=
  match result !! i with
  | Some x => conv x
  | None => Some d
  end.

(** [Dataset.fromString] *)
Definition fromString (s : string) : Parsed Fields :=
  let result := map strip (split ";" s) in
  let name := default "DataSet" (result !! 0) in
  let title := result !! 1 in
  let treeName := default "NOMINAL" (result !! 2) in
  match field py_int result 3 0%Z with
  | None => Failed ValueError
  | Some lineColor =>
    match field py_float result 4 nunit with
    | None => Failed ValueError
    | Some crossSection =>
      match field py_float result 5 nunit with
      | None => Failed ValueError
      | Some kFactor =>
        let fileNamesString := default "" (result !! 6) in
        let fileNames := map strip (split "," fileNamesString) in
        init_fields name title fileNames treeName lineColor crossSection kFactor
      end
    end
  end.

(** What [isData] is bound to: a flag, or the list that
    [PhysicsProcess.fromString] passes fifth. *)
Inductive Flag :=
| IsBool (b : bool)
| IsList (datasets : list Py.loc).

Record Process := mkProcess {
  p_name : string;
  p_title : string;
  p_titleLatex : string;
  p_lineColor : Z;
  p_kFactor : num;
  p_isData : Flag;
  p_datasets : list Py.loc
}.

(** [PhysicsProcess.__init__] with its first five parameters and
    [datasets], the eighth: the constructor of [Dataset] runs first, on
    the name, the title, the style, the k-factor and [isData], and the
    datasets are set last. *)
Definition PhysicsProcess_init (name : string) (title : option string) (style : Z)
    (kFactor : num) (isData : Flag) (datasets : option (list Py.loc)) : Parsed Process :=
  match init_titles name title with
  | Failed e => Failed e
  | Built (title', titleLatex) =>
    Built (mkProcess name title' titleLatex style kFactor isData
             (match datasets with
              | Some (d :: ds) => d :: ds
              | _ => []
              end))
  end.

(** The loop of [PhysicsProcess.fromString] over the dataset names: the
    datasets found in [DATASETS], and the names logged as unknown. *)
Fixpoint lookupDatasets (DATASETS : gmap string Py.loc) (datasetStrings : list string)
    (datasets : list Py.loc) (errors : list string) : list Py.loc * list string :=
  match datasetStrings with
  | [] => (datasets, errors)
  | datasetString :: rest =>
    let datasetName := strip datasetString in
    if decide (datasetName = "") then lookupDatasets DATASETS rest datasets errors
    else match DATASETS !! datasetName with
         | Some dataset => lookupDatasets DATASETS rest (datasets ++ [dataset]) errors
         | None => lookupDatasets DATASETS rest datasets (errors ++ [datasetName])
         end
  end.

(** [PhysicsProcess.fromString]: the unknown names that were logged, and
    the process or the exception. *)
Definition PhysicsProcess_fromString (DATASETS : gmap string Py.loc) (s : string)
    : list string * Parsed Process :=
  let result := map strip (split ";" s) in
  let name := default "PhysicsProcess" (result !! 0) in
  let title := result !! 1 in
  match field py_int result 2 0%Z with
  | None => ([], Failed ValueError)
  | Some lineColor =>
    match field py_float result 3 nunit with
    | None => ([], Failed ValueError)
    | Some kFactor =>
      let datasetsString := default "" (result !! 4) in
      let datasetStrings := split "," datasetsString in
      let '(datasets, errors) := lookupDatasets DATASETS datasetStrings [] [] in
      (errors, PhysicsProcess_init name title lineColor kFactor (IsList datasets) None)
    end
  end.

(** The lines of a file as iterating over it gives them, each with its
    line feed. *)
Fixpoint lines (content : string) : list string :=
  match content with
  | EmptyString => []
  | String a rest =>
    if decide (a = "010"%char) then String a EmptyString :: lines rest
    else match lines rest with
         | [] => [String a EmptyString]
         | l :: ls => String a l :: ls
         end
  end.

(** The loop of [readDatasetsFromTextFile]. *)
Fixpoint readLines (ls : list string) (datasets : list Fields) : Parsed (list Fields) :=
  match ls with
  | [] => Built datasets
  | line :: rest =>
    let line := strip line in
    match line with
    | EmptyString => readLines rest datasets
    | String a _ =>
      if bool_decide (a ∈ ["#"; "/"]%char) then readLines rest datasets
      else match fromString line with
           | Built d => readLines rest (datasets ++ [d])
           | Failed e => Failed e
           end
    end
  end.

(** [readDatasetsFromTextFile] on the content of the file. *)
Definition readDatasetsFromTextFile (content : string) : Parsed (list Fields) :=
  readLines (lines content) [].

(** [writeDatasetsToTextFile]: the content of the file it writes. *)
Definition writeDatasetsToTextFile (datasets : list Fields) : string :=
  fold_left (fun f dataset => f ++ (toString dataset ++ String "010" ""))
    datasets
    (("# Datasets" ++ String "010" "")
     ++ ("# name; title; treeName; color; crossSection; kFactor; fileName1, fileName2, ..."
         ++ String "010" "")).

(** A field that [toString] and [fromString] take as it is: without [;]
    and without white space at its ends. *)
Definition plain (s : string) : Prop :=
  occurs ";" s = false /\ lstrip whitespace s = s /\ rstrip whitespace s = s.

(** A file name that the list of file names takes as it is: not empty,
    plain and without comma. *)
Definition file_name (s : string) : Prop :=
  s <> "" /\ plain s /\ occurs "," s = false.

End Lines.
End Text.

(** ** A small scan engine over the rationals

    Concrete collaborators to run the model on: a tree named NOMINAL holds
    four rows and any other tree six, a row weighs 5/4 as soon as a weight
    expression is given, no file matches the pattern [missing.root] and a
    chain without files is null. *)

Module Demo.

Definition rows (t : @Tree) : Q :=
  if decide (tname t = "NOMINAL") then 4%Q else 6%Q.

Definition rowWeight (we : Weight) : Q :=
  match we with
  | [] => 1%Q
  | _ => (5 # 4)%Q
  end.

Definition attached (files : list string) : nat :=
  length (filter (fun f => f <> "missing.root") files).

Definition scan (xVar : Var) (t : Tree) (title : string) (cut : Cut) (we : Weight)
    (drawOption : string) (sty : option Style) : option (@Hist Q) :=
  Some (mkHist title
          [0%Q; nmul (rows t) (rowWeight we); 0%Q]
          [0%Q; nmul (rows t) (nmul (rowWeight we) (rowWeight we)); 0%Q]
          (rows t) None).

Definition engine : @Externals Q :=
  mkExternals
    (fun files _ => attached files)
    (fun files _ => bool_decide (0 < attached files)%nat)
    scan
    (fun t x y title cut we profile => scan x t title cut we "" None)
    (fun t cmd sel => (repeat 1%Q (Z.to_nat (Qnum (rows t))),
                       repeat 1%Q (Z.to_nat (Qnum (rows t)))))
    (fun _ _ _ => [])
    (fun _ _ _ => 1%Q)
    (fun h _ => h)
    (fun h => h)
    (fun _ _ h => h).

Definition nominal : TreeSystematicVariation := mkVariation "nominal" "NOMINAL" None false.

(** A simulated sample as in the module's self-test, with a store. *)
Definition background1 : @Dataset Q :=
  mkDataset "background1" "Background 1" None ["weight"] 2%Q
    [("crossSection", 5%Q); ("kFactor", 1%Q)] ["temp.root"] false [] [] []
    (Some "hist.root") ∅ nominal Cut_empty.

(** The same sample without a histogram store, the class default. *)
Definition background1_nostore : @Dataset Q :=
  mkDataset "background1" "Background 1" None ["weight"] 2%Q
    [("crossSection", 5%Q); ("kFactor", 1%Q)] ["temp.root"] false [] [] []
    None ∅ nominal Cut_empty.

(** Real data with a k-factor of two. *)
Definition data : @Dataset Q :=
  mkDataset "data" "Data" None [] 12000%Q
    [("crossSection", 1%Q); ("kFactor", 2%Q)] ["temp.root"] true [] [] []
    (Some "hist.root") ∅ nominal Cut_empty.

(** A sample whose only file pattern matches nothing. *)
Definition lost : @Dataset Q :=
  mkDataset "lost" "Lost" None ["weight"] 2%Q
    [("crossSection", 5%Q); ("kFactor", 1%Q)] ["missing.root"] false [] [] []
    (Some "hist.root") ∅ nominal Cut_empty.

Definition massCut : Cut := mkCut ["mass > 5"] [] "M > 5 GeV".

(** A sample that both excludes and injects the mass cut, with a
    preselection. *)
Definition overridden : @Dataset Q :=
  mkDataset "overridden" "Overridden" None ["weight"] 2%Q
    [("crossSection", 5%Q); ("kFactor", 1%Q)] ["temp.root"] false
    [massCut] [massCut] [] (Some "hist.root") ∅ nominal Cut_empty.

(** An up variation of a systematics JES that reads its own tree. *)
Definition jesUp : TreeSystematicVariation := mkVariation "JES_up" "JES_UP" (Some "JES") true.

Definition world0 : @World Q := mkWorld ∅ 0 [].

Definition args (luminosity : Q) : @HistArgs Q :=
  mkHistArgs "" Cut_empty [] "" None luminosity false None false false None false.

Definition yargs (luminosity : Q) (ignoreWeights : bool) : @YieldArgs Q :=
  mkYieldArgs Cut_empty [] luminosity ignoreWeights None false false None false.

Definition massVar : Var := mkVariable "mass" "50,0,25".

(** A dataset built the module's way, in an empty heap. *)
Definition built : Py.loc * @Py.State Q :=
  default (0, Py.empty_state)
    (Py.Dataset_init "a" "A" None "NOMINAL" "weight" 5%Q 1%Q false "" Py.empty_state).

(** Its copy. *)
Definition copied : Py.loc * @Py.State Q :=
  default (0, Py.empty_state) (Py.Dataset_copy (fst built) "b" "B" (snd built)).

(** The state once the copy's dictionary [a] has a new entry. *)
Definition updated (a : string) : @Py.State Q :=
  default Py.empty_state
    (Py.dict_setitem (fst copied) a "mass" (Py.VStr "mt") (snd copied)).

(** A process with a k-factor of two that registers a luminosity
    systematics; it has no files of its own. *)
Definition group : @Dataset Q :=
  mkDataset "group" "Group" None [] 0%Q [("kFactor", 2%Q)] [] false [] [] []
    None {["LUMI"]} nominal Cut_empty.

(** A process flagged as data, without scale factors. *)
Definition flagged : @Dataset Q :=
  mkDataset "observed" "Observed" None [] 0%Q [] [] true [] [] []
    None ∅ nominal Cut_empty.

(** The simulated sample and, one level down, the data. *)
Definition stack : @Sample Q :=
  Process group [Leaf background1; Process group [Leaf data]].

(** The same with the sample whose chain is null in between. *)
Definition holed : @Sample Q :=
  Process group [Leaf background1; Leaf lost; Leaf data].

(** Processes all the way down, and no dataset. *)
Definition hollow : list (@Sample Q) := [Process group []; Process group [Process group []]].

(** A variation of the luminosity systematics that stays on the nominal tree. *)
Definition lumiUp : TreeSystematicVariation :=
  mkVariation "LUMI_up" "NOMINAL" (Some "LUMI") false.

(** The query of [args] with another weight expression and title. *)
Definition reweighted (luminosity : Q) : @HistArgs Q :=
  mkHistArgs "Reweighted" Cut_empty ["otherWeight"] "E" None luminosity false None false
    false None false.

(** The state once the copy has a cross section of its own. *)
Definition rescaled : @Py.State Q :=
  default Py.empty_state
    (Py.set_factor (fst copied) "crossSection" "_Dataset__crossSection" 7%Q (snd copied)).

(** A heap that holds a caller's list of file names [files] and nothing
    else. *)
Definition filed (files : list (@Py.Value Q)) : @Py.State Q :=
  snd (Py.alloc (Py.OList files) Py.empty_state).

(** Files whose [h_metadata] holds twelve thousand in bin 8 and nothing in
    the other bins. *)
Definition metadata (s : @Py.State Q) (dataset : Py.loc) (histogramName binIndex : @Py.Value Q)
    : Q :=
  match binIndex with
  | Py.VStr "8" => 12000%Q
  | _ => 0%Q
  end.

(** [abs(x) < 1e-09] *)
Definition tiny (x : Q) : bool :=
  negb (Qle_bool (1 # 1000000000) x) && negb (Qle_bool x (- (1 # 1000000000))).

(** [int] on decimal digits with an optional sign, [float] and [%g] on
    whole numbers, [%d]. *)
Definition digit_value (a : ascii) : option Z :=
  let n := Z.of_nat (nat_of_ascii a) in
  if decide (48 <= n <= 57)%Z then Some (n - 48)%Z else None.

Fixpoint digits_value (s : string) (acc : Z) : option Z :=
  match s with
  | EmptyString => Some acc
  | String a s' =>
    match digit_value a with
    | Some d => digits_value s' (10 * acc + d)%Z
    | None => None
    end
  end.

Definition py_int (s : string) : option Z :=
  match s with
  | EmptyString => None
  | String "-" EmptyString => None
  | String "-" s' => Z.opp <$> digits_value s' 0%Z
  | _ => digits_value s 0%Z
  end.

Definition py_float (s : string) : option Q := inject_Z <$> py_int s.

Fixpoint digits (fuel : nat) (n : Z) (acc : string) : string :=
  match fuel with
  | O => acc
  | S fuel =>
    let acc := String (ascii_of_nat (Z.to_nat (48 + n mod 10))) acc in
    if decide (n < 10)%Z then acc else digits fuel (n / 10)%Z acc
  end.

Definition fmt_d (z : Z) : string :=
  if decide (z < 0)%Z then String "-" (digits 20 (- z)%Z "") else digits 20 z "".

Definition fmt_g (q : Q) : string := fmt_d (Qnum q / Zpos (Qden q))%Z.

(** The simulated sample as [toString] sees it, with two files, without
    files, and under a name that looks like a comment. *)
Definition stored (name : string) (fileNames : list string) : @Text.Fields Q :=
  Text.mkFields name "Background 1" "Background 1" fileNames "NOMINAL" 2%Z 5%Q 1%Q.

(** The registry of two datasets. *)
Definition registry : gmap string Py.loc := <["a" := 0]> (<["b" := 3]> ∅).

End Demo.

(** * Properties *)

(** ** Cut resolution *)

Lemma Cut_add_empty_l (c : Cut) : Cut_add Cut_empty c = c.
Proof. by destruct c. Qed.

Lemma terms_fold_add (l : list Cut) (c : Cut) :
  terms (fold_left (fun c a => Cut_add c a) l c) = (terms c ++ concat (map terms l))%list.
Proof.
  revert c. induction l as [|a l IH]; intros c; simpl.
  - by rewrite app_nil_r.
  - rewrite IH. simpl. by rewrite <- app_assoc.
Qed.

Lemma terms_fold_without (l : list Cut) (c : Cut) :
  terms (fold_left (fun c i => withoutCut c i) l c)
  = fold_left (fun ts i => remove_block (terms i) ts) l (terms c).
Proof.
  revert c. induction l as [|i l IH]; intros c; simpl; [done|]. by rewrite IH.
Qed.

(** C1, as the code has it: the excluded cuts are removed from the user
    cut alone, the injected cuts are conjoined afterwards and reach the
    selection untouched, and the preselection takes no part. *)
Theorem C1_determineCut_excludes_then_injects {num : Type} (d : @Dataset num) (cut : Cut) :
  terms (_determineCut d cut)
  = (fold_left (fun ts i => remove_block (terms i) ts) (ignoreCuts d) (terms cut)
     ++ concat (map terms (addCuts d)))%list.
Proof.
  unfold _determineCut. rewrite terms_fold_add, terms_fold_without.
  by rewrite Cut_add_empty_l.
Qed.

(** C1 as the spec states it fails: with the mass cut both excluded and
    injected, the code keeps it and the spec's order removes it. *)
Lemma C1_exclusion_is_not_last :
  ~ (forall (d : @Dataset Q) (cut : Cut), _determineCut d cut = resolveCut_spec d cut).
Proof.
  intros Hall. specialize (Hall Demo.overridden Cut_empty). vm_compute in Hall.
  discriminate Hall.
Qed.

(** ** The three ways through Dataset.getHistogram *)

Section Pipeline.
Context {num : Type} `{Arith num} (E : @Externals num).

Implicit Types (d : @Dataset num) (a : @HistArgs num) (w : @World num) (h : @Hist num).

(** A stored histogram is returned without opening or scanning anything. *)
Lemma getHistogram_hit d xVar a w h :
  cached d xVar a w = Some h -> a_recreate a = false ->
  getHistogram E d xVar a w
  = (afterStore E d xVar a (Some (SetTitle (orTitle d (a_title a)) h)), w).
Proof.
  intros Hc Hr. unfold getHistogram, cached, store_getHistogram, queryKey in *.
  destruct (histogramStore d) as [s|]; simpl in *; [|done].
  fold (queryVariation d a) in *. fold (storeVariation d a) in *.
  rewrite Hc. simpl. by rewrite Hr.
Qed.

(** Without a stored histogram, or on [recreate], the tree is scanned. *)
Lemma getHistogram_miss d xVar a w :
  cached d xVar a w = None \/ a_recreate a = true ->
  tvalid (queryTree E d a) = true ->
  getHistogram E d xVar a w
  = (afterStore E d xVar a (divideBySumOfWeights d <$> scanned E d xVar a),
     scanWorld E d xVar a w).
Proof.
  intros Hc Hv. unfold getHistogram, scanWorld.
  fold (queryVariation d a). fold (storeVariation d a).
  assert (Hgo : (if match histogramStore d with
                     | Some s => SetTitle (orTitle d (a_title a)) <$>
                         store_getHistogram s d (storeVariation d a)
                           (_determineVariable d xVar) (_determineCut d (a_cut a)) w
                     | None => None
                     end is Some _ then a_recreate a else true) = true).
  { destruct Hc as [Hc| ->]; [|by case_match].
    unfold cached, store_getHistogram, queryKey in *.
    destruct (histogramStore d); simpl in *; [by rewrite Hc|done]. }
  rewrite Hgo. unfold _open. cbv beta iota zeta.
  unfold queryTree in Hv. rewrite Hv. reflexivity.
Qed.

(** A null chain ends the query with no histogram. *)
Lemma getHistogram_unopened d xVar a w :
  cached d xVar a w = None \/ a_recreate a = true ->
  tvalid (queryTree E d a) = false ->
  getHistogram E d xVar a w
  = (None, snd (_open E d (treeName (queryVariation d a)) w)).
Proof.
  intros Hc Hv. unfold getHistogram.
  fold (queryVariation d a). fold (storeVariation d a).
  assert (Hgo : (if match histogramStore d with
                     | Some s => SetTitle (orTitle d (a_title a)) <$>
                         store_getHistogram s d (storeVariation d a)
                           (_determineVariable d xVar) (_determineCut d (a_cut a)) w
                     | None => None
                     end is Some _ then a_recreate a else true) = true).
  { destruct Hc as [Hc| ->]; [|by case_match].
    unfold cached, store_getHistogram, queryKey in *.
    destruct (histogramStore d); simpl in *; [by rewrite Hc|done]. }
  rewrite Hgo. unfold _open. cbv beta iota zeta.
  unfold queryTree in Hv. rewrite Hv. reflexivity.
Qed.

(** ** The histogram store *)

Lemma afterStore_None d xVar a : afterStore E d xVar a None = None.
Proof.
  unfold afterStore, finishHistogram. simpl.
  destruct (orStyle d (a_style a)), (isData d); reflexivity.
Qed.

Lemma cached_scanWorld d xVar a w s h0 :
  histogramStore d = Some s -> scanned E d xVar a = Some h0 ->
  cached d xVar a (scanWorld E d xVar a w) = Some (divideBySumOfWeights d h0).
Proof.
  intros Hs Hscan. unfold cached, scanWorld. rewrite Hs, Hscan. simpl.
  apply lookup_insert_eq.
Qed.

(** C2, as the code has it: what a scanning query puts into the store is
    the scanned histogram already divided by the sum of weights (for a
    simulated sample with a non-zero sum of weights and integral), and not
    yet scaled. *)
Theorem C2_store_holds_divided_histogram d xVar a w s h0 :
  histogramStore d = Some s ->
  cached d xVar a w = None \/ a_recreate a = true ->
  tvalid (queryTree E d a) = true ->
  scanned E d xVar a = Some h0 ->
  cached d xVar a (snd (getHistogram E d xVar a w))
  = Some (if truthy (sumOfWeights d) && truthy (Integral 0 (GetNbinsX h0 + 1) h0)
             && negb (isData d)
          then Scale (ndiv nunit (sumOfWeights d)) h0
          else h0).
Proof.
  intros Hs Hmiss Hv Hscan. rewrite getHistogram_miss by done. simpl.
  by rewrite (cached_scanWorld _ _ _ _ s h0).
Qed.

Lemma hit_any_normalisation d xVar a w c sf l o f :
  cached d xVar a w = Some c -> a_recreate a = false ->
  getHistogram E (set_scaleFactors sf d) xVar (set_normalisation l o f a) w
  = (afterStore E (set_scaleFactors sf d) xVar (set_normalisation l o f a)
       (Some (SetTitle (orTitle d (a_title a)) c)), w).
Proof.
  intros Hc Hr.
  exact (getHistogram_hit (set_scaleFactors sf d) xVar (set_normalisation l o f a) w c Hc Hr).
Qed.

Lemma miss_any_normalisation d xVar a w sf l o f :
  cached d xVar a w = None \/ a_recreate a = true ->
  tvalid (queryTree E d a) = true ->
  getHistogram E (set_scaleFactors sf d) xVar (set_normalisation l o f a) w
  = (afterStore E (set_scaleFactors sf d) xVar (set_normalisation l o f a)
       (divideBySumOfWeights d <$> scanned E d xVar a), scanWorld E d xVar a w).
Proof.
  intros Hc Hv.
  exact (getHistogram_miss (set_scaleFactors sf d) xVar (set_normalisation l o f a) w Hc Hv).
Qed.

Lemma unopened_any_normalisation d xVar a w sf l o f :
  cached d xVar a w = None \/ a_recreate a = true ->
  tvalid (queryTree E d a) = false ->
  getHistogram E (set_scaleFactors sf d) xVar (set_normalisation l o f a) w
  = (afterStore E (set_scaleFactors sf d) xVar (set_normalisation l o f a) None,
     snd (_open E d (treeName (queryVariation d a)) w)).
Proof.
  intros Hc Hv. rewrite afterStore_None.
  exact (getHistogram_unopened (set_scaleFactors sf d) xVar (set_normalisation l o f a) w Hc Hv).
Qed.

(** C3: luminosity, the dataset's scale factors, the overflow folding and
    the forced binning change neither the key nor the world a query leaves
    behind (the store included); they act in [afterStore], on a histogram
    [pre] that is the same whatever they are and that, with a store, is
    the stored histogram (retitled on a hit). *)
Theorem C3_normalisation_stays_out_of_the_store d xVar a w :
  exists (pre : option Hist) (w' : World),
    (forall sf luminosity includeOverflowBins forceBinning,
        let d' := set_scaleFactors sf d in
        let a' := set_normalisation luminosity includeOverflowBins forceBinning a in
        queryKey d' xVar a' = queryKey d xVar a /\
        getHistogram E d' xVar a' w = (afterStore E d' xVar a' pre, w')) /\
    (forall s p, histogramStore d = Some s -> pre = Some p ->
        exists c, cached d xVar a w' = Some c /\
                  (p = c \/ p = SetTitle (orTitle d (a_title a)) c)).
Proof.
  assert (Hcases : (exists c, cached d xVar a w = Some c /\ a_recreate a = false)
                   \/ (cached d xVar a w = None \/ a_recreate a = true)).
  { destruct (cached d xVar a w) as [c|]; [|by right; left].
    destruct (a_recreate a); [by right; right|]. left. by exists c. }
  destruct Hcases as [(c & Hc & Hr)|Hmiss].
  - exists (Some (SetTitle (orTitle d (a_title a)) c)), w. split.
    + intros sf l o f. split; [reflexivity|]. by apply hit_any_normalisation.
    + intros s p _ [= <-]. exists c. split; [done|by right].
  - destruct (tvalid (queryTree E d a)) eqn:Hv.
    + exists (divideBySumOfWeights d <$> scanned E d xVar a), (scanWorld E d xVar a w).
      split.
      * intros sf l o f. split; [reflexivity|]. by apply miss_any_normalisation.
      * intros s p Hs Hp. destruct (scanned E d xVar a) as [h0|] eqn:Hscan; [|done].
        injection Hp as <-. exists (divideBySumOfWeights d h0).
        split; [by apply (cached_scanWorld _ _ _ _ s)|by left].
    + exists None, (snd (_open E d (treeName (queryVariation d a)) w)). split.
      * intros sf l o f. split; [reflexivity|]. by apply unopened_any_normalisation.
      * by intros s p _ [=].
Qed.

(** ** Demotion of a variation *)

Lemma demote_nominal d (set : gset string) :
  demote d set (nominalSystematics d) = nominalSystematics d.
Proof. unfold demote. destruct (systematics _); [case_decide|]; done. Qed.

Lemma demote_unregistered d (set : gset string) v sy :
  systematics v = Some sy -> sy ∉ set -> demote d set v = nominalSystematics d.
Proof. intros Hs Hn. unfold demote. rewrite Hs. by case_decide. Qed.

(** [getHistogram] runs a variation whose systematics is not in the
    effective set as the nominal one. *)
Lemma getHistogram_demotes d xVar a w v sy :
  systematics v = Some sy -> sy ∉ unionSystematics d (a_systematicsSet a) ->
  getHistogram E d xVar (set_variation (Some v) a) w
  = getHistogram E d xVar (set_variation None a) w.
Proof.
  intros Hs Hn. unfold getHistogram, set_variation.
  cbn [a_title a_cut a_weightExpression a_drawOption a_style a_luminosity a_recreate
       a_systematicVariation a_includeOverflowBins a_ignoreDataWeight a_systematicsSet
       a_forceBinning orNominal].
  rewrite (demote_unregistered d _ v sy Hs Hn), demote_nominal. reflexivity.
Qed.

(** So does [getHistogram2D], which tests the dataset's own set. *)
Lemma getHistogram2D_demotes d xVar yVar a profile w v sy :
  systematics v = Some sy -> sy ∉ unionSystematics d (a_systematicsSet a) ->
  getHistogram2D E d xVar yVar (set_variation (Some v) a) profile w
  = getHistogram2D E d xVar yVar (set_variation None a) profile w.
Proof.
  intros Hs Hn. unfold getHistogram2D, set_variation.
  cbn [a_title a_cut a_weightExpression a_drawOption a_style a_luminosity a_recreate
       a_systematicVariation a_includeOverflowBins a_ignoreDataWeight a_systematicsSet
       a_forceBinning orNominal].
  assert (Hown : sy ∉ systematicsSet d).
  { intros Hin. apply Hn. unfold unionSystematics.
    destruct (a_systematicsSet a) as [x|]; [case_decide|]; set_solver. }
  rewrite (demote_unregistered d _ v sy Hs Hown), demote_nominal. reflexivity.
Qed.

(** [getValues] has no such step: the tree of the variation it is given
    is the one it reads. *)
Lemma getValues_keeps_variation d xVar cut we luminosity v extra w :
  tvalid (TChain E d (treeName v)) = true ->
  exists sF,
    fst (getValues E d xVar cut we luminosity (Some v) extra w)
    = Some (fst (getValuesFromTree E (TChain E d (treeName v))
                   (command (_determineVariable d xVar))
                   (Cut_expression
                      (Cut_mul (Cut_mul (_determineCut d cut)
                                  (match we with [] => weightExpression d | _ => we end))
                               (totalWeight E (unionSystematics d extra) v None)))),
            map (fun x => nmul x sF)
              (snd (getValuesFromTree E (TChain E d (treeName v))
                   (command (_determineVariable d xVar))
                   (Cut_expression
                      (Cut_mul (Cut_mul (_determineCut d cut)
                                  (match we with [] => weightExpression d | _ => we end))
                               (totalWeight E (unionSystematics d extra) v None)))))).
Proof.
  intros Hv. unfold getValues, _open. cbn [orNominal]. cbv beta iota zeta.
  rewrite Hv. cbn [negb].
  destruct (getValuesFromTree _ _ _ _) as [values weights]. cbn [fst snd].
  eexists. reflexivity.
Qed.

(** ** Yields *)

(** The yield is read off the histogram of the pipeline: its integral and
    error over all bins, or its number of entries under [ignoreWeights]. *)
Lemma getYield_of_histogram (s : Sample) (y : YieldArgs) w h :
  fst (Sample_getHistogram E s var_Yield (yieldHistArgs y) w) = Some h ->
  getYield E s y w
  = (Returned (if y_ignoreWeights y
               then (GetEntries h, nsqrt (GetEntries h))
               else IntegralAndError 0 (GetNbinsX h + 2) h),
     snd (Sample_getHistogram E s var_Yield (yieldHistArgs y) w)).
Proof.
  intros Hh. unfold getYield.
  destruct (Sample_getHistogram E s var_Yield (yieldHistArgs y) w) as [hist w1].
  simpl in *. subst hist. by destruct (y_ignoreWeights y).
Qed.

Lemma GetNbinsX_Scale c h : GetNbinsX (Scale c h) = GetNbinsX h.
Proof. unfold GetNbinsX, Scale. cbn. by rewrite length_map. Qed.

Lemma GetNbinsX_divideBySumOfWeights d h :
  GetNbinsX (divideBySumOfWeights d h) = GetNbinsX h.
Proof. unfold divideBySumOfWeights. case_match; [apply GetNbinsX_Scale|done]. Qed.

Lemma SetTitle_same h : SetTitle (htitle h) h = h.
Proof. by destruct h. Qed.

(** From the underflow bin to the overflow bin is every bin. *)
Lemma range_all {A} (l : list A) n : (length l <= n + 1)%nat -> range 0 n l = l.
Proof. intros Hn. unfold range. rewrite drop_0. apply take_ge. lia. Qed.

Lemma Integral_all h : Integral 0 (GetNbinsX h + 2) h = nsum (bins h).
Proof. unfold Integral, GetNbinsX. rewrite range_all; [done|lia]. Qed.

(** The histogram of a simulated dataset, bin by bin, where [h0] is the
    scan it goes back to, made by this query or, with a store, by an earlier
    one (the store holds the scan as divided by the sum of weights): the
    scan times [1/sumOfWeights], where the sum of weights and the integral
    of the scan are not zero, times the product of the scale factors, the
    systematics scale factor and the luminosity. *)
Lemma getHistogram_simulated d xVar a w h0 :
  isData d = false ->
  (cached d xVar a w = None \/ a_recreate a = true) /\
  tvalid (queryTree E d a) = true /\ scanned E d xVar a = Some h0
  \/ a_recreate a = false /\ cached d xVar a w = Some (divideBySumOfWeights d h0) ->
  a_forceBinning a = false -> a_includeOverflowBins a = false ->
  let sF := nmul (nmul (combinedScaleFactors d)
                    (totalScaleFactor E (unionSystematics d (a_systematicsSet a))
                       (queryVariation d a) (_determineCut d (a_cut a))))
              (a_luminosity a) in
  let divided := truthy (sumOfWeights d) && truthy (Integral 0 (GetNbinsX h0 + 1) h0) in
  let inverse := ndiv nunit (sumOfWeights d) in
  exists title,
    fst (getHistogram E d xVar a w)
    = Some (mkHist title
              (map (fun x => nmul (if divided then nmul x inverse else x) sF) (bins h0))
              (map (fun x => nmul (if divided then nmul x (nmul inverse inverse) else x)
                               (nmul sF sF)) (sumw2 h0))
              (entries h0)
              (match orStyle d (a_style a) with
               | Some st => Some st
               | None => hstyle h0
               end)).
Proof.
  intros Hd Hsource Hf Ho sF divided inverse.
  assert (Hfinish : forall t,
    afterStore E d xVar a (Some (SetTitle t (divideBySumOfWeights d h0)))
    = Some (mkHist t
              (map (fun x => nmul (if divided then nmul x inverse else x) sF) (bins h0))
              (map (fun x => nmul (if divided then nmul x (nmul inverse inverse) else x)
                               (nmul sF sF)) (sumw2 h0))
              (entries h0)
              (match orStyle d (a_style a) with
               | Some st => Some st
               | None => hstyle h0
               end))).
  { intros t.
    unfold afterStore, finishHistogram, applyScaleFactors, divideBySumOfWeights.
    rewrite Hd, Hf, Ho. cbn [negb]. rewrite andb_true_r. fold divided inverse sF.
    destruct divided, (orStyle d (a_style a));
      cbn [fmap option_fmap option_map]; unfold Style_apply, Scale, SetTitle;
      cbn [bins sumw2 htitle entries hstyle]; rewrite ?map_map; reflexivity. }
  destruct Hsource as [(Hmiss & Hv & Hscan)|[Hr Hc]].
  - exists (htitle (divideBySumOfWeights d h0)).
    rewrite (getHistogram_miss d xVar a w Hmiss Hv), Hscan. cbn [fst].
    cbn [fmap option_fmap option_map]. rewrite <- Hfinish.
    by rewrite SetTitle_same.
  - exists (orTitle d (a_title a)).
    rewrite (getHistogram_hit d xVar a w _ Hc Hr). cbn [fst]. apply Hfinish.
Qed.

(** C5, as the code has it: the yield and its error are the integral and
    error, over all bins, of the histogram the pipeline returns for the
    yield variable, or its number of entries and the square root of it
    under [ignoreWeights].  For a simulated dataset that histogram is the
    scan, of this query or of an earlier one served by the store, divided
    by the sum of weights, where this and the scan's integral are not zero,
    times the scale factors and the luminosity, and the yield is the sum of
    its bins. *)
Theorem C5_getYield_reads_the_histogram d (y : YieldArgs) w h0 :
  isData d = false ->
  (cached d var_Yield (yieldHistArgs y) w = None \/ y_recreate y = true) /\
  tvalid (queryTree E d (yieldHistArgs y)) = true /\
  scanned E d var_Yield (yieldHistArgs y) = Some h0
  \/ y_recreate y = false /\
     cached d var_Yield (yieldHistArgs y) w = Some (divideBySumOfWeights d h0) ->
  let sF := nmul (nmul (combinedScaleFactors d)
                    (totalScaleFactor E (unionSystematics d (y_systematicsSet y))
                       (queryVariation d (yieldHistArgs y)) (_determineCut d (y_cut y))))
              (y_luminosity y) in
  let divided := truthy (sumOfWeights d) && truthy (Integral 0 (GetNbinsX h0 + 1) h0) in
  let inverse := ndiv nunit (sumOfWeights d) in
  let content := map (fun x => nmul (if divided then nmul x inverse else x) sF) (bins h0) in
  let error2 := map (fun x => nmul (if divided then nmul x (nmul inverse inverse) else x)
                              (nmul sF sF)) (sumw2 h0) in
  (forall (s : Sample) (y' : YieldArgs) w' h,
     fst (Sample_getHistogram E s var_Yield (yieldHistArgs y') w') = Some h ->
     getYield E s y' w'
     = (Returned (if y_ignoreWeights y'
                  then (GetEntries h, nsqrt (GetEntries h))
                  else IntegralAndError 0 (GetNbinsX h + 2) h),
        snd (Sample_getHistogram E s var_Yield (yieldHistArgs y') w'))) /\
  (exists hist,
     fst (Sample_getHistogram E (Leaf d) var_Yield (yieldHistArgs y) w) = Some hist /\
     bins hist = content /\ sumw2 hist = error2 /\ entries hist = entries h0 /\
     Integral 0 (GetNbinsX hist + 2) hist = nsum content) /\
  fst (getYield E (Leaf d) y w)
  = Returned (if y_ignoreWeights y
              then (entries h0, nsqrt (entries h0))
              else (nsum content,
                    nsqrt (nsum (range 0 (GetNbinsX h0 + 2) error2)))).
Proof.
  intros Hd Hsource sF divided inverse content error2.
  destruct (getHistogram_simulated d var_Yield (yieldHistArgs y) w h0 Hd Hsource
              eq_refl eq_refl) as [title Hhist].
  change (fst (Sample_getHistogram E (Leaf d) var_Yield (yieldHistArgs y) w)
          = Some (mkHist title content error2 (entries h0)
                    (match style d with Some st => Some st | None => hstyle h0 end)))
    in Hhist.
  split; [exact getYield_of_histogram|]. split.
  - eexists. split; [exact Hhist|]. repeat split. apply Integral_all.
  - rewrite (getYield_of_histogram _ _ _ _ Hhist). cbn [fst].
    destruct (y_ignoreWeights y); [reflexivity|].
    unfold IntegralAndError. rewrite Integral_all. cbn [bins sumw2].
    do 3 f_equal. unfold GetNbinsX. cbn [bins]. subst content.
    by rewrite length_map.
Qed.

(** C9 fails on the code: with nothing stored and a null chain, or a scan
    that hands back no histogram, [getHistogram] returns no histogram, and
    [getYield] then calls a method on [None] and raises. *)
Theorem C9_getYield_raises_without_histogram d (y : YieldArgs) w :
  cached d var_Yield (yieldHistArgs y) w = None \/ y_recreate y = true ->
  tvalid (queryTree E d (yieldHistArgs y)) = false
  \/ scanned E d var_Yield (yieldHistArgs y) = None ->
  fst (getHistogram E d var_Yield (yieldHistArgs y) w) = None /\
  fst (getYield E (Leaf d) y w) = Raised AttributeError.
Proof.
  intros Hmiss Hsource.
  assert (Hnone : fst (getHistogram E d var_Yield (yieldHistArgs y) w) = None).
  { destruct (tvalid (queryTree E d (yieldHistArgs y))) eqn:Hv.
    - destruct Hsource as [|Hscan]; [done|].
      rewrite getHistogram_miss by done. cbn [fst]. rewrite Hscan.
      apply afterStore_None.
    - by rewrite getHistogram_unopened. }
  split; [done|]. unfold getYield. cbn [Sample_getHistogram].
  destruct (getHistogram E d var_Yield (yieldHistArgs y) w) as [hist w1].
  simpl in *. by subst hist.
Qed.

(** ** Repeated queries *)

Lemma htitle_divideBySumOfWeights d h : htitle (divideBySumOfWeights d h) = htitle h.
Proof. unfold divideBySumOfWeights. by case_match. Qed.

Lemma afterStore_Some_inv d xVar a hist h :
  afterStore E d xVar a hist = Some h -> exists h0, hist = Some h0.
Proof.
  destruct hist as [h0|]; [by exists h0|]. by rewrite afterStore_None.
Qed.

(** C6, as the code has it: for a dataset with a histogram store, once a
    query without [recreate] has returned a histogram, the same query
    returns the same histogram again and leaves the world as it is: no scan
    is made.  The scan engine is taken to title a histogram as asked. *)
Theorem C6_second_query_is_served_by_the_store d xVar a w s h1 :
  histogramStore d = Some s ->
  a_recreate a = false ->
  (forall h0, scanned E d xVar a = Some h0 -> htitle h0 = orTitle d (a_title a)) ->
  fst (getHistogram E d xVar a w) = Some h1 ->
  getHistogram E d xVar a (snd (getHistogram E d xVar a w))
  = (Some h1, snd (getHistogram E d xVar a w)) /\
  scans (snd (getHistogram E d xVar a (snd (getHistogram E d xVar a w))))
  = scans (snd (getHistogram E d xVar a w)).
Proof.
  intros Hs Hr Htitle H1.
  assert (Hfirst : getHistogram E d xVar a (snd (getHistogram E d xVar a w))
                   = (Some h1, snd (getHistogram E d xVar a w))); [|by rewrite Hfirst].
  destruct (cached d xVar a w) as [c|] eqn:Hc.
  - pose proof (getHistogram_hit d xVar a w c Hc Hr) as Hg.
    rewrite Hg in *. cbn [fst snd] in *. rewrite Hg. by rewrite H1.
  - destruct (tvalid (queryTree E d a)) eqn:Hv.
    + pose proof (getHistogram_miss d xVar a w (or_introl Hc) Hv) as Hg.
      rewrite Hg in *. cbn [fst snd] in *.
      destruct (afterStore_Some_inv _ _ _ _ _ H1) as [h' Hh'].
      destruct (scanned E d xVar a) as [h0|] eqn:Hscan; [|done].
      simpl in Hh'. injection Hh' as <-.
      rewrite (getHistogram_hit d xVar a _ (divideBySumOfWeights d h0));
        [|by apply (cached_scanWorld _ _ _ _ s)|done].
      rewrite <- (Htitle h0 eq_refl), <- (htitle_divideBySumOfWeights d h0).
      rewrite SetTitle_same. simpl in H1. by rewrite H1.
    + pose proof (getHistogram_unopened d xVar a w (or_introl Hc) Hv) as Hg.
      rewrite Hg in H1. done.
Qed.

(** ** Real data *)

Lemma divideBySumOfWeights_data d sw h :
  isData d = true -> divideBySumOfWeights (set_sumOfWeights sw d) h = h.
Proof.
  intros Hd. unfold divideBySumOfWeights. cbn [set_sumOfWeights isData sumOfWeights].
  by rewrite Hd, andb_false_r.
Qed.

Lemma divideBySumOfWeights_data' d h :
  isData d = true -> divideBySumOfWeights d h = h.
Proof. intros Hd. unfold divideBySumOfWeights. by rewrite Hd, andb_false_r. Qed.

Lemma afterStore_data d xVar a sw l hist :
  isData d = true ->
  afterStore E (set_sumOfWeights sw d) xVar (set_luminosity l a) hist
  = afterStore E d xVar a hist.
Proof.
  intros Hd. unfold afterStore, finishHistogram, applyScaleFactors.
  cbn [set_sumOfWeights set_luminosity set_normalisation isData a_forceBinning
       a_includeOverflowBins a_luminosity].
  rewrite Hd. reflexivity.
Qed.

Lemma scanWorld_data d xVar a sw l w :
  isData d = true ->
  scanWorld E (set_sumOfWeights sw d) xVar (set_luminosity l a) w = scanWorld E d xVar a w.
Proof.
  intros Hd. unfold scanWorld. cbn [set_sumOfWeights histogramStore].
  change (scanned E (set_sumOfWeights sw d) xVar (set_luminosity l a))
    with (scanned E d xVar a).
  destruct (scanned E d xVar a) as [h0|]; simpl;
    [rewrite divideBySumOfWeights_data, divideBySumOfWeights_data' by done|];
    reflexivity.
Qed.

Lemma getHistogram_data d xVar a sw l w :
  isData d = true ->
  getHistogram E (set_sumOfWeights sw d) xVar (set_luminosity l a) w
  = getHistogram E d xVar a w.
Proof.
  intros Hd.
  assert (Hcases : (exists c, cached d xVar a w = Some c /\ a_recreate a = false)
                   \/ (cached d xVar a w = None \/ a_recreate a = true)).
  { destruct (cached d xVar a w) as [c|]; [|by right; left].
    destruct (a_recreate a); [by right; right|]. left. by exists c. }
  destruct Hcases as [(c & Hc & Hr)|Hmiss].
  - rewrite (getHistogram_hit d xVar a w c) by done.
    rewrite (getHistogram_hit (set_sumOfWeights sw d) xVar (set_luminosity l a) w c)
      by done.
    by rewrite afterStore_data.
  - destruct (tvalid (queryTree E d a)) eqn:Hv.
    + rewrite (getHistogram_miss d xVar a w) by done.
      rewrite (getHistogram_miss (set_sumOfWeights sw d) xVar (set_luminosity l a) w)
        by done.
      rewrite afterStore_data, scanWorld_data by done.
      change (scanned E (set_sumOfWeights sw d) xVar (set_luminosity l a))
        with (scanned E d xVar a).
      destruct (scanned E d xVar a) as [h0|]; simpl;
        [rewrite divideBySumOfWeights_data, divideBySumOfWeights_data' by done|];
        reflexivity.
    + rewrite (getHistogram_unopened d xVar a w) by done.
      by rewrite (getHistogram_unopened (set_sumOfWeights sw d) xVar
                    (set_luminosity l a) w) by done.
Qed.

(** For real data no query depends on the luminosity or on the sum of
    weights. *)
Lemma data_ignores_luminosity_and_sumOfWeights d xVar yVar a profile cut we v extra
    (y : YieldArgs) w sw l l' :
  isData d = true ->
  getHistogram E (set_sumOfWeights sw d) xVar (set_luminosity l a) w
  = getHistogram E d xVar a w /\
  getHistogram2D E (set_sumOfWeights sw d) xVar yVar (set_luminosity l a) profile w
  = getHistogram2D E d xVar yVar a profile w /\
  getValues E (set_sumOfWeights sw d) xVar cut we l v extra w
  = getValues E d xVar cut we l' v extra w /\
  getYield E (Leaf (set_sumOfWeights sw d)) (set_yield_luminosity l y) w
  = getYield E (Leaf d) y w.
Proof.
  intros Hd. repeat split.
  - by apply getHistogram_data.
  - unfold getHistogram2D, _open. cbv beta iota zeta.
    change (TChain E (set_sumOfWeights sw d)) with (TChain E d).
    cbn [set_sumOfWeights set_luminosity set_normalisation isData sumOfWeights
         a_luminosity a_systematicVariation systematicsSet nominalSystematics
         orNominal demote].
    destruct (negb (tvalid _)); [reflexivity|]. f_equal.
    apply option_fmap_ext. intros h. unfold finish2D.
    cbn [set_sumOfWeights isData sumOfWeights]. rewrite Hd.
    cbn [negb]. rewrite !andb_false_r. reflexivity.
  - unfold getValues. cbn [set_sumOfWeights isData]. rewrite Hd. reflexivity.
  - unfold getYield. cbn [Sample_getHistogram].
    change (yieldHistArgs (set_yield_luminosity l y))
      with (set_luminosity l (yieldHistArgs y)).
    by rewrite getHistogram_data.
Qed.

(** The histogram of real data on a scan: the scan, rebinned as asked,
    times the dataset's scale factors and the systematics scale factor,
    styled and blinded. *)
Lemma getHistogram_data_scan d xVar a w :
  isData d = true ->
  cached d xVar a w = None \/ a_recreate a = true ->
  tvalid (queryTree E d a) = true ->
  fst (getHistogram E d xVar a w)
  = (fun h =>
       applyBlinding E (_determineVariable d xVar) (_determineCut d (a_cut a))
         ((match orStyle d (a_style a) with Some st => Style_apply st | None => id end)
            (Scale (nmul (combinedScaleFactors d)
                      (totalScaleFactor E (unionSystematics d (a_systematicsSet a))
                         (queryVariation d a) (_determineCut d (a_cut a))))
               ((if a_includeOverflowBins a then overflowIntoLastBins E else id)
                  (if a_forceBinning a
                   then forceBinning E h (_determineVariable d xVar) else h)))))
    <$> scanned E d xVar a.
Proof.
  intros Hd Hmiss Hv. rewrite getHistogram_miss by done. cbn [fst].
  unfold afterStore, finishHistogram, applyScaleFactors. rewrite Hd.
  destruct (scanned E d xVar a) as [h0|]; simpl;
    [rewrite divideBySumOfWeights_data' by done|];
    destruct (orStyle d (a_style a)), (a_includeOverflowBins a), (a_forceBinning a);
    reflexivity.
Qed.

(** C7 on the code: a real-data dataset is scaled neither by the
    luminosity nor by the sum of weights, in any query, but lines 883-886
    multiply its histogram by its own scale factors and the systematics
    scale factor all the same.  Where nothing is blinded, its yield on a
    scan is therefore the sum of the scanned bins each times that product,
    and not the number of selected rows. *)
Theorem C7_data_is_scaled_by_its_scale_factors d (y : YieldArgs) w h0 :
  isData d = true ->
  cached d var_Yield (yieldHistArgs y) w = None \/ y_recreate y = true ->
  tvalid (queryTree E d (yieldHistArgs y)) = true ->
  scanned E d var_Yield (yieldHistArgs y) = Some h0 ->
  (forall h, applyBlinding E (_determineVariable d var_Yield)
               (_determineCut d (y_cut y)) h = h) ->
  let sF := nmul (combinedScaleFactors d)
              (totalScaleFactor E (unionSystematics d (y_systematicsSet y))
                 (queryVariation d (yieldHistArgs y)) (_determineCut d (y_cut y))) in
  let content := map (fun x => nmul x sF) (bins h0) in
  let error2 := map (fun x => nmul x (nmul sF sF)) (sumw2 h0) in
  fst (getHistogram E d var_Yield (yieldHistArgs y) w)
  = Some (mkHist (htitle h0) content error2 (entries h0)
            (match style d with Some st => Some st | None => hstyle h0 end)) /\
  fst (getYield E (Leaf d) y w)
  = Returned (if y_ignoreWeights y
              then (entries h0, nsqrt (entries h0))
              else (nsum content, nsqrt (nsum (range 0 (GetNbinsX h0 + 2) error2)))) /\
  (forall xVar yVar a profile cut we v extra sw l l',
     getHistogram E (set_sumOfWeights sw d) xVar (set_luminosity l a) w
     = getHistogram E d xVar a w /\
     getHistogram2D E (set_sumOfWeights sw d) xVar yVar (set_luminosity l a) profile w
     = getHistogram2D E d xVar yVar a profile w /\
     getValues E (set_sumOfWeights sw d) xVar cut we l v extra w
     = getValues E d xVar cut we l' v extra w /\
     getYield E (Leaf (set_sumOfWeights sw d)) (set_yield_luminosity l y) w
     = getYield E (Leaf d) y w).
Proof.
  intros Hd Hmiss Hv Hscan Hblind sF content error2.
  assert (Hhist : fst (getHistogram E d var_Yield (yieldHistArgs y) w)
                  = Some (mkHist (htitle h0) content error2 (entries h0)
                            (match style d with
                             | Some st => Some st
                             | None => hstyle h0
                             end))).
  { rewrite (getHistogram_data_scan d var_Yield (yieldHistArgs y) w Hd Hmiss Hv), Hscan.
    cbn [fmap option_fmap option_map yieldHistArgs a_cut a_style a_systematicsSet
         a_includeOverflowBins a_forceBinning orStyle id].
    rewrite Hblind. fold sF. by destruct (style d). }
  split; [exact Hhist|]. split.
  - rewrite (getYield_of_histogram (Leaf d) y w _ Hhist). cbn [fst].
    destruct (y_ignoreWeights y); [reflexivity|].
    unfold IntegralAndError. rewrite Integral_all. cbn [bins sumw2].
    do 3 f_equal. unfold GetNbinsX. cbn [bins]. subst content.
    by rewrite length_map.
  - intros xVar yVar a profile cut we v extra sw l l'.
    by apply data_ignores_luminosity_and_sumOfWeights.
Qed.

(** ** Physics processes *)

Lemma Sample_forall_ind (P : @Sample num -> Prop) :
  (forall d, P (Leaf d)) ->
  (forall p ds, Forall P ds -> P (Process p ds)) ->
  forall s, P s.
Proof.
  intros HL HP. fix IH 1. intros [d|p ds]; [apply HL|]. apply HP.
  induction ds as [|c ds IHds]; constructor; [apply IH|exact IHds].
Qed.

Lemma Sample_getHistogram_Process p ds xVar a w :
  Sample_getHistogram E (Process p ds) xVar a w
  = (finishProcess p (a_style (daughterArgs p a))
       (fst (mergeLoop (fun c w => Sample_getHistogram E c (_determineVariable p xVar)
                                     (daughterArgs p a) w)
               (a_title (daughterArgs p a)) ds None w)),
     snd (mergeLoop (fun c w => Sample_getHistogram E c (_determineVariable p xVar)
                                  (daughterArgs p a) w)
            (a_title (daughterArgs p a)) ds None w)).
Proof. cbn [Sample_getHistogram]. by destruct (mergeLoop _ _ _ _ _). Qed.

(** The loop with a histogram in hand adds every further one to it. *)
Lemma mergeLoop_Some query title ds acc w :
  mergeLoop query title ds (Some acc) w
  = (Some (fold_left (fun acc h' => Add h' acc) (omap id (fst (askDaughters query ds w))) acc),
     snd (askDaughters query ds w)).
Proof.
  revert acc w. induction ds as [|c ds IH]; intros acc w; [done|].
  cbn [mergeLoop askDaughters]. destruct (query c w) as [[h|] w1]; cbn [mergeStep].
  - rewrite IH. by destruct (askDaughters query ds w1).
  - rewrite IH. by destruct (askDaughters query ds _).
Qed.

(** The loop is the bin-wise merge of what the daughters returned. *)
Lemma mergeLoop_askDaughters query title ds w :
  mergeLoop query title ds None w
  = (mergeBinwise title (omap id (fst (askDaughters query ds w))),
     snd (askDaughters query ds w)).
Proof.
  revert w. induction ds as [|c ds IH]; intros w; [done|].
  cbn [mergeLoop askDaughters]. destruct (query c w) as [[h|] w1]; cbn [mergeStep].
  - rewrite mergeLoop_Some. by destruct (askDaughters query ds w1).
  - rewrite IH. by destruct (askDaughters query ds _).
Qed.

Lemma log_logging l msg w : log (logging l msg w) = (log w ++ [(l, msg)])%list.
Proof. done. Qed.

Lemma log_open d tree w : exists l, log (snd (_open E d tree w)) = (log w ++ l)%list.
Proof.
  unfold _open. cbn [snd]. case_decide; [exists []; by rewrite app_nil_r|].
  by eexists.
Qed.

Lemma log_scanWorld d xVar a w :
  exists l, log (scanWorld E d xVar a w) = (log w ++ l)%list.
Proof.
  destruct (log_open d (treeName (queryVariation d a)) w) as [l Hl]. exists l.
  unfold scanWorld. destruct (histogramStore d); [|done].
  unfold store_putHistogram. by destruct (_ <$> _).
Qed.

(** A query only ever appends to the log. *)
Lemma log_getHistogram d xVar a w :
  exists l, log (snd (getHistogram E d xVar a w)) = (log w ++ l)%list.
Proof.
  assert (Hcases : (exists c, cached d xVar a w = Some c /\ a_recreate a = false)
                   \/ (cached d xVar a w = None \/ a_recreate a = true)).
  { destruct (cached d xVar a w) as [c|]; [|by right; left].
    destruct (a_recreate a); [by right; right|]. left. by exists c. }
  destruct Hcases as [(c & Hc & Hr)|Hmiss].
  - rewrite (getHistogram_hit d xVar a w c) by done. exists []. by rewrite app_nil_r.
  - destruct (tvalid (queryTree E d a)) eqn:Hv.
    + rewrite getHistogram_miss by done. apply log_scanWorld.
    + rewrite getHistogram_unopened by done. apply log_open.
Qed.

Lemma log_askDaughters query ds w :
  Forall (fun c => forall w, exists l, log (snd (query c w)) = (log w ++ l)%list) ds ->
  exists l, log (snd (askDaughters query ds w)) = (log w ++ l)%list.
Proof.
  intros Hall. revert w. induction Hall as [|c ds Hc _ IH]; intros w.
  - exists []. by rewrite app_nil_r.
  - cbn [askDaughters]. destruct (Hc w) as [l1 Hl1].
    destruct (query c w) as [[h|] w1]; cbn [snd] in Hl1.
    + destruct (IH w1) as [l2 Hl2]. destruct (askDaughters query ds w1) as [hs w2].
      cbn [snd] in *. exists (l1 ++ l2)%list. by rewrite Hl2, Hl1, app_assoc.
    + destruct (IH (logging WARNING "getHistogram(): no histogram created" w1))
        as [l2 Hl2].
      destruct (askDaughters query ds _) as [hs w2]. cbn [snd] in *.
      eexists. rewrite Hl2, log_logging, Hl1, <- !app_assoc. reflexivity.
Qed.

Lemma log_Sample_getHistogram (s : Sample) :
  forall xVar a w, exists l, log (snd (Sample_getHistogram E s xVar a w)) = (log w ++ l)%list.
Proof.
  induction s as [d|p ds IH] using Sample_forall_ind; intros xVar a w.
  - apply log_getHistogram.
  - rewrite Sample_getHistogram_Process. cbn [snd]. rewrite mergeLoop_askDaughters.
    cbn [snd]. apply log_askDaughters.
    eapply Forall_impl; [exact IH|]. intros c Hc w0. apply Hc.
Qed.

Lemma noHistogramWarnings_grows w w' l :
  log w' = (log w ++ l)%list -> noHistogramWarnings w <= noHistogramWarnings w'.
Proof.
  intros Hl. unfold noHistogramWarnings. rewrite Hl, filter_app, length_app. lia.
Qed.

(** Every daughter without histogram leaves a warning of the process. *)
Lemma askDaughters_warns query ds w :
  Forall (fun c => forall w, exists l, log (snd (query c w)) = (log w ++ l)%list) ds ->
  noHistogramWarnings w + missing (fst (askDaughters query ds w))
  <= noHistogramWarnings (snd (askDaughters query ds w)).
Proof.
  intros Hall. revert w. induction Hall as [|c ds Hc _ IH]; intros w.
  - cbn. lia.
  - cbn [askDaughters]. destruct (Hc w) as [l1 Hl1].
    destruct (query c w) as [[h|] w1]; cbn [snd] in Hl1.
    + specialize (IH w1). destruct (askDaughters query ds w1) as [hs w2].
      cbn [fst snd missing] in *.
      pose proof (noHistogramWarnings_grows w w1 l1 Hl1). lia.
    + specialize (IH (logging WARNING "getHistogram(): no histogram created" w1)).
      destruct (askDaughters query ds _) as [hs w2]. cbn [fst snd missing] in *.
      pose proof (noHistogramWarnings_grows w w1 l1 Hl1).
      assert (noHistogramWarnings
                (logging WARNING "getHistogram(): no histogram created" w1)
              = S (noHistogramWarnings w1)) as Hlog.
      { unfold noHistogramWarnings. rewrite log_logging, filter_app, length_app.
        cbn. rewrite decide_True by done. cbn. lia. }
      lia.
Qed.

(** Fewer daughters missing than asked: some histogram came back. *)
Lemma askDaughters_some query ds w :
  missing (fst (askDaughters query ds w)) < length ds ->
  omap id (fst (askDaughters query ds w)) <> [].
Proof.
  revert w. induction ds as [|c ds IH]; intros w Hsome; [cbn in Hsome; lia|].
  cbn [askDaughters] in *. destruct (query c w) as [[h|] w1].
  - destruct (askDaughters query ds w1) as [hs w2]. done.
  - specialize (IH (logging WARNING "getHistogram(): no histogram created" w1)).
    destruct (askDaughters query ds _) as [hs w2]. cbn [fst missing length] in *.
    cbn. apply IH. lia.
Qed.

Lemma set_scaleFactors_same d : set_scaleFactors (scaleFactors d) d = d.
Proof. by destruct d. Qed.

(** Adding histograms one after the other adds their bins, their squared
    errors and their entries, each in the order of the histograms. *)
Lemma fold_Add rest acc :
  fold_left (fun acc h' => Add h' acc) rest acc
  = mkHist (htitle acc)
      (fold_left (fun b h' => zip_add b (bins h')) rest (bins acc))
      (fold_left (fun e h' => zip_add e (sumw2 h')) rest (sumw2 acc))
      (fold_left (fun n h' => nadd n (entries h')) rest (entries acc))
      (hstyle acc).
Proof.
  revert acc. induction rest as [|h' rest IH]; intros acc; [by destruct acc|].
  cbn [fold_left]. rewrite IH. reflexivity.
Qed.

(** A bin of a sum: the two bins added, or the first one where the second
    histogram has no such bin. *)
Lemma zip_add_lookup (xs ys : list num) i :
  zip_add xs ys !! i
  = match xs !! i, ys !! i with
    | Some x, Some y => Some (nadd x y)
    | _, _ => xs !! i
    end.
Proof.
  revert ys i. induction xs as [|x xs IH]; intros [|y ys] [|i]; try done.
  - cbn. by destruct (xs !! i).
  - cbn [zip_add]. cbn. apply IH.
Qed.

Lemma fold_zip_add_lookup (f : Hist -> list num) rest (xs : list num) i :
  fold_left (fun acc h' => zip_add acc (f h')) rest xs !! i
  = fold_left (fun acc h' => match acc, f h' !! i with
                             | Some x, Some y => Some (nadd x y)
                             | _, _ => acc
                             end) rest (xs !! i).
Proof.
  revert xs. induction rest as [|h' rest IH]; intros xs; [done|].
  cbn [fold_left]. rewrite IH. f_equal. apply zip_add_lookup.
Qed.

(** C8: a process asks its daughters with arguments that do not involve
    its own scale factors.  Of the histograms they return, in their order,
    it adds the bins, the squared errors and the entries, bin by bin, and
    multiplies every bin of the sum once by the product of its own scale
    factors; the title and the style are the ones of the query.  A
    daughter without histogram is left out and costs a warning, and the
    query returns a histogram as soon as one daughter does. *)
Theorem C8_process_merges_then_scales_once p (ds : list Sample) xVar a w sf :
  let query := fun c w =>
    Sample_getHistogram E c (_determineVariable p xVar) (daughterArgs p a) w in
  let rs := askDaughters query ds w in
  let factor := fold_left (fun product kv => nmul product (snd kv)) sf nunit in
  let merged := fun h1 rest =>
    mkHist (orTitle p (a_title a))
      (map (fun x => nmul x factor)
         (fold_left (fun acc h' => zip_add acc (bins h')) rest (bins h1)))
      (map (fun x => nmul x (nmul factor factor))
         (fold_left (fun acc h' => zip_add acc (sumw2 h')) rest (sumw2 h1)))
      (fold_left (fun acc h' => nadd acc (entries h')) rest (entries h1))
      (match orStyle p (a_style a) with Some st => Some st | None => hstyle h1 end) in
  let binSum := fun i h1 rest =>
    fold_left (fun acc h' => match acc, bins h' !! i with
                             | Some x, Some y => Some (nadd x y)
                             | _, _ => acc
                             end) rest (bins h1 !! i) in
  Sample_getHistogram E (Process (set_scaleFactors sf p) ds) xVar a w
  = (match omap id (fst rs) with
     | [] => None
     | h1 :: rest => Some (merged h1 rest)
     end, snd rs) /\
  (forall h1 rest i,
     bins (merged h1 rest) !! i = (fun x => nmul x factor) <$> binSum i h1 rest) /\
  noHistogramWarnings w + missing (fst rs) <= noHistogramWarnings (snd rs) /\
  (missing (fst rs) < length ds ->
   is_Some (fst (Sample_getHistogram E (Process (set_scaleFactors sf p) ds) xVar a w))).
Proof.
  intros query rs factor merged binSum.
  assert (Heq : Sample_getHistogram E (Process (set_scaleFactors sf p) ds) xVar a w
    = (match omap id (fst rs) with
       | [] => None
       | h1 :: rest => Some (merged h1 rest)
       end, snd rs)).
  { rewrite Sample_getHistogram_Process.
    change (daughterArgs (set_scaleFactors sf p) a) with (daughterArgs p a).
    change (_determineVariable (set_scaleFactors sf p) xVar)
      with (_determineVariable p xVar).
    fold query. rewrite mergeLoop_askDaughters. fold rs. cbn [fst snd].
    unfold finishProcess, mergeBinwise. f_equal.
    destruct (omap id (fst rs)) as [|h1 rest]; [done|].
    cbn [fmap option_fmap option_map]. rewrite fold_Add.
    unfold combinedScaleFactors, Scale, Style_apply, SetTitle.
    cbn [daughterArgs a_style a_title set_scaleFactors scaleFactors
         htitle bins sumw2 entries hstyle].
    fold factor. by destruct (orStyle p (a_style a)). }
  split; [exact Heq|]. split; [|split].
  - intros h1 rest i. cbn [merged bins]. rewrite list_lookup_fmap.
    by rewrite fold_zip_add_lookup.
  - apply askDaughters_warns. apply Forall_forall. intros c _ w0.
    apply log_Sample_getHistogram.
  - intros Hsome. rewrite Heq. cbn [fst].
    pose proof (askDaughters_some query ds w Hsome) as Hne. fold rs in Hne.
    destruct (omap id (fst rs)); [done|]. by eexists.
Qed.

End Pipeline.

(** ** The properties at work on the small scan engine *)

(** C2 as the spec states it fails: the scan of background1 fills the bin
    with 5, the store then holds 5/2. *)
Lemma C2_stored_histogram_is_divided :
  ~ (forall (d : @Dataset Q) xVar a w s h0,
        histogramStore d = Some s ->
        cached d xVar a w = None ->
        tvalid (queryTree Demo.engine d a) = true ->
        scanned Demo.engine d xVar a = Some h0 ->
        cached d xVar a (snd (getHistogram Demo.engine d xVar a w)) = Some h0).
Proof.
  intros Hall.
  specialize (Hall Demo.background1 Demo.massVar (Demo.args 2500) Demo.world0
                "hist.root" _ eq_refl eq_refl eq_refl eq_refl).
  vm_compute in Hall. discriminate Hall.
Qed.

(** C2 on background1: the store holds the bin divided by the sum of
    weights 2. *)
Lemma C2_store_witness :
  cached Demo.background1 Demo.massVar (Demo.args 2500)
    (snd (getHistogram Demo.engine Demo.background1 Demo.massVar (Demo.args 2500)
            Demo.world0))
  = Some (mkHist "Background 1" [0%Q; (5 # 2)%Q; 0%Q] [0%Q; (25 # 16)%Q; 0%Q] 4%Q None).
Proof.
  exact (C2_store_holds_divided_histogram Demo.engine Demo.background1 Demo.massVar
           (Demo.args 2500) Demo.world0 "hist.root"
           (mkHist "Background 1" [0%Q; 5%Q; 0%Q] [0%Q; (25 # 4)%Q; 0%Q] 4%Q None)
           eq_refl (or_introl eq_refl) eq_refl eq_refl).
Defined.

(** C4 fails on the code: JES is not registered with background1, and
    [getValues] still reads the six rows of the JES_UP tree instead of the
    four nominal ones, where [getHistogram] falls back to nominal. *)
Theorem C4_getValues_runs_an_unregistered_variation :
  systematics Demo.jesUp = Some "JES" /\
  ("JES" ∉ unionSystematics Demo.background1 None) /\
  fst (getValues Demo.engine Demo.background1 Demo.massVar Cut_empty [] 1%Q
         (Some Demo.jesUp) None Demo.world0)
  = Some (repeat 1%Q 6, repeat 5%Q 6) /\
  fst (getValues Demo.engine Demo.background1 Demo.massVar Cut_empty [] 1%Q
         None None Demo.world0)
  = Some (repeat 1%Q 4, repeat 5%Q 4) /\
  getHistogram Demo.engine Demo.background1 Demo.massVar
    (set_variation (Some Demo.jesUp) (Demo.args 1)) Demo.world0
  = getHistogram Demo.engine Demo.background1 Demo.massVar
      (set_variation None (Demo.args 1)) Demo.world0.
Proof.
  split; [reflexivity|]. split; [cbn; set_solver|].
  split; [by vm_compute|]. split; [by vm_compute|].
  apply (getHistogram_demotes Demo.engine Demo.background1 Demo.massVar (Demo.args 1)
           Demo.world0 Demo.jesUp "JES"); [reflexivity|cbn; set_solver].
Qed.

(** C5 as the spec states it fails: with [ignoreWeights] the yield of
    background1 is its four entries, not the integral of the histogram. *)
Lemma C5_ignoreWeights_counts_entries :
  ~ (forall (s : @Sample Q) (y : YieldArgs) w h,
        fst (Sample_getHistogram Demo.engine s var_Yield (yieldHistArgs y) w) = Some h ->
        fst (getYield Demo.engine s y w)
        = Returned (IntegralAndError 0 (GetNbinsX h + 2) h)).
Proof.
  intros Hall.
  specialize (Hall (Leaf Demo.background1) (Demo.yargs 2500 true) Demo.world0 _ eq_refl).
  vm_compute in Hall. discriminate Hall.
Qed.

(** C5 on background1: the scan fills the bin with 5, and
    5 * 1/2 * (5 * 1 * 1 * 2500) = 31250. *)
Lemma C5_yield_witness :
  (exists hist,
     fst (Sample_getHistogram Demo.engine (Leaf Demo.background1) var_Yield
            (yieldHistArgs (Demo.yargs 2500 false)) Demo.world0) = Some hist /\
     bins hist = [0%Q; 31250%Q; 0%Q] /\ sumw2 hist = [0%Q; 244140625%Q; 0%Q] /\
     entries hist = 4%Q) /\
  fst (getYield Demo.engine (Leaf Demo.background1) (Demo.yargs 2500 false) Demo.world0)
  = Returned (31250%Q, 15625%Q).
Proof.
  destruct (C5_getYield_reads_the_histogram Demo.engine Demo.background1
              (Demo.yargs 2500 false) Demo.world0
              (mkHist "Background 1" [0%Q; 5%Q; 0%Q] [0%Q; (25 # 4)%Q; 0%Q] 4%Q None)
              eq_refl
              (or_introl (conj (or_introl eq_refl) (conj eq_refl eq_refl))))
    as (_ & (hist & Hhist & Hbins & Herr2 & Hentries & _) & Hyield).
  split; [|exact Hyield].
  exists hist. split; [exact Hhist|]. split; [exact Hbins|]. split; [exact Herr2|].
  exact Hentries.
Defined.

(** C6 as the spec states it fails: a dataset without histogram store
    scans again on the second query. *)
Lemma C6_without_store_scans_again :
  ~ (forall (d : @Dataset Q) xVar a w,
        a_recreate a = false ->
        fst (getHistogram Demo.engine d xVar a (snd (getHistogram Demo.engine d xVar a w)))
        = fst (getHistogram Demo.engine d xVar a w) /\
        scans (snd (getHistogram Demo.engine d xVar a
                      (snd (getHistogram Demo.engine d xVar a w))))
        = scans (snd (getHistogram Demo.engine d xVar a w))).
Proof.
  intros Hall.
  destruct (Hall Demo.background1_nostore Demo.massVar (Demo.args 2500) Demo.world0
              eq_refl) as [_ Hscans].
  vm_compute in Hscans. discriminate Hscans.
Qed.

(** C6 on background1, which has a store. *)
Lemma C6_store_witness :
  getHistogram Demo.engine Demo.background1 Demo.massVar (Demo.args 2500)
    (snd (getHistogram Demo.engine Demo.background1 Demo.massVar (Demo.args 2500)
            Demo.world0))
  = (Some (mkHist "Background 1" [0%Q; 31250%Q; 0%Q] [0%Q; 244140625%Q; 0%Q] 4%Q None),
     snd (getHistogram Demo.engine Demo.background1 Demo.massVar (Demo.args 2500)
            Demo.world0)) /\
  scans (snd (getHistogram Demo.engine Demo.background1 Demo.massVar (Demo.args 2500)
                (snd (getHistogram Demo.engine Demo.background1 Demo.massVar
                        (Demo.args 2500) Demo.world0))))
  = scans (snd (getHistogram Demo.engine Demo.background1 Demo.massVar (Demo.args 2500)
                  Demo.world0)).
Proof.
  refine (C6_second_query_is_served_by_the_store Demo.engine Demo.background1
            Demo.massVar (Demo.args 2500) Demo.world0 "hist.root" _
            eq_refl eq_refl _ eq_refl).
  intros h0 Hh0. vm_compute in Hh0. injection Hh0 as <-. reflexivity.
Defined.

(** The yield of real data is not in general its number of selected
    rows: the data sample has a k-factor of two, so its yield is twice its
    four rows. *)
Lemma data_yield_is_not_the_row_count :
  ~ (forall (d : @Dataset Q) (y : YieldArgs) w h0,
        isData d = true ->
        scanned Demo.engine d var_Yield (yieldHistArgs y) = Some h0 ->
        exists err,
          fst (getYield Demo.engine (Leaf d) y w) = Returned (GetEntries h0, err)).
Proof.
  intros Hall.
  destruct (Hall Demo.data (Demo.yargs 2500 false) Demo.world0 _ eq_refl eq_refl)
    as [err Herr].
  vm_compute in Herr. discriminate Herr.
Qed.

(** C7 on the data sample: four rows are selected, the k-factor is two and
    the yield is eight, whatever the luminosity and the sum of weights. *)
Lemma C7_data_witness :
  scanned Demo.engine Demo.data var_Yield (yieldHistArgs (Demo.yargs 2500 false))
  = Some (mkHist "Data" [0%Q; 4%Q; 0%Q] [0%Q; 4%Q; 0%Q] 4%Q None) /\
  fst (getYield Demo.engine (Leaf Demo.data) (Demo.yargs 2500 false) Demo.world0)
  = Returned (8%Q, 4%Q) /\
  getYield Demo.engine (Leaf (set_sumOfWeights 1%Q Demo.data))
    (set_yield_luminosity 1%Q (Demo.yargs 2500 false)) Demo.world0
  = getYield Demo.engine (Leaf Demo.data) (Demo.yargs 2500 false) Demo.world0.
Proof.
  destruct (C7_data_is_scaled_by_its_scale_factors Demo.engine Demo.data
              (Demo.yargs 2500 false) Demo.world0
              (mkHist "Data" [0%Q; 4%Q; 0%Q] [0%Q; 4%Q; 0%Q] 4%Q None)
              eq_refl (or_introl eq_refl) eq_refl eq_refl (fun h => eq_refl))
    as (_ & Hyield & Hsame).
  split; [reflexivity|]. split; [exact Hyield|].
  apply (Hsame Demo.massVar Demo.massVar (Demo.args 2500) false Cut_empty [] None None
           1%Q 1%Q 1%Q).
Defined.

(** The [isData] flag of a process is book keeping: the luminosity goes
    to the daughters (line 1383), and a simulated daughter applies it. *)
Example process_flagged_data_hands_luminosity_on :
  isData Demo.flagged = true /\
  (exists err,
     fst (getYield Demo.engine (Process Demo.flagged [Leaf Demo.background1])
            (Demo.yargs 1 false) Demo.world0)
     = Returned ((25 # 2)%Q, err)) /\
  fst (getYield Demo.engine (Process Demo.flagged [Leaf Demo.background1])
         (Demo.yargs 2500 false) Demo.world0)
  = Returned (31250%Q, 15625%Q).
Proof. split; [done|]. split; [eexists|]; by vm_compute. Qed.

(** C8 on a process with a k-factor of two over background1, a sample
    without files and the data: 31250 and 8 are added and the sum is
    doubled, four and four entries are eight, and the sample without files
    costs one warning. *)
Lemma C8_process_witness :
  Sample_getHistogram Demo.engine Demo.holed Demo.massVar (Demo.args 2500) Demo.world0
  = (Some (mkHist "Group" [0%Q; 62516%Q; 0%Q] [0%Q; 976562564%Q; 0%Q] 8%Q None),
     snd (askDaughters
            (fun c w => Sample_getHistogram Demo.engine c Demo.massVar
                          (daughterArgs Demo.group (Demo.args 2500)) w)
            [Leaf Demo.background1; Leaf Demo.lost; Leaf Demo.data] Demo.world0)) /\
  1 <= noHistogramWarnings
         (snd (Sample_getHistogram Demo.engine Demo.holed Demo.massVar (Demo.args 2500)
                 Demo.world0)).
Proof.
  destruct (C8_process_merges_then_scales_once Demo.engine Demo.group
              [Leaf Demo.background1; Leaf Demo.lost; Leaf Demo.data] Demo.massVar
              (Demo.args 2500) Demo.world0 [("kFactor", 2%Q)])
    as (Heq & _ & Hwarn & _).
  split; [exact Heq|].
  change (Sample_getHistogram Demo.engine Demo.holed Demo.massVar (Demo.args 2500)
            Demo.world0)
    with (Sample_getHistogram Demo.engine
            (Process (set_scaleFactors [("kFactor", 2%Q)] Demo.group)
               [Leaf Demo.background1; Leaf Demo.lost; Leaf Demo.data])
            Demo.massVar (Demo.args 2500) Demo.world0).
  rewrite Heq. exact Hwarn.
Defined.

(** C9 on the sample whose file is missing. *)
Lemma C9_raise_witness :
  fst (getHistogram Demo.engine Demo.lost var_Yield
         (yieldHistArgs (Demo.yargs 2500 false)) Demo.world0) = None /\
  fst (getYield Demo.engine (Leaf Demo.lost) (Demo.yargs 2500 false) Demo.world0)
  = Raised AttributeError.
Proof.
  apply (C9_getYield_raises_without_histogram Demo.engine Demo.lost
           (Demo.yargs 2500 false) Demo.world0).
  - left. reflexivity.
  - left. reflexivity.
Defined.

(** ** Dataset.copy on any heap *)

Module PyFacts.
Import Py.
Section Facts.
Context {num : Type} `{Arith num}.

Implicit Types (s st : @State num) (o l self c : loc) (v : @Value num).

Lemma getattr_heap o a st st' :
  heap st' !! o = heap st !! o -> getattr o a st' = getattr o a st.
Proof. intros Hh. unfold getattr. by rewrite Hh. Qed.

Lemma touches_only_refl o st : touches_only o [] st st.
Proof. by split; [|split]. Qed.

Lemma touches_only_trans o xs ys st1 st2 st3 :
  touches_only o xs st1 st2 -> touches_only o ys st2 st3 ->
  touches_only o (xs ++ ys) st1 st3.
Proof.
  intros (Hl1 & Hh1 & Ha1) (Hl2 & Hh2 & Ha2). split; [lia|]. split.
  - intros l Hlt Hne. rewrite Hh2 by (done || lia). by apply Hh1.
  - intros a Hin. rewrite not_elem_of_app in Hin. destruct Hin as [Hx Hy].
    rewrite Ha2 by done. by apply Ha1.
Qed.

Lemma setattr_touches o x v st st' :
  setattr o x v st = Some st' -> touches_only o [x] st st'.
Proof.
  unfold setattr. destruct (heap st !! o) as [[| |cls attrs]|] eqn:Ho; try done.
  intros [= <-]. pose proof (lookup_lt_Some _ _ _ Ho) as Hlt.
  split; [|split].
  - cbn. by rewrite length_insert.
  - intros l _ Hne. cbn. by rewrite list_lookup_insert_ne.
  - intros a Hne. unfold getattr. cbn. rewrite list_lookup_insert_eq by done.
    rewrite Ho. rewrite lookup_insert_ne; [done|]. set_solver.
Qed.

Lemma register_touches o oldName st st' :
  _register o oldName st = Some st' -> touches_only o [] st st'.
Proof.
  unfold _register. destruct (getattr o "_name" st) as [[| | name| |]|]; try done.
  intros [= <-]. by split; [|split].
Qed.

Lemma set_name_touches o name st st' :
  set_name o name st = Some st' -> touches_only o ["_name"] st st'.
Proof.
  unfold set_name.
  destruct (setattr o "_name" (VStr name) st) as [st1|] eqn:Hset; [|done]. cbn.
  pose proof (setattr_touches _ _ _ _ _ Hset) as Ht1.
  assert (Hreg : forall n, _register o n st1 = Some st' ->
                           touches_only o ["_name"] st st').
  { intros n Hreg. pose proof (register_touches _ _ _ _ Hreg) as Ht2.
    exact (touches_only_trans _ _ _ _ _ _ Ht1 Ht2). }
  destruct (getattr o "_name" st) as [[| |n| |]|]; try apply Hreg.
  case_decide; [by intros [= <-]|]. apply Hreg.
Qed.

Lemma copy_attr_touches self o x st st' :
  o < length (heap st) ->
  copy_attr self o x st = Some st' -> touches_only o [x] st st'.
Proof.
  intros Hlt. unfold copy_attr.
  destruct (getattr self x st) as [[| | | |l]|]; try done. cbn.
  unfold shallow_copy. destruct (heap st !! l) as [ob|]; [|done]. cbn.
  intros Hset. pose proof (setattr_touches _ _ _ _ _ Hset) as (Hl & Hh & Ha).
  cbn in *. rewrite length_app in Hl. cbn in Hl. split; [lia|]. split.
  - intros l' Hlt' Hne. rewrite Hh; [|rewrite length_app; cbn; lia|done].
    by rewrite lookup_app_l.
  - intros a Hne. rewrite Ha by done. apply getattr_heap. cbn.
    by rewrite lookup_app_l.
Qed.

Lemma touches_only_length o xs st st' :
  touches_only o xs st st' -> length (heap st) <= length (heap st').
Proof. by intros (? & _). Qed.

(** One more step of [Dataset.copy] on the copy [c]. *)
Ltac copy_step Hcopy Hacc c0 :=
  match type of Hcopy with
  | (?step ≫= _) = Some _ =>
    let st := fresh "st" in
    let Hst := fresh "Hst" in
    destruct step as [st|] eqn:Hst; [|done]; cbn [mbind option_bind] in Hcopy;
    first [ apply set_name_touches in Hst
          | apply setattr_touches in Hst
          | apply copy_attr_touches in Hst;
            [|pose proof (touches_only_length _ _ _ _ Hacc); cbn in *; lia] ];
    pose proof (touches_only_trans _ _ _ _ _ _ Hacc Hst) as Hacc';
    clear Hacc Hst; rename Hacc' into Hacc
  end.

(** What [Dataset.copy] returns is a new object whose attributes, apart
    from the ones assigned anew, hold the very values of the original's,
    references included; the original's attributes are as before. *)
Lemma Dataset_copy_keeps_references self name title s c s1 a :
  Dataset_copy self name title s = Some (c, s1) ->
  a ∉ copied_attrs ->
  c <> self /\
  getattr self a s1 = getattr self a s /\
  getattr c a s1 = getattr self a s.
Proof.
  intros Hcopy Ha. unfold Dataset_copy in Hcopy.
  unfold shallow_copy at 1 in Hcopy.
  destruct (heap s !! self) as [ob|] eqn:Hself; [|done].
  cbn [mbind option_bind alloc] in Hcopy.
  pose proof (lookup_lt_Some _ _ _ Hself) as Hlt.
  set (c0 := length (heap s)) in *.
  set (s0 := mkState (heap s ++ [ob]) (DATASETS s) (warnings s)) in *.
  assert (Hc0 : c0 < length (heap s0)).
  { subst c0 s0. cbn. rewrite length_app. cbn. lia. }
  pose proof (touches_only_refl c0 s0) as Hacc.
  do 9 copy_step Hcopy Hacc c0.
  injection Hcopy as <- <-. cbn [app] in Hacc. fold copied_attrs in Hacc.
  destruct Hacc as (Hlen & Hheap & Hattr).
  split; [lia|]. split.
  - apply getattr_heap. rewrite Hheap; [|subst s0; cbn; rewrite length_app; cbn; lia|lia].
    subst s0. cbn. by rewrite lookup_app_l.
  - rewrite Hattr by done. unfold getattr. subst s0 c0. cbn.
    by rewrite list_lookup_middle, Hself.
Qed.

(** An entry set in a dictionary through one reference shows through any
    other attribute that holds the same reference. *)
Lemma setitem_through_alias self c a k v s s' :
  getattr c a s = getattr self a s ->
  dict_setitem c a k v s = Some s' ->
  dict_get self a k s' = Some v.
Proof.
  intros Halias. unfold dict_setitem, dict_get. rewrite Halias.
  destruct (getattr self a s) as [[| | | |l]|] eqn:Hattr; try done. cbn.
  destruct (heap s !! l) as [[m| |]|] eqn:Hl; try done. intros [= <-].
  pose proof (lookup_lt_Some _ _ _ Hl) as Hlt.
  assert (Hne : l <> self).
  { intros ->. unfold getattr in Hattr. by rewrite Hl in Hattr. }
  assert (Hsame : getattr self a (store_obj l (ODict (<[k:=v]> m)) s) = Some (VRef l)).
  { rewrite <- Hattr. apply getattr_heap. cbn. by rewrite list_lookup_insert_ne. }
  rewrite Hsame. cbn. rewrite list_lookup_insert_eq by done.
  by rewrite lookup_insert_eq.
Qed.

(** Every dictionary that [Dataset.copy] does not assign anew is one
    object for the copy and the original: an entry set through the copy is
    read through the original. *)
Lemma copy_update_reaches_original self name title s c s1 a k v s2 :
  Dataset_copy self name title s = Some (c, s1) ->
  a ∉ copied_attrs ->
  dict_setitem c a k v s1 = Some s2 ->
  c <> self /\ dict_get self a k s2 = Some v.
Proof.
  intros Hcopy Ha Hset.
  destruct (Dataset_copy_keeps_references _ _ _ _ _ _ a Hcopy Ha) as (Hne & Hself & Hc).
  split; [done|]. apply (setitem_through_alias self c a k v s1 s2); [|done].
  by rewrite Hc, Hself.
Qed.

(** C10 fails on the code: [copy] leaves [scaleFactorsUncertainty],
    [replaceVariables] and [treeEntryLists] shared between the copy and the
    original, whatever the dataset: the copy is another object, and an
    entry set in one of these dictionaries through the copy is in the
    original's. *)
Theorem C10_copy_shares_uncopied_dictionaries self name title s c s1 a k v s2 :
  Dataset_copy self name title s = Some (c, s1) ->
  a ∈ ["scaleFactorsUncertainty"; "replaceVariables"; "treeEntryLists"] ->
  dict_setitem c a k v s1 = Some s2 ->
  c <> self /\ dict_get self a k s2 = Some v.
Proof.
  intros Hcopy Ha Hset.
  apply (copy_update_reaches_original self name title s c s1 a k v s2); [done| |done].
  apply list_elem_of_In in Ha. intros Hbad. apply list_elem_of_In in Hbad.
  cbn in Ha, Hbad. destruct Ha as [<-|[<-|[<-|[]]]]; intuition discriminate.
Qed.

End Facts.
End PyFacts.

(** C10 on a dataset built the module's way and copied: the entry set
    through the copy is in the original's [replaceVariables], which did not
    have it. *)
Lemma C10_copy_witness :
  Py.Dataset_copy (fst Demo.built) "b" "B" (snd Demo.built) = Some Demo.copied /\
  Py.dict_get (fst Demo.built) "replaceVariables" "mass" (snd Demo.copied) = None /\
  fst Demo.copied <> fst Demo.built /\
  Py.dict_get (fst Demo.built) "replaceVariables" "mass" (Demo.updated "replaceVariables")
  = Some (Py.VStr "mt").
Proof.
  split; [vm_compute; reflexivity|].
  split; [vm_compute; reflexivity|].
  apply (PyFacts.C10_copy_shares_uncopied_dictionaries (fst Demo.built) "b" "B"
           (snd Demo.built) (fst Demo.copied) (snd Demo.copied) "replaceVariables"
           "mass" (Py.VStr "mt") (Demo.updated "replaceVariables")).
  - vm_compute. reflexivity.
  - set_solver.
  - vm_compute. reflexivity.
Defined.

(** The same run for each dictionary: the three that [copy] leaves shared
    change in the original, [scaleFactors], which it duplicates, does not. *)
Example copy_update_seen_from_original :
  Py.dict_get (fst Demo.built) "scaleFactorsUncertainty" "mass"
    (Demo.updated "scaleFactorsUncertainty") = Some (Py.VStr "mt") /\
  Py.dict_get (fst Demo.built) "treeEntryLists" "mass"
    (Demo.updated "treeEntryLists") = Some (Py.VStr "mt") /\
  Py.dict_get (fst Demo.copied) "scaleFactors" "mass"
    (Demo.updated "scaleFactors") = Some (Py.VStr "mt") /\
  Py.dict_get (fst Demo.built) "scaleFactors" "mass"
    (Demo.updated "scaleFactors") = None.
Proof. repeat split; by vm_compute. Qed.

(** * More properties of the queries *)

Section MoreQueries.
Context {num : Type} `{Arith num} (E : @Externals num).

Implicit Types (d p : @Dataset num) (a : @HistArgs num) (w : @World num) (h : @Hist num)
  (smp : @Sample num).

(** ** Scans and the store *)

Lemma scans_open d tree w : scans (snd (_open E d tree w)) = scans w.
Proof. unfold _open. cbn [snd]. by case_decide. Qed.

Lemma stores_open d tree w : stores (snd (_open E d tree w)) = stores w.
Proof. unfold _open. cbn [snd]. by case_decide. Qed.

Lemma scans_scanWorld d xVar a w : scans (scanWorld E d xVar a w) = S (scans w).
Proof.
  unfold scanWorld, store_putHistogram, count_scan.
  destruct (histogramStore d) as [s|]; [destruct (_ <$> _)|]; cbn [scans];
    by rewrite scans_open.
Qed.

Lemma query_cases d xVar a w :
  (exists c, cached d xVar a w = Some c /\ a_recreate a = false)
  \/ (cached d xVar a w = None \/ a_recreate a = true).
Proof.
  destruct (cached d xVar a w) as [c|]; [|by right; left].
  destruct (a_recreate a); [by right; right|]. left. by exists c.
Qed.

(** A query calls [createHistogramFromTree] at most once: once when
    nothing is stored for it, or on [recreate], and the chain is not null;
    not at all otherwise.  The entry list that opening a chain with a
    preselection may have ROOT draw is not such a call and is not counted
    by [scans]. *)
Theorem getHistogram_fills_at_most_once d xVar a w :
  scans (snd (getHistogram E d xVar a w))
  = if (match cached d xVar a w with Some _ => a_recreate a | None => true end)
       && tvalid (queryTree E d a)
    then S (scans w) else scans w.
Proof.
  destruct (query_cases d xVar a w) as [(c & Hc & Hr)|Hmiss].
  - rewrite (getHistogram_hit E d xVar a w c Hc Hr), Hc, Hr. reflexivity.
  - assert (Hgo : match cached d xVar a w with Some _ => a_recreate a | None => true end
                  = true).
    { destruct Hmiss as [-> | ->]; [done|by case_match]. }
    rewrite Hgo. destruct (tvalid (queryTree E d a)) eqn:Hv.
    + rewrite (getHistogram_miss E d xVar a w Hmiss Hv). cbn [snd andb].
      apply scans_scanWorld.
    + rewrite (getHistogram_unopened E d xVar a w Hmiss Hv). cbn [snd andb].
      apply scans_open.
Qed.

(** A query leaves every stored histogram but its own as it is. *)
Theorem getHistogram_store_frame d xVar a w (k : string * Key) :
  (forall s, histogramStore d = Some s -> k <> (s, queryKey d xVar a)) ->
  stores (snd (getHistogram E d xVar a w)) !! k = stores w !! k.
Proof.
  intros Hk. destruct (query_cases d xVar a w) as [(c & Hc & Hr)|Hmiss].
  - by rewrite (getHistogram_hit E d xVar a w c Hc Hr).
  - destruct (tvalid (queryTree E d a)) eqn:Hv.
    + rewrite (getHistogram_miss E d xVar a w Hmiss Hv). cbn [snd].
      unfold scanWorld, store_putHistogram, count_scan.
      destruct (histogramStore d) as [s|] eqn:Hs; [destruct (_ <$> _)|];
        cbn [stores]; rewrite ?stores_open; [|done..].
      rewrite lookup_insert_ne; [done|]. intros Heq. by apply (Hk s).
    + rewrite (getHistogram_unopened E d xVar a w Hmiss Hv). cbn [snd].
      by rewrite stores_open.
Qed.

(** The key is made of the cut, the variation and the systematics set
    alone: a query that agrees with an earlier, scanning one on these three
    gets the histogram of that scan from the store, whatever its own weight
    expression, title, style or draw option, and scans nothing. *)
Theorem getHistogram_store_ignores_weight d xVar a1 a2 w s h0 :
  histogramStore d = Some s ->
  a_cut a2 = a_cut a1 ->
  a_systematicVariation a2 = a_systematicVariation a1 ->
  a_systematicsSet a2 = a_systematicsSet a1 ->
  cached d xVar a1 w = None \/ a_recreate a1 = true ->
  tvalid (queryTree E d a1) = true ->
  scanned E d xVar a1 = Some h0 ->
  a_recreate a2 = false ->
  getHistogram E d xVar a2 (snd (getHistogram E d xVar a1 w))
  = (afterStore E d xVar a2
       (Some (SetTitle (orTitle d (a_title a2)) (divideBySumOfWeights d h0))),
     snd (getHistogram E d xVar a1 w)).
Proof.
  intros Hs Hcut Hvar Hset Hmiss Hv Hscan Hr.
  rewrite (getHistogram_miss E d xVar a1 w Hmiss Hv). cbn [snd].
  apply getHistogram_hit; [|done].
  assert (Hkey : queryKey d xVar a2 = queryKey d xVar a1).
  { unfold queryKey, storeVariation, queryVariation. by rewrite Hcut, Hvar, Hset. }
  unfold cached. rewrite Hkey. fold (cached d xVar a1 (scanWorld E d xVar a1 w)).
  by apply (cached_scanWorld E d xVar a1 w s h0).
Qed.

(** [getHistogram2D] has no store: what it returns does not depend on the
    world, the stored histograms stay as they are, and whenever the chain
    is not null it calls [create2DHistogramFromTree], once, [recreate] or
    not.  As for [getHistogram], [scans] counts these calls and not the
    entry list drawn for a preselection. *)
Theorem getHistogram2D_bypasses_the_store d xVar yVar a profile w :
  (forall w', fst (getHistogram2D E d xVar yVar a profile w')
              = fst (getHistogram2D E d xVar yVar a profile w)) /\
  stores (snd (getHistogram2D E d xVar yVar a profile w)) = stores w /\
  scans (snd (getHistogram2D E d xVar yVar a profile w))
  = if tvalid (TChain E d (treeName (demote d (systematicsSet d)
                                       (orNominal d (a_systematicVariation a)))))
    then S (scans w) else scans w.
Proof.
  unfold getHistogram2D. unfold _open at 1 2 3 4. cbv beta iota zeta.
  destruct (tvalid _); cbn [negb fst snd].
  - split; [intros w'; unfold _open; cbv beta iota zeta; reflexivity|].
    split; cbn; by case_decide.
  - split; [intros w'; unfold _open; cbv beta iota zeta; reflexivity|].
    split; by case_decide.
Qed.

(** ** Variations through a process *)

Lemma elem_of_fold_union {A} (f : A -> gset string) (l : list A) (init : gset string) y :
  y ∈ fold_left (fun result c => result ∪ f c) l init
  <-> y ∈ init \/ Exists (fun c => y ∈ f c) l.
Proof.
  revert init. induction l as [|c l IH]; intros init; cbn.
  - rewrite Exists_nil. tauto.
  - rewrite IH, Exists_cons, elem_of_union. tauto.
Qed.

Lemma fold_left_app_concat {A B} (f : A -> list B) (l : list A) (init : list B) :
  fold_left (fun result c => (result ++ f c)%list) l init
  = (init ++ concat (map f l))%list.
Proof.
  revert init. induction l as [|c l IH]; intros init; cbn.
  - by rewrite app_nil_r.
  - by rewrite IH, app_assoc.
Qed.

Lemma trueDatasets_Process p (ds : list Sample) :
  trueDatasets (Process p ds) = concat (map trueDatasets ds).
Proof. cbn [trueDatasets]. by rewrite fold_left_app_concat. Qed.

Lemma mergeLoop_ext (q1 q2 : Sample -> World -> option Hist * World) title
    (ds : list Sample) acc w :
  Forall (fun c => forall w, q1 c w = q2 c w) ds ->
  mergeLoop q1 title ds acc w = mergeLoop q2 title ds acc w.
Proof.
  intros Hall. revert acc w. induction Hall as [|c ds Hc _ IH]; intros acc w; [done|].
  cbn [mergeLoop]. rewrite Hc. destruct (q2 c w) as [h w1].
  destruct (mergeStep title h acc w1) as [acc' w2]. apply IH.
Qed.

Lemma mergeLoop2D_ext (q1 q2 : Sample -> World -> option Hist * World) title
    (ds : list Sample) acc w :
  Forall (fun c => forall w, q1 c w = q2 c w) ds ->
  mergeLoop2D q1 title ds acc w = mergeLoop2D q2 title ds acc w.
Proof.
  intros Hall. revert acc w. induction Hall as [|c ds Hc _ IH]; intros acc w; [done|].
  cbn [mergeLoop2D]. rewrite Hc. destruct (q2 c w) as [h w1].
  destruct (mergeStep2D title h acc w1) as [acc' w2]. apply IH.
Qed.

Lemma not_in_unionSystematics d (extra : option (gset string)) sy :
  sy ∉ systematicsSet d -> sy ∉ default ∅ extra -> sy ∉ unionSystematics d extra.
Proof.
  intros Hown Hextra. unfold unionSystematics.
  destruct extra as [x|]; [case_decide|]; cbn in *; [done| |done].
  rewrite elem_of_union. tauto.
Qed.

(** A variation whose systematics is registered nowhere in a process tree
    and is not among the extra systematics of the query runs as the
    nominal one, for the histogram and for the yield. *)
Theorem Sample_getHistogram_demotes smp xVar a (y : YieldArgs) w v sy :
  systematics v = Some sy ->
  sy ∉ combinedSystematicsSet smp ->
  sy ∉ default ∅ (a_systematicsSet a) ->
  sy ∉ default ∅ (y_systematicsSet y) ->
  Sample_getHistogram E smp xVar (set_variation (Some v) a) w
  = Sample_getHistogram E smp xVar (set_variation None a) w /\
  getYield E smp (mkYieldArgs (y_cut y) (y_weightExpression y) (y_luminosity y)
                    (y_ignoreWeights y) (Some v) (y_ignoreDataWeight y) (y_ignoreSF y)
                    (y_systematicsSet y) (y_recreate y)) w
  = getYield E smp (mkYieldArgs (y_cut y) (y_weightExpression y) (y_luminosity y)
                      (y_ignoreWeights y) None (y_ignoreDataWeight y) (y_ignoreSF y)
                      (y_systematicsSet y) (y_recreate y)) w.
Proof.
  intros Hsy Hnot Hextra_a Hextra_y.
  assert (Hhist : forall xVar a w,
             sy ∉ default ∅ (a_systematicsSet a) ->
             Sample_getHistogram E smp xVar (set_variation (Some v) a) w
             = Sample_getHistogram E smp xVar (set_variation None a) w).
  { clear xVar a w y Hextra_a Hextra_y. revert Hnot.
    induction smp as [d|p ds IH] using Sample_forall_ind; intros Hnot xVar a w Hextra.
    - cbn [Sample_getHistogram combinedSystematicsSet] in *.
      apply (getHistogram_demotes E d xVar a w v sy Hsy).
      by apply not_in_unionSystematics.
    - rewrite !Sample_getHistogram_Process.
      cbn [combinedSystematicsSet] in Hnot. rewrite elem_of_fold_union in Hnot.
      change (daughterArgs p (set_variation (Some v) a))
        with (set_variation (Some v) (daughterArgs p a)).
      change (daughterArgs p (set_variation None a))
        with (set_variation None (daughterArgs p a)).
      cbn [set_variation a_title a_style].
      rewrite (mergeLoop_ext _
                 (fun c w => Sample_getHistogram E c (_determineVariable p xVar)
                               (set_variation None (daughterArgs p a)) w)); [done|].
      apply Forall_forall. intros c Hc w0.
      rewrite Forall_forall in IH. apply (IH c Hc).
      + intros Hin. apply Hnot. right. apply Exists_exists. by exists c.
      + cbn [daughterArgs a_systematicsSet default].
        apply not_in_unionSystematics; [|done]. intros Hin. apply Hnot. by left. }
  split; [by apply Hhist|]. unfold getYield.
  change (yieldHistArgs (mkYieldArgs (y_cut y) (y_weightExpression y) (y_luminosity y)
                           (y_ignoreWeights y) (Some v) (y_ignoreDataWeight y)
                           (y_ignoreSF y) (y_systematicsSet y) (y_recreate y)))
    with (set_variation (Some v) (yieldHistArgs y)).
  change (yieldHistArgs (mkYieldArgs (y_cut y) (y_weightExpression y) (y_luminosity y)
                           (y_ignoreWeights y) None (y_ignoreDataWeight y)
                           (y_ignoreSF y) (y_systematicsSet y) (y_recreate y)))
    with (set_variation None (yieldHistArgs y)).
  by rewrite (Hhist var_Yield (yieldHistArgs y) w Hextra_y).
Qed.

Lemma getHistogram2D_demotes_own d xVar yVar a profile w v sy :
  systematics v = Some sy -> sy ∉ systematicsSet d ->
  getHistogram2D E d xVar yVar (set_variation (Some v) a) profile w
  = getHistogram2D E d xVar yVar (set_variation None a) profile w.
Proof.
  intros Hs Hown. unfold getHistogram2D, set_variation.
  cbn [a_title a_cut a_weightExpression a_drawOption a_style a_luminosity a_recreate
       a_systematicVariation a_includeOverflowBins a_ignoreDataWeight a_systematicsSet
       a_forceBinning orNominal].
  rewrite (demote_unregistered d _ v sy Hs Hown), demote_nominal. reflexivity.
Qed.

(** In two dimensions only a dataset's own systematics count: a variation
    whose systematics no dataset of the tree has registered itself runs as
    the nominal one, whatever the processes above have registered and
    whatever the query brings along. *)
Theorem Sample_getHistogram2D_demotes smp xVar yVar a profile w v sy :
  systematics v = Some sy ->
  Forall (fun d => sy ∉ systematicsSet d) (trueDatasets smp) ->
  Sample_getHistogram2D E smp xVar yVar (set_variation (Some v) a) profile w
  = Sample_getHistogram2D E smp xVar yVar (set_variation None a) profile w.
Proof.
  intros Hsy. revert xVar yVar a w.
  induction smp as [d|p ds IH] using Sample_forall_ind; intros xVar yVar a w Hown.
  - cbn [Sample_getHistogram2D trueDatasets] in *.
    apply (getHistogram2D_demotes_own d xVar yVar a profile w v sy Hsy).
    by inversion Hown.
  - cbn [Sample_getHistogram2D].
    change (daughterArgs2D p (set_variation (Some v) a))
      with (set_variation (Some v) (daughterArgs2D p a)).
    change (daughterArgs2D p (set_variation None a))
      with (set_variation None (daughterArgs2D p a)).
    cbn [set_variation a_title a_style].
    rewrite (mergeLoop2D_ext _
               (fun c w => Sample_getHistogram2D E c (_determineVariable p xVar)
                             (_determineVariable p yVar)
                             (set_variation None (daughterArgs2D p a)) profile w));
      [done|].
    apply Forall_forall. intros c Hc w0. rewrite Forall_forall in IH.
    apply (IH c Hc). rewrite trueDatasets_Process in Hown.
    rewrite Forall_concat, Forall_map in Hown. rewrite Forall_forall in Hown.
    by apply Hown.
Qed.

(** ** Processes without datasets *)

Lemma scans_logging l msg w : scans (logging l msg w) = scans w.
Proof. done. Qed.

Lemma mergeLoop_all_missing (q : Sample -> World -> option Hist * World) title
    (ds : list Sample) w :
  Forall (fun c => forall w, fst (q c w) = None /\ scans (snd (q c w)) = scans w) ds ->
  fst (mergeLoop q title ds None w) = None
  /\ scans (snd (mergeLoop q title ds None w)) = scans w.
Proof.
  intros Hall. revert w. induction Hall as [|c ds Hc _ IH]; intros w; [done|].
  cbn [mergeLoop]. destruct (Hc w) as [Hnone Hscans].
  destruct (q c w) as [h w1]. cbn [fst snd] in *. subst h. cbn [mergeStep].
  destruct (IH (logging WARNING "getHistogram(): no histogram created" w1)) as [IH1 IH2].
  split; [done|]. by rewrite IH2, scans_logging.
Qed.

(** A process tree that holds no dataset at all, as a process without
    daughters, gives no histogram and scans nothing, and its yield
    raises. *)
Theorem process_without_datasets p (ds : list Sample) xVar a (y : YieldArgs) w :
  trueDatasets (Process p ds) = [] ->
  fst (Sample_getHistogram E (Process p ds) xVar a w) = None /\
  scans (snd (Sample_getHistogram E (Process p ds) xVar a w)) = scans w /\
  fst (getYield E (Process p ds) y w) = Raised AttributeError.
Proof.
  intros Hempty.
  assert (Hhist : forall smp, trueDatasets smp = [] ->
             forall xVar a w,
               fst (Sample_getHistogram E smp xVar a w) = None
               /\ scans (snd (Sample_getHistogram E smp xVar a w)) = scans w).
  { clear. intros smp.
    induction smp as [d|p ds IH] using Sample_forall_ind; intros Hempty xVar a w;
      [done|].
    rewrite Sample_getHistogram_Process. cbn [fst snd].
    rewrite trueDatasets_Process in Hempty.
    destruct (mergeLoop_all_missing
                (fun c w => Sample_getHistogram E c (_determineVariable p xVar)
                              (daughterArgs p a) w)
                (a_title (daughterArgs p a)) ds w) as [Hnone Hscans].
    { apply Forall_forall. intros c Hc w0. rewrite Forall_forall in IH.
      apply (IH c Hc). apply concat_nil_Forall in Hempty.
      rewrite Forall_map, Forall_forall in Hempty. by apply Hempty. }
    by rewrite Hnone, Hscans. }
  destruct (Hhist _ Hempty xVar a w) as [H1 H2]. split; [done|]. split; [done|].
  unfold getYield. destruct (Hhist _ Hempty var_Yield (yieldHistArgs y) w) as [H3 _].
  destruct (Sample_getHistogram E (Process p ds) var_Yield (yieldHistArgs y) w)
    as [hist w1]. cbn [fst] in *. by subst hist.
Qed.

(** ** Systematics, preselection and entries over a process tree *)

Lemma fold_left_app_map {A B} (g : A -> A) (f : A -> list B) (l : list A)
    (init : list B) :
  fold_left (fun result c => (result ++ f c)%list) (map g l) init
  = fold_left (fun result c => (result ++ f (g c))%list) l init.
Proof. revert init. induction l as [|c l IH]; intros init; cbn; [done|apply IH]. Qed.

(** [addSystematicsToAllDaughters] adds to every dataset of the tree and
    to nothing else, so the combined set of a tree gains the systematics
    exactly when the tree holds a dataset. *)
Theorem addSystematicsToAllDaughters_reaches_datasets (x : SystematicsArg) smp :
  trueDatasets (addSystematicsToAllDaughters x smp)
  = map (addSystematics x) (trueDatasets smp) /\
  (forall y,
      y ∈ combinedSystematicsSet (addSystematicsToAllDaughters x smp)
      <-> y ∈ combinedSystematicsSet smp
          \/ (y ∈ match x with ManySystematics xs => xs | OneSystematics x => {[x]} end
              /\ trueDatasets smp <> [])).
Proof.
  induction smp as [d|p ds IH] using Sample_forall_ind.
  - split; [done|]. intros y. cbn.
    destruct x; cbn; rewrite elem_of_union;
      (split; [intros [?|?]; [by left|by right]|intros [?|[? _]]; [by left|by right]]).
  - split.
    + rewrite !trueDatasets_Process. cbn [addSystematicsToAllDaughters].
      rewrite trueDatasets_Process, map_map, concat_map, map_map. f_equal.
      apply map_ext_Forall. eapply Forall_impl; [exact IH|]. by intros c [Hc _].
    + intros y. cbn [addSystematicsToAllDaughters combinedSystematicsSet].
      rewrite !elem_of_fold_union, trueDatasets_Process, Exists_map.
      rewrite !Exists_exists. rewrite Forall_forall in IH. split.
      * intros [Hown|(c & Hc & Hy)]; [by left; left|].
        destruct (IH c Hc) as [_ Hiff]. apply Hiff in Hy as [Hy|[Hy Hne]].
        -- left. right. by exists c.
        -- right. split; [done|]. intros Hnil. apply concat_nil_Forall in Hnil.
           rewrite Forall_map, Forall_forall in Hnil. by apply Hne, Hnil.
      * intros [[Hown|(c & Hc & Hy)]|[Hy Hne]].
        -- by left.
        -- right. exists c. split; [done|]. apply (IH c Hc). by left.
        -- right. assert (Hex : Exists (fun c => trueDatasets c <> []) ds).
           { apply not_Forall_Exists; [intros c; apply _|]. intros Hall.
             apply Hne. apply concat_nil_Forall. by rewrite Forall_map. }
           apply Exists_exists in Hex as (c & Hc & Hcne). exists c.
           split; [done|]. apply (IH c Hc). by right.
Qed.

(** [removeSystematicsFromAllDaughters] takes the systematics out of the
    combined set of the tree and leaves every other one in. *)
Theorem removeSystematicsFromAllDaughters_combined (x : string) smp :
  combinedSystematicsSet (removeSystematicsFromAllDaughters x smp)
  = combinedSystematicsSet smp ∖ {[x]}.
Proof.
  apply set_eq. intros y. rewrite elem_of_difference, elem_of_singleton.
  induction smp as [d|p ds IH] using Sample_forall_ind.
  - cbn. by rewrite elem_of_difference, elem_of_singleton.
  - cbn [removeSystematicsFromAllDaughters combinedSystematicsSet].
    rewrite !elem_of_fold_union, Exists_map, !Exists_exists. cbn.
    rewrite elem_of_difference, elem_of_singleton. rewrite Forall_forall in IH. split.
    + intros [[Hown Hne]|(c & Hc & Hy)]; [by split; [left|]|].
      apply (IH c Hc) in Hy as [Hy Hne]. split; [|done]. right. by exists c.
    + intros [[Hown|(c & Hc & Hy)] Hne]; [by left|].
      right. exists c. split; [done|]. by apply (IH c Hc).
Qed.

(** Setting the preselection on a tree sets it on every dataset of the
    tree; reading it back gives the cut when the tree's first daughters
    lead to a dataset and nothing otherwise. *)
Theorem Sample_set_preselection_reaches_datasets (cut : Cut) smp :
  trueDatasets (Sample_set_preselection cut smp)
  = map (set_preselection cut) (trueDatasets smp) /\
  Sample_preselection (Sample_set_preselection cut smp)
  = match Sample_preselection smp with Some _ => Some cut | None => None end.
Proof.
  induction smp as [d|p ds IH] using Sample_forall_ind; [done|]. split.
  - rewrite !trueDatasets_Process. cbn [Sample_set_preselection].
    rewrite trueDatasets_Process, map_map, concat_map, map_map. f_equal.
    apply map_ext_Forall. eapply Forall_impl; [exact IH|]. by intros c [Hc _].
  - cbn [Sample_set_preselection Sample_preselection].
    destruct ds as [|c ds]; [done|]. cbn [map]. inversion IH as [|? ? [_ Hc] _]; subst.
    exact Hc.
Qed.

Lemma Sample_entries_Process_fold (G : Tree -> nat) (ds : list Sample) n w
    (total : Sample -> nat) :
  Forall (fun c => forall w, fst (Sample_entries E G c w) = total c) ds ->
  fst (fold_left (fun acc dataset =>
                    let '(m, w) := Sample_entries E G dataset (snd acc) in
                    (fst acc + m, w)) ds (n, w))
  = n + sum_list_with total ds.
Proof.
  intros Hall. revert n w. induction Hall as [|c ds Hc _ IH]; intros n w; cbn.
  - lia.
  - specialize (Hc w). destruct (Sample_entries E G c w) as [m w1]. cbn in *.
    subst m. rewrite IH. lia.
Qed.

(** The entries of a process are the entries of the nominal trees of all
    datasets of its tree, added up. *)
Theorem Sample_entries_sum (G : Tree -> nat) smp w :
  fst (Sample_entries E G smp w)
  = sum_list_with (fun d => G (TChain E d (treeName (nominalSystematics d))))
                  (trueDatasets smp).
Proof.
  revert w. induction smp as [d|p ds IH] using Sample_forall_ind; intros w.
  - cbn. unfold Dataset_entries, _open. cbn. lia.
  - cbn [Sample_entries].
    rewrite (Sample_entries_Process_fold G ds 0 w
               (fun c => sum_list_with
                           (fun d => G (TChain E d (treeName (nominalSystematics d))))
                           (trueDatasets c))) by exact IH.
    rewrite trueDatasets_Process. cbn. clear IH.
    induction ds as [|c ds IHds]; cbn; [done|].
    by rewrite sum_list_with_app, IHds.
Qed.

(** ** Values of a process *)

Lemma getValues_by_chain d xVar cut we luminosity variation extra w :
  (tvalid (TChain E d (treeName (orNominal d variation))) = true ->
   exists r, fst (getValues E d xVar cut we luminosity variation extra w) = Some r) /\
  (tvalid (TChain E d (treeName (orNominal d variation))) <> true ->
   fst (getValues E d xVar cut we luminosity variation extra w) = None).
Proof.
  unfold getValues, _open. cbv beta iota zeta.
  destruct (tvalid _); cbn [negb]; split; try done.
  intros _. destruct (getValuesFromTree _ _ _ _) as [values weights]. cbn [fst].
  by eexists.
Qed.

Lemma valuesLoop_by_chain
    (q : Sample -> World -> Result (option (list num * list num)) * World)
    (ok : Sample -> Prop) `{!forall c, Decision (ok c)} (ds : list Sample) :
  Forall (fun c => forall w,
            (ok c -> exists r, fst (q c w) = Ok (Some r)) /\
            (~ ok c -> fst (q c w) = Ok None \/ fst (q c w) = Raise TypeError)) ds ->
  forall values weights w,
    (Forall ok ds -> exists r, fst (valuesLoop q ds values weights w) = Ok r) /\
    (~ Forall ok ds -> fst (valuesLoop q ds values weights w) = Raise TypeError).
Proof.
  intros Hall. induction Hall as [|c ds Hc _ IH]; intros values weights w.
  - split; [intros _; by eexists|]. intros Hnot. destruct Hnot. constructor.
  - cbn [valuesLoop]. destruct (Hc w) as [Hok Hbad].
    destruct (decide (ok c)) as [Hc_ok|Hc_bad].
    + destruct (Hok Hc_ok) as [[v wt] Hr]. destruct (q c w) as [r w1].
      cbn [fst] in Hr. subst r.
      destruct (IH (values ++ v)%list (weights ++ wt)%list w1) as [IHok IHbad].
      split.
      * intros Hforall. apply IHok. by inversion Hforall.
      * intros Hnot. apply IHbad. intros Hrest. apply Hnot. by constructor.
    + split; [intros Hforall; by inversion Hforall|]. intros _.
      destruct (Hbad Hc_bad) as [Hr|Hr]; destruct (q c w) as [r w1];
        cbn [fst] in Hr; by subst r.
Qed.

(** [getValues] of a process needs every dataset of its tree: it returns
    values when the chain of each one is not null and raises TypeError as
    soon as one is, where [getHistogram] would go on without it. *)
Theorem Process_getValues_needs_every_chain p (ds : list Sample) xVar cut we luminosity
    variation extra w :
  (Forall (fun d => tvalid (TChain E d (treeName (orNominal d variation))) = true)
          (trueDatasets (Process p ds))
   -> exists r, fst (Sample_getValues E (Process p ds) xVar cut we luminosity variation
                       extra w) = Ok (Some r)) /\
  (~ Forall (fun d => tvalid (TChain E d (treeName (orNominal d variation))) = true)
            (trueDatasets (Process p ds))
   -> fst (Sample_getValues E (Process p ds) xVar cut we luminosity variation extra w)
      = Raise TypeError).
Proof.
  assert (Hall : forall smp xVar cut extra w,
    (Forall (fun d => tvalid (TChain E d (treeName (orNominal d variation))) = true)
            (trueDatasets smp)
     -> exists r, fst (Sample_getValues E smp xVar cut we luminosity variation extra w)
                  = Ok (Some r)) /\
    (~ Forall (fun d => tvalid (TChain E d (treeName (orNominal d variation))) = true)
              (trueDatasets smp)
     -> fst (Sample_getValues E smp xVar cut we luminosity variation extra w)
        = match smp with Leaf _ => Ok None | Process _ _ => Raise TypeError end)).
  { clear. intros smp.
    induction smp as [d|p ds IH] using Sample_forall_ind; intros xVar cut extra w.
    - cbn [Sample_getValues trueDatasets].
      destruct (getValues_by_chain d xVar cut we luminosity variation extra w)
        as [Hok Hbad].
      destruct (getValues E d xVar cut we luminosity variation extra w) as [r w1].
      cbn [fst] in *. split.
      + intros Hforall. inversion Hforall as [|? ? Hv _]; subst.
        destruct (Hok Hv) as [r' ->]. by eexists.
      + intros Hnot. rewrite Hbad; [done|]. intros Hv. apply Hnot. by repeat constructor.
    - cbn [Sample_getValues]. rewrite trueDatasets_Process.
      assert (Hpre : Forall (fun c => forall w,
                (Forall (fun d => tvalid (TChain E d (treeName (orNominal d variation)))
                                  = true) (trueDatasets c)
                 -> exists r,
                     fst (Sample_getValues E c (_determineVariable p xVar)
                            (_determineCut p cut) we luminosity variation
                            (Some (unionSystematics p extra)) w) = Ok (Some r)) /\
                (~ Forall (fun d => tvalid (TChain E d (treeName (orNominal d variation)))
                                    = true) (trueDatasets c)
                 -> fst (Sample_getValues E c (_determineVariable p xVar)
                           (_determineCut p cut) we luminosity variation
                           (Some (unionSystematics p extra)) w) = Ok None
                    \/ fst (Sample_getValues E c (_determineVariable p xVar)
                              (_determineCut p cut) we luminosity variation
                              (Some (unionSystematics p extra)) w) = Raise TypeError)) ds).
      { eapply Forall_impl; [exact IH|]. intros c Hc w0.
        destruct (Hc (_determineVariable p xVar) (_determineCut p cut)
                     (Some (unionSystematics p extra)) w0) as [Hc1 Hc2].
        split; [done|]. intros Hnot. rewrite (Hc2 Hnot). destruct c; [by left|by right]. }
      destruct (valuesLoop_by_chain _ _ ds Hpre [] [] w) as [Hok Hbad].
      rewrite Forall_concat, Forall_map.
      destruct (valuesLoop _ ds [] [] w) as [r w1]. cbn [fst] in *. split.
      + intros Hforall. destruct (Hok Hforall) as [[values weights] ->]. by eexists.
      + intros Hnot. by rewrite (Hbad Hnot). }
  apply Hall.
Qed.

End MoreQueries.

(** * More properties of the objects *)

Module PyMore.
Import Py PyFacts.
Section Facts.
Context {num : Type} `{Arith num}.

Implicit Types (s st : @State num) (o l self c : loc) (v : @Value num).

(** ** The registry *)

Lemma register_eq self oldName s name :
  getattr self "_name" s = Some (VStr name) ->
  _register self oldName s
  = Some (mkState (heap s)
            (<[name := self]>
               (if decide (oldName <> "" /\ DATASETS s !! oldName = Some self)
                then delete oldName (DATASETS s) else DATASETS s))
            (match (if decide (oldName <> "" /\ DATASETS s !! oldName = Some self)
                    then delete oldName (DATASETS s) else DATASETS s) !! name with
             | Some other =>
               if decide (other = self) then warnings s
               else (warnings s ++ ["name(): registering a Dataset with an already existing name"])%list
             | None => warnings s
             end)).
Proof. intros Hname. unfold _register. by rewrite Hname. Qed.

(** [_register] binds the dataset's name to it, whoever held the name
    before, with a warning when another object did; of the old name it
    removes only the dataset's own entry, and it leaves every other name
    alone. *)
Theorem register_rebinds_name self oldName s name :
  getattr self "_name" s = Some (VStr name) ->
  exists s',
    _register self oldName s = Some s' /\
    heap s' = heap s /\
    DATASETS s' !! name = Some self /\
    (forall k, k <> name -> k <> oldName -> DATASETS s' !! k = DATASETS s !! k) /\
    (oldName <> name ->
     DATASETS s' !! oldName
     = if decide (oldName <> "" /\ DATASETS s !! oldName = Some self)
       then None else DATASETS s !! oldName) /\
    warnings s'
    = match DATASETS s !! name with
      | Some other =>
        if decide (other = self) then warnings s
        else (warnings s ++ ["name(): registering a Dataset with an already existing name"])%list
      | None => warnings s
      end.
Proof.
  intros Hname. rewrite (register_eq _ _ _ _ Hname). eexists. split; [reflexivity|].
  cbn. split; [done|]. split; [by rewrite lookup_insert_eq|]. split; [|split].
  - intros k Hk Hold. rewrite lookup_insert_ne by done.
    case_decide; [by rewrite lookup_delete_ne|done].
  - intros Hne. rewrite lookup_insert_ne by done.
    case_decide; [by rewrite lookup_delete_eq|done].
  - case_decide as Hdel; [|done].
    destruct (decide (oldName = name)) as [->|Hne].
    + rewrite lookup_delete_eq. destruct Hdel as [_ ->]. by rewrite decide_True.
    + by rewrite lookup_delete_ne.
Qed.

Lemma getattr_setattr_eq o x v st st' :
  setattr o x v st = Some st' -> getattr o x st' = Some v.
Proof.
  unfold setattr. destruct (heap st !! o) as [[| |cls attrs]|] eqn:Ho; try done.
  intros [= <-]. unfold getattr. cbn.
  rewrite list_lookup_insert_eq by (by eapply lookup_lt_Some).
  by rewrite lookup_insert_eq.
Qed.

Lemma setattr_DATASETS o x v st st' :
  setattr o x v st = Some st' -> DATASETS st' = DATASETS st /\ warnings st' = warnings st.
Proof.
  unfold setattr. destruct (heap st !! o) as [[| |cls attrs]|]; try done.
  by intros [= <-].
Qed.

Lemma setattr_length o x v st st' :
  setattr o x v st = Some st' -> length (heap st') = length (heap st).
Proof.
  unfold setattr. destruct (heap st !! o) as [[| |cls attrs]|]; try done.
  intros [= <-]. cbn. by rewrite length_insert.
Qed.

Lemma setattr_is_Some o x v st a w0 :
  getattr o a st = Some w0 -> is_Some (setattr o x v st).
Proof.
  unfold getattr, setattr. destruct (heap st !! o) as [[| |cls attrs]|]; try done.
Qed.

(** The setter of [name] with a name other than the present one. *)
Lemma set_name_renames self old name s :
  getattr self "_name" s = Some (VStr old) ->
  name <> old ->
  exists s',
    set_name self name s = Some s' /\
    getattr self "_name" s' = Some (VStr name) /\
    length (heap s') = length (heap s) /\
    DATASETS s'
    = <[name := self]>
        (if decide (old <> "" /\ DATASETS s !! old = Some self)
         then delete old (DATASETS s) else DATASETS s).
Proof.
  intros Hold Hne. unfold set_name. rewrite Hold.
  destruct (setattr_is_Some self "_name" (VStr name) s _ _ Hold) as [s1 Hset].
  rewrite Hset. cbn. rewrite decide_False by done.
  pose proof (getattr_setattr_eq _ _ _ _ _ Hset) as Hname.
  destruct (setattr_DATASETS _ _ _ _ _ Hset) as [Hd Hw].
  rewrite (register_eq _ _ _ _ Hname). eexists. split; [reflexivity|].
  split; [|split].
  - rewrite <- Hname. by apply getattr_heap.
  - cbn. by apply setattr_length in Hset.
  - cbn. by rewrite Hd.
Qed.

(** Renaming a dataset that is registered under its name moves the entry:
    the new name is bound to it and the old one is free. *)
Theorem rename_moves_registration self old name s :
  getattr self "_name" s = Some (VStr old) ->
  DATASETS s !! old = Some self ->
  old <> "" ->
  name <> old ->
  exists s',
    set_name self name s = Some s' /\
    getattr self "_name" s' = Some (VStr name) /\
    DATASETS s' !! name = Some self /\
    DATASETS s' !! old = None /\
    (forall k, k <> name -> k <> old -> DATASETS s' !! k = DATASETS s !! k).
Proof.
  intros Hold Hreg Hne0 Hne.
  destruct (set_name_renames self old name s Hold Hne) as (s' & Hset & Hname & _ & Hd).
  rewrite decide_True in Hd by done.
  exists s'. split; [done|]. split; [done|]. rewrite Hd. split; [|split].
  - by rewrite lookup_insert_eq.
  - rewrite lookup_insert_ne by done. by rewrite lookup_delete_eq.
  - intros k Hk1 Hk2. rewrite lookup_insert_ne by done. by rewrite lookup_delete_ne.
Qed.

(** ** Dataset.copy, step by step *)

Lemma Dataset_copy_unfold self name title s :
  Dataset_copy self name title s
  = ('(dataset, s) ← shallow_copy self s;
     s ← set_name dataset name s;
     s ← setattr dataset "title" (VStr title) s;
     s ← copy_attrs self dataset copied_containers s;
     Some (dataset, s)).
Proof.
  unfold Dataset_copy, copied_containers.
  destruct (shallow_copy self s) as [[c s0]|]; [|done]. cbn [mbind option_bind].
  destruct (set_name c name s0) as [sa|]; [|done]. cbn [mbind option_bind].
  destruct (setattr c "title" (VStr title) sa) as [sb|]; [|done].
  cbn [mbind option_bind copy_attrs].
  repeat match goal with
         | |- context [copy_attr ?x ?y ?z ?st] =>
           destruct (copy_attr x y z st); cbn [mbind option_bind]; [|done]
         end.
  done.
Qed.

Lemma copy_attr_fresh self o x st st' :
  o < length (heap st) ->
  copy_attr self o x st = Some st' ->
  exists l ob,
    getattr self x st = Some (VRef l) /\ heap st !! l = Some ob /\
    getattr o x st' = Some (VRef (length (heap st))) /\
    heap st' !! length (heap st) = Some ob /\
    length (heap st') = S (length (heap st)).
Proof.
  intros Ho. unfold copy_attr.
  destruct (getattr self x st) as [[| | | |l]|]; try done. cbn.
  unfold shallow_copy. destruct (heap st !! l) as [ob|] eqn:Hl; [|done]. cbn.
  intros Hset. exists l, ob. split; [done|]. split; [done|].
  pose proof (getattr_setattr_eq _ _ _ _ _ Hset) as Hget.
  assert (Hne : length (heap st) <> o) by lia.
  destruct (setattr_touches _ _ _ _ _ Hset) as (Hlen & Hframe & _). cbn in *.
  rewrite length_app in *. cbn in *.
  split; [done|]. split.
  - rewrite Hframe by (lia || done). by apply list_lookup_middle.
  - rewrite (setattr_length _ _ _ _ _ Hset). cbn. rewrite length_app. cbn. lia.
Qed.

(** After the assignments, each container attribute of the copy refers to
    an object allocated for it, with the content the original's had. *)
Lemma copy_attrs_fresh self c xs : forall st st',
  NoDup xs -> self <> c -> self < length (heap st) -> c < length (heap st) ->
  copy_attrs self c xs st = Some st' ->
  touches_only c xs st st' /\
  forall a, a ∈ xs ->
    exists l lnew ob,
      getattr self a st = Some (VRef l) /\
      getattr c a st' = Some (VRef lnew) /\
      l < lnew /\ length (heap st) <= lnew < length (heap st') /\
      heap st' !! lnew = Some ob /\
      (l <> c -> heap st' !! l = Some ob).
Proof.
  induction xs as [|x xs IH]; intros st st' Hnd Hsc Hself Hc Hrun.
  - injection Hrun as <-. split; [apply touches_only_refl|]. intros a Ha.
    by apply elem_of_nil in Ha.
  - cbn [copy_attrs] in Hrun.
    destruct (copy_attr self c x st) as [st1|] eqn:Hstep; [|done].
    cbn [mbind option_bind] in Hrun. apply NoDup_cons in Hnd as [Hx Hnd].
    pose proof (copy_attr_touches _ _ _ _ _ Hc Hstep) as Ht1.
    destruct (copy_attr_fresh _ _ _ _ _ Hc Hstep) as (l & ob & Hl & Hob & Hnew & Hcopy & Hlen).
    destruct (IH st1 st' Hnd Hsc ltac:(lia) ltac:(lia) Hrun) as [Ht2 Hrest].
    split; [exact (touches_only_trans c [x] xs _ _ _ Ht1 Ht2)|].
    destruct Ht1 as (_ & Hframe1 & _). destruct Ht2 as (Hlen2 & Hframe2 & Hattr2).
    intros a Ha. apply elem_of_cons in Ha as [->|Ha].
    + exists l, (length (heap st)), ob. pose proof (lookup_lt_Some _ _ _ Hob) as Hlt.
      split; [done|]. split; [by rewrite Hattr2|]. split; [done|]. split; [lia|].
      split; [rewrite Hframe2; [done|lia|lia]|].
      intros Hlc. rewrite Hframe2 by (lia || done). by rewrite Hframe1.
    + destruct (Hrest a Ha) as (l' & lnew & ob' & Hl' & Hnew' & Hlt' & Hrange & Hc' & Horig).
      exists l', lnew, ob'. split; [|split; [done|split; [done|split; [lia|done]]]].
      rewrite <- Hl'. symmetry. apply getattr_heap. by apply Hframe1.
Qed.

(** What [Dataset.copy] returns, put together. *)
Lemma Dataset_copy_facts self name title s c s1 :
  Dataset_copy self name title s = Some (c, s1) ->
  c = length (heap s) /\ self < c /\
  heap s1 !! self = heap s !! self /\
  forall a, a ∈ copied_containers ->
    exists l lnew ob,
      getattr self a s = Some (VRef l) /\
      getattr c a s1 = Some (VRef lnew) /\
      l < lnew /\ c < lnew < length (heap s1) /\
      heap s1 !! lnew = Some ob /\
      (l < c -> heap s1 !! l = Some ob).
Proof.
  rewrite Dataset_copy_unfold. unfold shallow_copy.
  destruct (heap s !! self) as [ob0|] eqn:Hself; [|done].
  cbn [mbind option_bind alloc].
  pose proof (lookup_lt_Some _ _ _ Hself) as Hlt.
  set (c0 := length (heap s)). set (s0 := mkState (heap s ++ [ob0]) _ _).
  destruct (set_name c0 name s0) as [sa|] eqn:Ha; [|done]. cbn [mbind option_bind].
  destruct (setattr c0 "title" (VStr title) sa) as [sb|] eqn:Hb; [|done].
  cbn [mbind option_bind].
  destruct (copy_attrs self c0 copied_containers sb) as [sc|] eqn:Hc; [|done].
  cbn [mbind option_bind]. intros [= <- <-].
  apply set_name_touches in Ha. apply setattr_touches in Hb.
  pose proof (touches_only_trans _ _ _ _ _ _ Ha Hb) as Hab.
  destruct Hab as (Hlen_ab & Hframe_ab & Hattr_ab).
  assert (Hlen0 : length (heap s0) = S c0).
  { subst s0 c0. cbn. rewrite length_app. cbn. lia. }
  assert (Hnd : NoDup copied_containers).
  { apply (bool_decide_unpack _). by vm_compute. }
  destruct (copy_attrs_fresh self c0 copied_containers sb sc Hnd ltac:(lia)
              ltac:(lia) ltac:(lia) Hc) as [Htc Hfresh].
  destruct Htc as (Hlen_c & Hframe_c & _).
  assert (Hself_b : heap sb !! self = heap s !! self).
  { rewrite Hframe_ab by lia. subst s0. cbn. by rewrite lookup_app_l. }
  split; [done|]. split; [done|]. split.
  { rewrite Hframe_c by lia. exact (eq_trans Hself_b Hself). }
  intros a Hin. destruct (Hfresh a Hin) as (l & lnew & ob & Hl & Hnew & Hlt' & Hrange & Hob & Horig).
  exists l, lnew, ob. split; [|split; [done|split; [done|split; [lia|split; [done|]]]]].
  - rewrite <- Hl. symmetry. by apply getattr_heap.
  - intros Hlc. apply Horig. lia.
Qed.

Lemma deref_store_other self a l ob s :
  l <> self -> (forall l0, getattr self a s = Some (VRef l0) -> l0 <> l) ->
  deref self a (store_obj l ob s) = deref self a s.
Proof.
  intros Hself Hne. unfold deref.
  assert (Hget : getattr self a (store_obj l ob s) = getattr self a s).
  { apply getattr_heap. cbn. by rewrite list_lookup_insert_ne. }
  rewrite Hget. destruct (getattr self a s) as [[| | | |l0]|]; try done. cbn.
  rewrite list_lookup_insert_ne; [done|]. intros ->. by apply (Hne l0).
Qed.

(** The containers [Dataset.copy] duplicates are the copy's own: right
    after the copy they hold what the original's hold, and an entry set or
    an element appended through the copy leaves the original's container as
    it was. *)
Theorem copy_owns_duplicated_containers self name title s c s1 a :
  Dataset_copy self name title s = Some (c, s1) ->
  a ∈ copied_containers ->
  is_Some (deref self a s) ->
  deref c a s1 = deref self a s1 /\
  (forall k v s2, dict_setitem c a k v s1 = Some s2 ->
                  deref self a s2 = deref self a s1 /\ dict_get c a k s2 = Some v) /\
  (forall v s2, list_append c a v s1 = Some s2 -> deref self a s2 = deref self a s1).
Proof.
  intros Hcopy Hin Hvalid.
  destruct (Dataset_copy_facts _ _ _ _ _ _ Hcopy) as (Hc & Hlt & Hself & Hfresh).
  destruct (Hfresh a Hin) as (l & lnew & ob & Hl & Hnew & Hlnew & Hrange & Hob & Horig).
  assert (Hl1 : getattr self a s1 = Some (VRef l)).
  { rewrite <- Hl. by apply getattr_heap. }
  assert (Hlc : l < c).
  { destruct Hvalid as [ob' Hd]. unfold deref in Hd. rewrite Hl in Hd. cbn in Hd.
    apply lookup_lt_Some in Hd. lia. }
  split; [|split].
  - unfold deref. rewrite Hnew, Hl1. cbn. by rewrite Hob, Horig.
  - intros k v s2 Hset. unfold dict_setitem in Hset. rewrite Hnew in Hset. cbn in Hset.
    destruct (heap s1 !! lnew) as [[m| |]|] eqn:Hm; try done. injection Hset as <-.
    split.
    + apply deref_store_other; [lia|]. intros l0 Hl0. rewrite Hl1 in Hl0.
      injection Hl0 as <-. lia.
    + unfold dict_get.
      assert (Hget : getattr c a (store_obj lnew (ODict (<[k:=v]> m)) s1)
                     = Some (VRef lnew)).
      { rewrite <- Hnew. apply getattr_heap. cbn. rewrite list_lookup_insert_ne; [done|lia]. }
      rewrite Hget. cbn. rewrite list_lookup_insert_eq by lia.
      by rewrite lookup_insert_eq.
  - intros v s2 Happ. unfold list_append in Happ. rewrite Hnew in Happ. cbn in Happ.
    destruct (heap s1 !! lnew) as [[|vs|]|] eqn:Hm; try done. injection Happ as <-.
    apply deref_store_other; [lia|]. intros l0 Hl0. rewrite Hl1 in Hl0.
    injection Hl0 as <-. lia.
Qed.

Lemma copy_attr_DATASETS self o x st st' :
  copy_attr self o x st = Some st' ->
  DATASETS st' = DATASETS st /\ warnings st' = warnings st.
Proof.
  unfold copy_attr. destruct (getattr self x st) as [[| | | |l]|]; try done. cbn.
  unfold shallow_copy. destruct (heap st !! l) as [ob|]; [|done]. cbn.
  intros Hset. by apply setattr_DATASETS in Hset.
Qed.

Lemma copy_attrs_DATASETS self o xs : forall st st',
  copy_attrs self o xs st = Some st' ->
  DATASETS st' = DATASETS st /\ warnings st' = warnings st.
Proof.
  induction xs as [|x xs IH]; intros st st' Hrun.
  - by injection Hrun as <-.
  - cbn [copy_attrs] in Hrun.
    destruct (copy_attr self o x st) as [st1|] eqn:Hstep; [|done].
    cbn [mbind option_bind] in Hrun.
    destruct (copy_attr_DATASETS _ _ _ _ _ Hstep) as [<- <-]. by apply IH.
Qed.

(** [Dataset.copy] under another name registers the copy beside the
    original: the new name is bound to the copy, the original keeps its
    name and its entry, and no other name is rebound. *)
Theorem copy_registers_beside_the_original self old name title s c s1 :
  Dataset_copy self name title s = Some (c, s1) ->
  getattr self "_name" s = Some (VStr old) ->
  DATASETS s !! old = Some self ->
  name <> old ->
  c <> self /\
  getattr c "_name" s1 = Some (VStr name) /\
  getattr c "title" s1 = Some (VStr title) /\
  getattr self "_name" s1 = Some (VStr old) /\
  DATASETS s1 !! name = Some c /\
  DATASETS s1 !! old = Some self /\
  (forall k, k <> name -> DATASETS s1 !! k = DATASETS s !! k).
Proof.
  intros Hcopy Hold Hreg Hne.
  destruct (Dataset_copy_facts _ _ _ _ _ _ Hcopy) as (Hc & Hlt & Hself & _).
  revert Hcopy. rewrite Dataset_copy_unfold. unfold shallow_copy.
  destruct (heap s !! self) as [ob0|] eqn:Hob0; [|done].
  cbn [mbind option_bind alloc].
  set (c0 := length (heap s)). set (s0 := mkState (heap s ++ [ob0]) _ _).
  assert (Hold0 : getattr c0 "_name" s0 = Some (VStr old)).
  { unfold getattr in *. subst s0 c0. cbn. rewrite list_lookup_middle by done.
    by rewrite Hob0 in Hold. }
  destruct (set_name_renames c0 old name s0 Hold0 Hne) as (sa & Ha & Hname_a & Hlen_a & Hd_a).
  rewrite Ha. cbn [mbind option_bind].
  destruct (setattr c0 "title" (VStr title) sa) as [sb|] eqn:Hb; [|done].
  cbn [mbind option_bind].
  destruct (copy_attrs self c0 copied_containers sb) as [sc|] eqn:Hcs; [|done].
  cbn [mbind option_bind]. intros [= Hc0 <-]. subst c.
  assert (Hlen0 : length (heap s0) = S c0).
  { subst s0 c0. cbn. rewrite length_app. cbn. lia. }
  assert (Hnd : NoDup copied_containers).
  { apply (bool_decide_unpack _). by vm_compute. }
  pose proof (setattr_length _ _ _ _ _ Hb) as Hlen_b.
  destruct (copy_attrs_fresh self c0 copied_containers sb sc Hnd ltac:(lia)
              ltac:(lia) ltac:(lia) Hcs) as [(_ & _ & Hattr_c) _].
  destruct (setattr_touches _ _ _ _ _ Hb) as (_ & _ & Hattr_b).
  destruct (setattr_DATASETS _ _ _ _ _ Hb) as [Hd_b _].
  destruct (copy_attrs_DATASETS _ _ _ _ _ Hcs) as [Hd_c _].
  assert (Hreg0 : ~ (old <> "" /\ DATASETS s0 !! old = Some c0)).
  { intros [_ Hreg'].
    assert (Heq : Some self = Some c0) by (rewrite <- Hreg; exact Hreg').
    injection Heq as Heq. lia. }
  rewrite decide_False in Hd_a by done.
  assert (Hd : DATASETS sc = <[name := c0]> (DATASETS s)).
  { by rewrite Hd_c, Hd_b, Hd_a. }
  split; [lia|]. split; [|split; [|split; [|split; [|split]]]].
  - rewrite Hattr_c, Hattr_b; [done| |].
    + rewrite elem_of_cons, elem_of_nil. intuition discriminate.
    + unfold copied_containers. rewrite !elem_of_cons, elem_of_nil.
      intuition discriminate.
  - rewrite Hattr_c; [by apply getattr_setattr_eq in Hb|].
    unfold copied_containers. rewrite !elem_of_cons, elem_of_nil.
    intuition discriminate.
  - rewrite <- Hold. apply getattr_heap. congruence.
  - rewrite Hd. by rewrite lookup_insert_eq.
  - rewrite Hd. by rewrite lookup_insert_ne.
  - intros k Hk. rewrite Hd. by rewrite lookup_insert_ne.
Qed.

Lemma getattr_store_other self a l ob s :
  l <> self -> getattr self a (store_obj l ob s) = getattr self a s.
Proof. intros Hne. apply getattr_heap. cbn. by rewrite list_lookup_insert_ne. Qed.

(** A cross section or k-factor set on a copy stays with the copy: the
    copy's scale factors and attribute take the value, the original's scale
    factors and attributes are as they were. *)
Theorem factor_set_on_copy_spares_original self name title s c s1 key attr value s2 :
  Dataset_copy self name title s = Some (c, s1) ->
  is_Some (deref self "scaleFactors" s) ->
  attr <> "scaleFactors" ->
  set_factor c key attr value s1 = Some s2 ->
  dict_get c "scaleFactors" key s2 = Some (VNum value) /\
  getattr c attr s2 = Some (VNum value) /\
  deref self "scaleFactors" s2 = deref self "scaleFactors" s1 /\
  (forall a, getattr self a s2 = getattr self a s1).
Proof.
  intros Hcopy Hvalid Hattr Hset.
  destruct (Dataset_copy_facts _ _ _ _ _ _ Hcopy) as (Hc & Hlt & Hself & Hfresh).
  destruct (Hfresh "scaleFactors") as (l & lnew & ob & Hl & Hnew & Hlnew & Hrange & Hob & Horig).
  { unfold copied_containers. rewrite !elem_of_cons. tauto. }
  assert (Hl1 : getattr self "scaleFactors" s1 = Some (VRef l)).
  { rewrite <- Hl. by apply getattr_heap. }
  assert (Hlc : l < c).
  { destruct Hvalid as [ob' Hd]. unfold deref in Hd. rewrite Hl in Hd. cbn in Hd.
    apply lookup_lt_Some in Hd. lia. }
  unfold set_factor in Hset.
  destruct (dict_setitem c "scaleFactors" key (VNum value) s1) as [sm|] eqn:Hdict; [|done].
  cbn [mbind option_bind] in Hset.
  unfold dict_setitem in Hdict. rewrite Hnew in Hdict. cbn in Hdict.
  destruct (heap s1 !! lnew) as [[m| |]|] eqn:Hm; try done. injection Hdict as <-.
  destruct (setattr_touches _ _ _ _ _ Hset) as (_ & Hframe & Hattrs).
  cbn in Hframe. rewrite length_insert in Hframe.
  assert (Horiginal : forall a, getattr self a s2 = getattr self a s1).
  { intros a. apply getattr_heap. rewrite Hframe by lia. cbn.
    rewrite list_lookup_insert_ne; [done|lia]. }
  split; [|split; [|split]].
  - unfold dict_get. rewrite Hattrs.
    2:{ rewrite elem_of_cons, elem_of_nil. intros [Heq|[]]. by apply Hattr. }
    rewrite getattr_store_other by lia. rewrite Hnew. cbn.
    rewrite Hframe by lia. cbn. rewrite list_lookup_insert_eq by lia.
    by rewrite lookup_insert_eq.
  - exact (getattr_setattr_eq _ _ _ _ _ Hset).
  - unfold deref. rewrite Horiginal, Hl1. cbn. rewrite Hframe by lia. cbn.
    rewrite list_lookup_insert_ne; [done|lia].
  - exact Horiginal.
Qed.

End Facts.
End PyMore.

(** * The constructor on any heap *)

Module PyInit.
Import Py PyFacts PyMore.
Section Facts.
Context {num : Type} `{Arith num}.

Implicit Types (s st : @State num) (o l self : loc) (v : @Value num).

(** ** Single steps *)

Lemma is_instance_lt o st : is_instance o st -> o < length (heap st).
Proof. intros (cls & attrs & Ho). by eapply lookup_lt_Some. Qed.

Lemma setattr_assigns o x v st :
  is_instance o st ->
  exists st', setattr o x v st = Some st' /\ assigns o [x] st st' /\
              getattr o x st' = Some v.
Proof.
  intros (cls & attrs & Ho).
  assert (Hs : is_Some (setattr o x v st)).
  { unfold setattr. rewrite Ho. by eexists. }
  destruct Hs as [st' Hset]. exists st'. split; [done|].
  split; [|by eapply getattr_setattr_eq].
  split; [|split; [exact (setattr_touches _ _ _ _ _ Hset)|exact (setattr_DATASETS _ _ _ _ _ Hset)]].
  unfold setattr in Hset. rewrite Ho in Hset. injection Hset as <-.
  exists cls, (<[x:=v]> attrs). cbn. apply list_lookup_insert_eq.
  by eapply lookup_lt_Some.
Qed.

Lemma new_attr_assigns o x (ob : @Obj num) st :
  is_instance o st ->
  exists st', new_attr o x ob st = Some st' /\ assigns o [x] st st' /\
              getattr o x st' = Some (VRef (length (heap st))) /\
              heap st' !! length (heap st) = Some ob.
Proof.
  intros Hinst. pose proof (is_instance_lt _ _ Hinst) as Hlt.
  destruct Hinst as (cls & attrs & Ho).
  unfold new_attr, alloc.
  set (st1 := mkState (heap st ++ [ob]) (DATASETS st) (warnings st)).
  assert (Hinst1 : is_instance o st1).
  { exists cls, attrs. cbn. by rewrite lookup_app_l. }
  destruct (setattr_assigns o x (VRef (length (heap st))) st1 Hinst1)
    as (st' & Hset & (Hinst' & Ht & HD & HW) & Hget).
  exists st'. split; [done|]. destruct Ht as (Hl & Hh & Ha).
  cbn in Hl, Hh. rewrite length_app in Hl, Hh. cbn in Hl, Hh.
  split; [|split; [done|]].
  - split; [done|]. split; [|by split]. split; [lia|split].
    + intros l Hl' Hne. rewrite Hh by (lia || done). cbn. by rewrite lookup_app_l.
    + intros a Hne. rewrite Ha by done. apply getattr_heap. cbn.
      by rewrite lookup_app_l.
  - rewrite Hh by lia. cbn. by apply list_lookup_middle.
Qed.

(** The first assignment of a name, as in the constructor. *)
Lemma set_name_first o name st :
  is_instance o st -> getattr o "_name" st = None ->
  exists st', set_name o name st = Some st' /\ is_instance o st' /\
              touches_only o ["_name"] st st' /\
              getattr o "_name" st' = Some (VStr name) /\
              DATASETS st' = <[name := o]> (DATASETS st) /\
              warnings st' = warned name o st.
Proof.
  intros Hinst Hnone. unfold set_name. rewrite Hnone.
  destruct (setattr_assigns o "_name" (VStr name) st Hinst)
    as (st1 & Hset & (Hinst1 & Ht & HD & HW) & Hget).
  rewrite Hset. cbn [mbind option_bind].
  rewrite (register_eq _ _ _ _ Hget).
  rewrite decide_False by (intros [Hne _]; by apply Hne).
  eexists. split; [reflexivity|]. split; [|split; [|split; [|split]]].
  - destruct Hinst1 as (cls & attrs & Ho). by exists cls, attrs.
  - destruct Ht as (Hl & Hh & Ha). by split; [|split].
  - rewrite <- Hget. by apply getattr_heap.
  - cbn. by rewrite HD.
  - cbn. unfold warned. by rewrite HD, HW.
Qed.

(** The setters of the cross section and of the k-factor. *)
Lemma set_factor_run o l (m : gmap string (@Value num)) key attr value st :
  is_instance o st ->
  getattr o "scaleFactors" st = Some (VRef l) ->
  heap st !! l = Some (ODict m) ->
  l <> o -> attr <> "scaleFactors" ->
  exists st',
    set_factor o key attr value st = Some st' /\
    is_instance o st' /\
    heap st' !! l = Some (ODict (<[key := VNum value]> m)) /\
    getattr o attr st' = Some (VNum value) /\
    (forall a, a <> attr -> getattr o a st' = getattr o a st) /\
    (forall l', l' <> o -> l' <> l -> heap st' !! l' = heap st !! l') /\
    DATASETS st' = DATASETS st /\ warnings st' = warnings st.
Proof.
  intros Hinst Hsf Hobj Hlo Hattr. unfold set_factor, dict_setitem.
  rewrite Hsf. cbn [mbind option_bind]. rewrite Hobj. cbn [mbind option_bind].
  set (sm := store_obj l (ODict (<[key:=VNum value]> m)) st).
  assert (Hinst_m : is_instance o sm).
  { destruct Hinst as (cls & attrs & Ho). exists cls, attrs. cbn.
    by rewrite list_lookup_insert_ne. }
  destruct (setattr_assigns o attr (VNum value) sm Hinst_m)
    as (st' & Hset & (Hinst' & Ht & HD & HW) & Hget).
  exists st'. split; [done|]. split; [done|].
  destruct Ht as (Hl & Hh & Ha). cbn in Hl, Hh. rewrite length_insert in Hl, Hh.
  pose proof (lookup_lt_Some _ _ _ Hobj) as Hlt.
  pose proof (setattr_length _ _ _ _ _ Hset) as Hlen. cbn in Hlen.
  rewrite length_insert in Hlen.
  split; [|split; [done|split; [|split; [|by split]]]].
  - rewrite Hh by done. cbn. by apply list_lookup_insert_eq.
  - intros a Hne. rewrite Ha.
    + apply getattr_heap. cbn. by rewrite list_lookup_insert_ne.
    + rewrite elem_of_cons, elem_of_nil. tauto.
  - intros l' Hne1 Hne2. destruct (decide (l' < length (heap st))) as [Hlt'|Hge].
    + rewrite Hh by done. cbn. by rewrite list_lookup_insert_ne.
    + rewrite !lookup_ge_None_2; [done|lia|lia].
Qed.

(** ** What a step leaves alone *)

Lemma assigns_getattr o x st st' a (r : option (@Value num)) :
  assigns o [x] st st' -> a <> x -> getattr o a st = r -> getattr o a st' = r.
Proof.
  intros (_ & (_ & _ & Ha) & _) Hne <-. apply Ha.
  rewrite elem_of_cons, elem_of_nil. tauto.
Qed.

Lemma assigns_heap o x st st' l (ob : @Obj num) :
  assigns o [x] st st' -> l <> o -> heap st !! l = Some ob -> heap st' !! l = Some ob.
Proof.
  intros (_ & (_ & Hh & _) & _) Hne Hob. rewrite Hh; [done| |done].
  by eapply lookup_lt_Some.
Qed.

Lemma touches_extends o xs s st st' :
  touches_only o xs st st' -> length (heap s) <= o -> extends s st -> extends s st'.
Proof.
  intros (Hl & Hh & _) Hle Hold l Hlt. rewrite Hh; [by apply Hold| |lia].
  apply lookup_lt_is_Some. rewrite (Hold l Hlt). by apply lookup_lt_is_Some.
Qed.

Lemma assigns_extends o x s st st' :
  assigns o [x] st st' -> length (heap s) <= o -> extends s st -> extends s st'.
Proof. intros (_ & Ht & _). exact (touches_extends _ _ _ _ _ Ht). Qed.

Lemma assigns_DATASETS o x st st' (D : gmap string loc) :
  assigns o [x] st st' -> DATASETS st = D -> DATASETS st' = D.
Proof. intros (_ & _ & HD & _) <-. done. Qed.

Lemma assigns_warnings o x st st' (W : list string) :
  assigns o [x] st st' -> warnings st = W -> warnings st' = W.
Proof. intros (_ & _ & _ & HW) <-. done. Qed.

(** The facts about [st] that hold of [st'] after an assignment. *)
Ltac carry self Hstep :=
  lazymatch type of Hstep with
  | assigns _ _ ?st ?st' =>
    repeat match goal with
           | Hg : getattr self ?a st = ?r |- _ =>
             apply (assigns_getattr self _ st st' a r Hstep ltac:(discriminate)) in Hg
           | Hh : heap st !! ?l = Some ?ob |- _ =>
             apply (assigns_heap self _ st st' l ob Hstep ltac:(lia)) in Hh
           | He : extends ?s0 st |- _ =>
             apply (assigns_extends self _ s0 st st' Hstep ltac:(lia)) in He
           | HD : DATASETS st = _ |- _ => apply (assigns_DATASETS _ _ _ _ _ Hstep) in HD
           | HW : warnings st = _ |- _ => apply (assigns_warnings _ _ _ _ _ Hstep) in HW
           | Hi : is_instance self st |- _ => clear Hi
           end;
    let Hi := fresh "Hinst" in
    pose proof (proj1 Hstep) as Hi
  end.

(** One assignment of the constructor. *)
Ltac init_step self :=
  lazymatch goal with
  | Hinst : is_instance self ?st |- context [setattr self ?x ?v ?st ≫= _] =>
    let st' := fresh "st" in
    let Hrun := fresh "Hrun" in
    let Hstep := fresh "Hstep" in
    let Hget := fresh "Hget" in
    destruct (setattr_assigns self x v st Hinst) as (st' & Hrun & Hstep & Hget);
    rewrite Hrun; cbn [mbind option_bind]; clear Hrun;
    carry self Hstep; clear Hstep
  | Hinst : is_instance self ?st |- context [new_attr self ?x ?ob ?st ≫= _] =>
    let st' := fresh "st" in
    let Hrun := fresh "Hrun" in
    let Hstep := fresh "Hstep" in
    let Hget := fresh "Hget" in
    let Hnew := fresh "Hnew" in
    let Hlt := fresh "Hlt" in
    pose proof (is_instance_lt _ _ Hinst) as Hlt;
    destruct (new_attr_assigns self x ob st Hinst) as (st' & Hrun & Hstep & Hget & Hnew);
    rewrite Hrun; cbn [mbind option_bind]; clear Hrun;
    carry self Hstep; clear Hstep
  end.

Lemma frame_extends s st st' o l :
  (forall l', l' <> o -> l' <> l -> heap st' !! l' = heap st !! l') ->
  length (heap s) <= o -> length (heap s) <= l -> extends s st -> extends s st'.
Proof. intros Hframe Ho Hl Hold l' Hlt. rewrite Hframe by lia. by apply Hold. Qed.

(** One setter of a scale factor in the constructor. *)
Ltac factor_step self :=
  match goal with
  | Hinst : is_instance self ?st,
    Hsf : getattr self "scaleFactors" ?st = Some (VRef ?lsf),
    Hobj : heap ?st !! ?lsf = Some (ODict ?m)
    |- context [set_factor self ?key ?attr ?value ?st ≫= _] =>
    let st' := fresh "st" in
    let Hrun := fresh "Hrun" in
    let Hinst' := fresh "Hinst" in
    let Hobj' := fresh "Hobj" in
    let Hattr := fresh "Hattr" in
    let Hfa := fresh "Hfa" in
    let Hfh := fresh "Hfh" in
    let HD' := fresh "HD" in
    let HW' := fresh "HW" in
    destruct (set_factor_run self lsf m key attr value st Hinst Hsf Hobj
                ltac:(lia) ltac:(discriminate))
      as (st' & Hrun & Hinst' & Hobj' & Hattr & Hfa & Hfh & HD' & HW');
    rewrite Hrun; cbn [mbind option_bind]; clear Hrun Hobj Hinst;
    repeat match goal with
           | Hg : getattr self ?a st = ?r |- _ =>
             apply (eq_trans (Hfa a ltac:(discriminate))) in Hg
           | He : extends ?s0 st |- _ =>
             apply (frame_extends s0 st st' self lsf Hfh ltac:(lia) ltac:(lia)) in He
           | HD : DATASETS st = _ |- _ => apply (eq_trans HD') in HD
           | HW : warnings st = _ |- _ => apply (eq_trans HW') in HW
           end;
    clear Hfa Hfh HD' HW'
  end.

(** The rest of the constructor, and what it has established. *)
Ltac finish_init self :=
  repeat init_step self;
  match goal with
  | Hsf : getattr self "scaleFactors" ?st = Some (VRef ?lsf),
    Hf : getattr self "fileNames" ?st = Some (VRef ?lf),
    Hc : getattr self "sumOfWeightsCalculator" ?st = Some (VRef ?lc) |- _ =>
    exists st, lsf, lf, lc
  end;
  split; [reflexivity|];
  repeat split;
  lazymatch goal with
  | |- (_ < _) -> _ => let Hx := fresh in intros Hx; repeat split
  | |- _ => idtac
  end;
  first [assumption | lia | reflexivity | exfalso; lia].

(** ** The constructor as a whole *)

Lemma Dataset_init_facts name title (fileNames : option loc) treeName we xs kf isData
    titleLatex s :
  exists s' (lsf lf lc : loc),
    Dataset_init name title fileNames treeName we xs kf isData titleLatex s
    = Some (length (heap s), s') /\
    is_instance (length (heap s)) s' /\
    extends s s' /\
    DATASETS s' = <[name := length (heap s)]> (DATASETS s) /\
    warnings s' = warned name (length (heap s)) s /\
    getattr (length (heap s)) "_name" s' = Some (VStr name) /\
    getattr (length (heap s)) "title" s'
    = Some (VStr (if decide (title = "") then name else title)) /\
    (length (heap s) < lsf /\
     getattr (length (heap s)) "scaleFactors" s' = Some (VRef lsf) /\
     heap s' !! lsf
     = Some (ODict (<["kFactor" := VNum kf]> (<["crossSection" := VNum xs]> ∅)))) /\
    getattr (length (heap s)) "_Dataset__crossSection" s' = Some (VNum xs) /\
    getattr (length (heap s)) "_Dataset__kFactor" s' = Some (VNum kf) /\
    getattr (length (heap s)) "fileNames" s' = Some (VRef lf) /\
    match fileNames with
    | Some l =>
      l < length (heap s) ->
      match heap s !! l with
      | Some (OList (_ :: _)) => lf = l
      | _ => length (heap s) < lf /\ heap s' !! lf = Some (OList [])
      end
    | None => length (heap s) < lf /\ heap s' !! lf = Some (OList [])
    end /\
    getattr (length (heap s)) "_Dataset__sumOfWeights" s' = Some (VNum nzero) /\
    getattr (length (heap s)) "sumOfWeightsCalculator" s' = Some (VRef lc) /\
    heap s' !! lc
    = Some (OInstance "HistogramBasedSumOfWeightsCalculator"
              (<["sumOfWeights" := VNum nzero]> (<["calculated" := VBool false]>
               (<["histogramName" := VStr "h_metadata"]>
                (<["binIndex" := VStr "8"]> ∅))))).
Proof.
  unfold Dataset_init, alloc, new_calculator. cbv beta iota zeta.
  set (self := length (heap s)).
  set (st0 := mkState (heap s ++ [OInstance "Dataset" ∅]) (DATASETS s) (warnings s)).
  assert (Hinst : is_instance self st0).
  { exists "Dataset", ∅. subst st0 self. cbn. by apply list_lookup_middle. }
  assert (Hold : extends s st0).
  { intros l Hl. subst st0. cbn. by rewrite lookup_app_l. }
  assert (Hnone : getattr self "_name" st0 = None).
  { unfold getattr. subst st0 self. cbn. by rewrite list_lookup_middle. }
  assert (HD : DATASETS st0 = DATASETS s) by done.
  assert (HW : warnings st0 = warnings s) by done.
  assert (Hself : length (heap s) <= self) by (subst self; lia).
  assert (Hself' : self <= length (heap s)) by (subst self; lia).
  clearbody self st0.
  do 3 init_step self.
  (* the name and the registration *)
  match goal with
  | Hi : is_instance self ?st |- _ =>
    destruct (set_name_first self name st Hi Hnone)
      as (st3 & Hrun & Hinst3 & Ht3 & Hname3 & HD3 & HW3);
    rewrite Hrun; cbn [mbind option_bind]; clear Hrun;
    apply (touches_extends _ _ _ _ _ Ht3 Hself) in Hold;
    unfold warned in HW3; rewrite HD, HW in HW3; fold (warned name self s) in HW3;
    rewrite HD in HD3;
    repeat match goal with Hx : context [st] |- _ => clear Hx end
  end.
  (* up to the scale factors *)
  do 6 init_step self.
  do 2 factor_step self.
  (* the file names *)
  destruct fileNames as [l|].
  - destruct (decide (l < length (heap s))) as [Hfiles|Hdangling].
    + match goal with
      | |- context [heap ?st !! l] =>
        assert (Heq : heap st !! l = heap s !! l) by apply (Hold l Hfiles);
        rewrite Heq; clear Heq
      end.
      destruct (heap s !! l) as [[m|[|f fs]|cls attrs]|] eqn:Hl; finish_init self.
    + match goal with
      | |- context [heap ?st !! l] =>
        destruct (heap st !! l) as [[m|[|f fs]|cls attrs]|] eqn:Hl
      end; finish_init self.
  - finish_init self.
Qed.

(** A new dataset is an object of its own, registered under its name,
    whatever the name and also when it is empty, in place of whoever held
    the name, with a warning in that case; the objects there were are
    untouched and no other name is rebound. An empty title falls back to
    the name. *)
Theorem Dataset_init_registers_the_dataset name title (fileNames : option loc) treeName
    we xs kf isData titleLatex s :
  exists s',
    Dataset_init name title fileNames treeName we xs kf isData titleLatex s
    = Some (length (heap s), s') /\
    (forall l, l < length (heap s) -> heap s' !! l = heap s !! l) /\
    DATASETS s' !! name = Some (length (heap s)) /\
    (forall k, k <> name -> DATASETS s' !! k = DATASETS s !! k) /\
    warnings s' = warned name (length (heap s)) s /\
    getattr (length (heap s)) "_name" s' = Some (VStr name) /\
    getattr (length (heap s)) "title" s'
    = Some (VStr (if decide (title = "") then name else title)).
Proof.
  destruct (Dataset_init_facts name title fileNames treeName we xs kf isData titleLatex
              s)
    as (s' & lsf & lf & lc & Hrun & _ & Hold & HD & HW & Hn & Ht & _).
  exists s'. split; [done|]. split; [exact Hold|]. rewrite HD.
  split; [by rewrite lookup_insert_eq|]. split; [|done].
  intros k Hk. by rewrite lookup_insert_ne.
Qed.

(** The scale factors of a new dataset are its cross section and its
    k-factor and nothing else, in a dictionary of its own. *)
Theorem Dataset_init_scale_factors name title (fileNames : option loc) treeName we xs kf
    isData titleLatex s :
  name <> "" ->
  exists s',
    Dataset_init name title fileNames treeName we xs kf isData titleLatex s
    = Some (length (heap s), s') /\
    dict_get (length (heap s)) "scaleFactors" "crossSection" s' = Some (VNum xs) /\
    dict_get (length (heap s)) "scaleFactors" "kFactor" s' = Some (VNum kf) /\
    (forall k, k <> "crossSection" -> k <> "kFactor" ->
               dict_get (length (heap s)) "scaleFactors" k s' = None) /\
    getattr (length (heap s)) "_Dataset__crossSection" s' = Some (VNum xs) /\
    getattr (length (heap s)) "_Dataset__kFactor" s' = Some (VNum kf) /\
    (exists lsf, getattr (length (heap s)) "scaleFactors" s' = Some (VRef lsf)
                 /\ length (heap s) < lsf).
Proof.
  intros Hname.
  destruct (Dataset_init_facts name title fileNames treeName we xs kf isData titleLatex
              s)
    as (s' & lsf & lf & lc & Hrun & _ & _ & _ & _ & _ & _ & (Hlt & Hsf & Hobj) & Hx & Hk & _).
  exists s'. split; [done|]. unfold dict_get. rewrite Hsf. cbn [mbind option_bind].
  rewrite Hobj. split; [|split; [|split; [|split; [done|split; [done|]]]]].
  - rewrite lookup_insert_ne by done. by rewrite lookup_insert_eq.
  - by rewrite lookup_insert_eq.
  - intros k Hk1 Hk2. by rewrite !lookup_insert_ne.
  - by exists lsf.
Qed.

(** The file names of a new dataset are the caller's list itself when that
    list is not empty, and a list of the dataset's own when it is empty: a
    file name appended to the dataset's list afterwards shows in the
    caller's list in the first case only. *)
Theorem Dataset_init_file_list name title (l : loc) treeName we xs kf isData titleLatex s
    (fs : list (@Value num)) :
  name <> "" ->
  heap s !! l = Some (OList fs) ->
  exists s',
    Dataset_init name title (Some l) treeName we xs kf isData titleLatex s
    = Some (length (heap s), s') /\
    deref (length (heap s)) "fileNames" s' = Some (OList fs) /\
    (getattr (length (heap s)) "fileNames" s' = Some (VRef l) <-> fs <> []) /\
    (forall v s'',
        list_append (length (heap s)) "fileNames" v s' = Some s'' ->
        heap s'' !! l
        = Some (OList match fs with [] => [] | _ :: _ => (fs ++ [v])%list end)).
Proof.
  intros Hname Hl. pose proof (lookup_lt_Some _ _ _ Hl) as Hlt.
  destruct (Dataset_init_facts name title (Some l) treeName we xs kf isData titleLatex
              s)
    as (s' & lsf & lf & lc & Hrun & _ & Hold & _ & _ & _ & _ & _ & _ & _ & Hf & Hcase & _).
  specialize (Hcase Hlt).
  assert (Hl' : heap s' !! l = Some (OList fs)).
  { rewrite <- Hl. apply (Hold l Hlt). }
  exists s'. split; [done|]. unfold deref, list_append. rewrite Hf.
  cbn [mbind option_bind].
  assert (Hs : heap s !! l = Some (OList fs)) by exact Hl.
  destruct fs as [|f fs].
  - assert (Hfresh : length (heap s) < lf /\ heap s' !! lf = Some (OList [])).
    { revert Hcase. by rewrite Hs. }
    destruct Hfresh as [Hlf Hempty]. rewrite Hempty.
    split; [done|]. split.
    + split; [|done]. intros [= ->]. lia.
    + intros v s'' [= <-]. cbn. rewrite list_lookup_insert_ne by lia. exact Hl'.
  - assert (Heq : lf = l).
    { revert Hcase. by rewrite Hs. }
    subst lf. rewrite Hl'. split; [done|]. split; [done|].
    intros v s'' [= <-]. cbn. apply list_lookup_insert_eq. by eapply lookup_lt_Some.
Qed.

(** ** The sum of weights *)

Lemma setattr_heap_other o x v st st' :
  setattr o x v st = Some st' -> forall l, l <> o -> heap st' !! l = heap st !! l.
Proof.
  unfold setattr. destruct (heap st !! o) as [[| |cls attrs]|]; try done.
  intros [= <-] l Hne. cbn. by rewrite list_lookup_insert_ne.
Qed.

Lemma getattr_is_instance o a st v : getattr o a st = Some v -> is_instance o st.
Proof.
  unfold getattr. destruct (heap st !! o) as [[| |cls attrs]|] eqn:Ho; try done.
  intros _. by exists cls, attrs.
Qed.

(** One call of the calculator. *)
Lemma calculate_recomputes_step
    (binContent : @State num -> loc -> @Value num -> @Value num -> num)
    (tiny : num -> bool) self dataset s (hn bi : @Value num) :
  getattr self "calculated" s = Some (VBool false) ->
  getattr self "histogramName" s = Some hn ->
  getattr self "binIndex" s = Some bi ->
  exists s',
    calculate binContent tiny self dataset s
    = Some (VNum (if tiny (binContent s dataset hn bi) then nzero
                  else binContent s dataset hn bi), s') /\
    getattr self "calculated" s' = Some (VBool false) /\
    getattr self "histogramName" s' = Some hn /\
    getattr self "binIndex" s' = Some bi /\
    (forall l, l <> self -> heap s' !! l = heap s !! l) /\
    DATASETS s' = DATASETS s.
Proof.
  intros Hc Hhn Hbi. pose proof (getattr_is_instance _ _ _ _ Hc) as Hinst.
  unfold calculate. rewrite Hc. cbn [mbind option_bind]. rewrite Hhn, Hbi.
  cbn [mbind option_bind].
  set (x := binContent s dataset hn bi).
  destruct (setattr_assigns self "sumOfWeights" (VNum x) s Hinst)
    as (s1 & Hset1 & Hstep1 & Hget1).
  rewrite Hset1. cbn [mbind option_bind]. rewrite Hget1. cbn [mbind option_bind].
  pose proof (setattr_heap_other _ _ _ _ _ Hset1) as Hother1.
  apply (assigns_getattr _ _ _ _ "calculated" _ Hstep1 ltac:(discriminate)) in Hc.
  apply (assigns_getattr _ _ _ _ "histogramName" _ Hstep1 ltac:(discriminate)) in Hhn.
  apply (assigns_getattr _ _ _ _ "binIndex" _ Hstep1 ltac:(discriminate)) in Hbi.
  pose proof (proj1 (proj2 (proj2 Hstep1))) as HD1.
  destruct (tiny x).
  - destruct (setattr_assigns self "sumOfWeights" (VNum nzero) s1 (proj1 Hstep1))
      as (s2 & Hset2 & Hstep2 & Hget2).
    rewrite Hset2. cbn [mbind option_bind]. rewrite Hget2. cbn [mbind option_bind].
    pose proof (setattr_heap_other _ _ _ _ _ Hset2) as Hother2.
    apply (assigns_getattr _ _ _ _ "calculated" _ Hstep2 ltac:(discriminate)) in Hc.
    apply (assigns_getattr _ _ _ _ "histogramName" _ Hstep2 ltac:(discriminate)) in Hhn.
    apply (assigns_getattr _ _ _ _ "binIndex" _ Hstep2 ltac:(discriminate)) in Hbi.
    exists s2. split; [done|]. split; [done|]. split; [done|]. split; [done|]. split.
    + intros l Hne. rewrite Hother2 by done. by apply Hother1.
    + rewrite (proj1 (proj2 (proj2 Hstep2))). exact HD1.
  - cbn [mbind option_bind]. rewrite Hget1. cbn [mbind option_bind].
    exists s1. by repeat split.
Qed.

(** The calculator never marks itself as calculated, so every call reads
    the files again: it returns the bin content of that moment, zero when
    that is tiny, and is as ready to recompute afterwards as before; no
    object but the calculator changes. *)
Theorem calculate_recomputes_every_time
    (binContent : @State num -> loc -> @Value num -> @Value num -> num)
    (tiny : num -> bool) self dataset s (hn bi : @Value num) :
  getattr self "calculated" s = Some (VBool false) ->
  getattr self "histogramName" s = Some hn ->
  getattr self "binIndex" s = Some bi ->
  exists s',
    calculate binContent tiny self dataset s
    = Some (VNum (if tiny (binContent s dataset hn bi) then nzero
                  else binContent s dataset hn bi), s') /\
    getattr self "calculated" s' = Some (VBool false) /\
    getattr self "histogramName" s' = Some hn /\
    getattr self "binIndex" s' = Some bi /\
    (forall l, l <> self -> heap s' !! l = heap s !! l) /\
    DATASETS s' = DATASETS s.
Proof. apply calculate_recomputes_step. Qed.

(** The sum of weights of a new dataset is bin 8 of [h_metadata] as the
    files have it when it is asked for, and the files are read anew at
    every call. *)
Theorem new_dataset_sums_weights_from_the_files
    (binContent : @State num -> loc -> @Value num -> @Value num -> num)
    (tiny : num -> bool) name title (fileNames : option loc) treeName we xs kf isData
    titleLatex s :
  name <> "" ->
  truthy nzero = false ->
  exists s' s1 s2,
    Dataset_init name title fileNames treeName we xs kf isData titleLatex s
    = Some (length (heap s), s') /\
    Dataset_sumOfWeights binContent tiny (length (heap s)) s'
    = Some (VNum (if tiny (binContent s' (length (heap s)) (VStr "h_metadata") (VStr "8"))
                  then nzero
                  else binContent s' (length (heap s)) (VStr "h_metadata") (VStr "8")),
            s1) /\
    Dataset_sumOfWeights binContent tiny (length (heap s)) s1
    = Some (VNum (if tiny (binContent s1 (length (heap s)) (VStr "h_metadata") (VStr "8"))
                  then nzero
                  else binContent s1 (length (heap s)) (VStr "h_metadata") (VStr "8")),
            s2).
Proof.
  intros Hname Hzero.
  destruct (Dataset_init_facts name title fileNames treeName we xs kf isData titleLatex
              s)
    as (s' & lsf & lf & lc & Hrun & _ & _ & _ & _ & Hn & _ & _ & _ & _ & _ & _
        & Hsum & Hcalc & Hobj).
  set (self := length (heap s)) in *.
  assert (Hne : lc <> self).
  { intros ->. unfold getattr in Hn. rewrite Hobj in Hn. by vm_compute in Hn. }
  assert (Hattrs : forall a st, heap st !! lc = heap s' !! lc ->
             getattr lc a st
             = (<["sumOfWeights" := VNum nzero]> (<["calculated" := VBool false]>
                (<["histogramName" := VStr "h_metadata"]>
                 (<["binIndex" := VStr "8"]> (∅ : gmap string (@Value num)))))) !! a).
  { intros a st Heq. unfold getattr. by rewrite Heq, Hobj. }
  destruct (calculate_recomputes_step binContent tiny lc self s'
              (VStr "h_metadata") (VStr "8"))
    as (s1 & Hrun1 & Hc1 & Hhn1 & Hbi1 & Hother1 & _);
    [by rewrite Hattrs by done..|].
  destruct (calculate_recomputes_step binContent tiny lc self s1
              (VStr "h_metadata") (VStr "8") Hc1 Hhn1 Hbi1)
    as (s2 & Hrun2 & _).
  exists s', s1, s2. split; [done|].
  assert (Hself1 : forall a, getattr self a s1 = getattr self a s').
  { intros a. apply getattr_heap. apply Hother1. by intros ->. }
  split.
  - unfold Dataset_sumOfWeights. rewrite Hsum. cbn [mbind option_bind].
    rewrite Hzero, Hcalc. cbn [mbind option_bind]. exact Hrun1.
  - unfold Dataset_sumOfWeights. rewrite !Hself1, Hsum. cbn [mbind option_bind].
    rewrite Hzero, Hcalc. cbn [mbind option_bind]. exact Hrun2.
Qed.

End Facts.
End PyInit.

(** * Properties of the text lines *)

Module TextFacts.
Import Text.

(** ** Strings *)

Lemma append_cons x (a b : string) : String x a ++ b = String x (a ++ b).
Proof. reflexivity. Qed.

Lemma append_nil_l (b : string) : "" ++ b = b.
Proof. reflexivity. Qed.

Lemma append_assoc (a b c : string) : (a ++ b) ++ c = a ++ (b ++ c).
Proof.
  induction a as [|x a IH]; [done|]. rewrite !append_cons. f_equal. exact IH.
Qed.

Lemma append_nil_r (a : string) : a ++ "" = a.
Proof. induction a as [|x a IH]; [done|]. rewrite append_cons. f_equal. exact IH. Qed.

Lemma occurs_app c (a b : string) : occurs c (a ++ b) = occurs c a || occurs c b.
Proof.
  induction a as [|x a IH]; [done|]. rewrite append_cons. cbn.
  by rewrite IH, orb_assoc.
Qed.

Lemma split_not_nil c s : split c s <> [].
Proof.
  induction s as [|x s IH]; cbn; [done|].
  case_decide; [done|]. by destruct (split c s).
Qed.

Lemma split_no c a : occurs c a = false -> split c a = [a].
Proof.
  induction a as [|x a IH]; cbn; [done|]. intros [Hx Ha]%orb_false_elim.
  apply bool_decide_eq_false in Hx. rewrite decide_False by done. by rewrite IH.
Qed.

Lemma split_app c a b :
  occurs c a = false -> split c (a ++ String c b) = a :: split c b.
Proof.
  induction a as [|x a IH].
  - intros _. rewrite append_nil_l. cbn. by rewrite decide_True.
  - rewrite append_cons. cbn. intros [Hx Ha]%orb_false_elim.
    apply bool_decide_eq_false in Hx. rewrite decide_False by done. by rewrite IH.
Qed.

Lemma length_lstrip p s : String.length (lstrip p s) <= String.length s.
Proof. induction s as [|x s IH]; cbn; [done|]. destruct (p x); cbn; lia. Qed.

Lemma lstrip_app p a b : lstrip p a = a -> a <> "" -> lstrip p (a ++ b) = a ++ b.
Proof.
  destruct a as [|x a]; [done|]. rewrite append_cons. cbn. destruct (p x); [|done].
  intros Heq _. pose proof (length_lstrip p a) as Hlen. rewrite Heq in Hlen.
  cbn in Hlen. lia.
Qed.

Lemma rstrip_app_keep p a b : rstrip p b <> "" -> rstrip p (a ++ b) = a ++ rstrip p b.
Proof.
  intros Hb. induction a as [|x a IH]; [done|]. rewrite !append_cons. cbn. rewrite IH.
  destruct (a ++ rstrip p b) eqn:Heq; [|done].
  destruct a; [|done]. by rewrite append_nil_l in Heq.
Qed.

Lemma rstrip_app_drop p a b : rstrip p b = "" -> rstrip p (a ++ b) = rstrip p a.
Proof.
  intros Hb. induction a as [|x a IH]; [done|]. rewrite append_cons. cbn.
  by rewrite IH.
Qed.

(** A string that [rstrip] leaves as it is stays so under the characters
    [q], when it has none of those that [p] would not strip. *)
Lemma rstrip_other (p q : ascii -> bool) s :
  (forall a, q a = true -> p a = false -> occurs a s = false) ->
  rstrip p s = s -> rstrip q s = s.
Proof.
  induction s as [|x s IH]; [done|]. intros Hq. cbn.
  assert (Hq' : forall a, q a = true -> p a = false -> occurs a s = false).
  { intros a Ha1 Ha2. specialize (Hq a Ha1 Ha2). cbn in Hq.
    by apply orb_false_elim in Hq as [_ ?]. }
  destruct (rstrip p s) as [|y r] eqn:Hr.
  - destruct (p x) eqn:Hpx; [done|]. intros [= <-]. cbn.
    destruct (q x) eqn:Hqx; [|done]. specialize (Hq x Hqx Hpx). cbn in Hq.
    by rewrite bool_decide_eq_true_2 in Hq.
  - intros [= Hs]. rewrite IH by (done || by rewrite Hr). by rewrite <- Hs.
Qed.

Lemma strip_space s : strip (String " " s) = strip s.
Proof. done. Qed.

Lemma strip_plain s : plain s -> strip s = s.
Proof. intros (_ & Hl & Hr). unfold strip. by rewrite Hl. Qed.

Lemma map_strip_split_space c s :
  c <> " "%char -> map strip (split c (String " " s)) = map strip (split c s).
Proof.
  intros Hc. cbn. rewrite decide_False by done.
  pose proof (split_not_nil c s). by destruct (split c s).
Qed.

Lemma rstrip_cons_keep p x s : p x = false -> rstrip p (String x s) = String x (rstrip p s).
Proof. intros Hx. cbn. rewrite Hx. by destruct (rstrip p s). Qed.

Lemma rstrip_past p x a b :
  p x = false -> rstrip p (a ++ String x b) = a ++ String x (rstrip p b).
Proof.
  intros Hx. rewrite rstrip_app_keep; rewrite rstrip_cons_keep by done; done.
Qed.

Lemma rstrip_past_cons p x y a b :
  p x = false ->
  rstrip p (String y (a ++ String x b)) = String y (a ++ String x (rstrip p b)).
Proof. intros Hx. rewrite <- !append_cons. by apply rstrip_past. Qed.

Lemma split_app_cons c y a b :
  y <> c -> occurs c a = false ->
  split c (String y (a ++ String c b)) = String y a :: split c b.
Proof.
  intros Hy Ha. rewrite <- append_cons. apply split_app. cbn.
  by rewrite bool_decide_eq_false_2.
Qed.

Lemma split_no_cons c y a :
  y <> c -> occurs c a = false -> split c (String y a) = [String y a].
Proof. intros Hy Ha. apply split_no. cbn. by rewrite bool_decide_eq_false_2. Qed.

(** ** The list of file names *)

Lemma fold_files (fs : list string) (s0 : string) :
  fold_left (fun s fileName => s ++ (fileName ++ ", ")) fs s0
  = s0 ++ fold_right (fun fileName r => fileName ++ ", " ++ r) "" fs.
Proof.
  revert s0. induction fs as [|f fs IH]; intros s0; cbn [fold_left fold_right].
  - by rewrite append_nil_r.
  - by rewrite IH, !append_assoc.
Qed.

Lemma rstrip_file_name f : file_name f -> rstrip comma_or_space f = f.
Proof.
  intros (_ & (_ & _ & Hr) & Hc). apply (rstrip_other whitespace); [|done].
  intros a Hq Hp. unfold comma_or_space in Hq. apply orb_true_iff in Hq as [Ha|Ha];
    apply bool_decide_eq_true in Ha; subst a; [done|by vm_compute in Hp].
Qed.

(** What [rstrip(', ')] leaves of the file names that were appended: the
    names with [, ] between them, which split and strip into the names. *)
Lemma files_tail (fs : list string) :
  fs <> [] -> Forall file_name fs ->
  exists J,
    (forall P, rstrip comma_or_space
                 (P ++ fold_right (fun fileName r => fileName ++ ", " ++ r) "" fs)
               = P ++ J) /\
    occurs ";" J = false /\ J <> "" /\
    lstrip whitespace J = J /\ rstrip whitespace J = J /\
    map strip (split "," J) = fs.
Proof.
  induction fs as [|f fs IH]; [done|]. intros _ Hall.
  apply Forall_cons in Hall as [Hf Hall].
  pose proof Hf as (Hne & (Hsemi & Hl & Hr) & Hcomma).
  destruct fs as [|g fs].
  - exists f. cbn [fold_right]. split; [|split; [done|split; [done|split; [done|split; [done|]]]]].
    + intros P. rewrite rstrip_app_keep.
      * rewrite rstrip_app_drop by done. by rewrite rstrip_file_name.
      * rewrite rstrip_app_drop by done. by rewrite rstrip_file_name.
    + rewrite split_no by done. cbn. by rewrite strip_plain.
  - destruct (IH ltac:(done) Hall) as (J & HJ & HsemiJ & HneJ & HlJ & HrJ & Hsplit).
    exists (f ++ ", " ++ J). split; [|split; [|split; [|split; [|split]]]].
    + intros P. cbn [fold_right] in *.
      rewrite <- (append_assoc f), <- (append_assoc P). rewrite HJ.
      by rewrite !append_assoc.
    + rewrite !occurs_app, Hsemi, HsemiJ. done.
    + destruct f; [done|]. by rewrite append_cons.
    + by apply lstrip_app.
    + rewrite <- append_assoc. rewrite rstrip_app_keep by (by rewrite HrJ).
      by rewrite HrJ.
    + rewrite !append_cons, append_nil_l. rewrite split_app by done. cbn [map].
      rewrite map_strip_split_space by done. rewrite Hsplit. by rewrite strip_plain.
Qed.

Section Facts.
Context {num : Type} `{Arith num}.
Variables (py_int : string -> option Z) (py_float : string -> option num)
          (fmt_d : Z -> string) (fmt_g : num -> string).

(** The line [toString] writes, field by field. *)
Lemma toString_fields (self : @Fields num) :
  Forall file_name (f_fileNames self) ->
  exists T,
    toString fmt_d fmt_g self
    = f_name self ++ String ";" (String " " (f_title self ++ String ";"
        (String " " (f_treeName self ++ String ";"
        (String " " (fmt_d (f_lineColor self) ++ String ";"
        (String " " (fmt_g (f_crossSection self) ++ String ";"
        (String " " (fmt_g (f_kFactor self) ++ String ";" T)))))))))) /\
    occurs ";" T = false /\
    map strip (split "," (strip T))
    = match f_fileNames self with [] => [""] | _ :: _ => f_fileNames self end.
Proof.
  intros Hfiles. unfold toString. rewrite fold_files.
  set (R := fold_right (fun fileName r => fileName ++ ", " ++ r) "" (f_fileNames self)).
  exists (rstrip comma_or_space (String " " R)).
  split; [|].
  - rewrite !append_assoc, !append_cons, !append_nil_l.
    rewrite rstrip_past by done. by rewrite !rstrip_past_cons by done.
  - subst R. destruct (f_fileNames self) as [|f fs] eqn:Hfs; [done|].
    destruct (files_tail (f :: fs) ltac:(done) Hfiles)
      as (J & HJ & Hsemi & Hne & Hl & Hr & Hsplit).
    specialize (HJ " "). rewrite append_cons, append_nil_l in HJ. rewrite HJ.
    rewrite append_cons, append_nil_l. split; [done|].
    rewrite strip_space. unfold strip. by rewrite Hl, Hr.
Qed.

(** A line that [toString] wrote is read back by [fromString] field by
    field: the names and the title as they were, an empty title replaced by
    the name, the numbers as [int] and [float] read what [%d] and [%g]
    printed, the file names as they were, and one empty file name where
    there was none. *)
Theorem fromString_reads_what_toString_wrote (self : @Fields num) c x k :
  plain (f_name self) -> plain (f_title self) -> plain (f_treeName self) ->
  occurs ";" (fmt_d (f_lineColor self)) = false ->
  occurs ";" (fmt_g (f_crossSection self)) = false ->
  occurs ";" (fmt_g (f_kFactor self)) = false ->
  Forall file_name (f_fileNames self) ->
  py_int (strip (fmt_d (f_lineColor self))) = Some c ->
  py_float (strip (fmt_g (f_crossSection self))) = Some x ->
  py_float (strip (fmt_g (f_kFactor self))) = Some k ->
  fromString py_int py_float (toString fmt_d fmt_g self)
  = Built (mkFields (f_name self)
             (if decide (f_title self = "") then f_name self else f_title self)
             (Py.replace_hash (f_title self))
             (match f_fileNames self with [] => [""] | _ :: _ => f_fileNames self end)
             (f_treeName self) c x k).
Proof.
  intros Hname Htitle Htree Hd Hx Hk Hfiles Hc Hxs Hkf.
  destruct (toString_fields self Hfiles) as (T & -> & HT & Hsplit).
  unfold fromString.
  rewrite split_app by apply Hname.
  rewrite split_app_cons by (done || apply Htitle).
  rewrite split_app_cons by (done || apply Htree).
  rewrite !split_app_cons by done.
  rewrite split_no by done.
  cbn [map]. rewrite !strip_space.
  rewrite (strip_plain _ Hname), (strip_plain _ Htitle), (strip_plain _ Htree).
  unfold field. cbn [lookup list_lookup default from_option id].
  rewrite Hc, Hxs, Hkf. rewrite Hsplit.
  unfold init_fields, init_titles.
  by destruct (f_fileNames self).
Qed.

(** A line without [;] gives no dataset: the title is missing, and the
    constructor raises AttributeError on it. *)
Theorem fromString_needs_a_title (s : string) :
  occurs ";" s = false ->
  fromString py_int py_float s = Failed AttributeError.
Proof. intros Hs. unfold fromString. by rewrite split_no. Qed.

Lemma lookupDatasets_spec (DATASETS : gmap string Py.loc) (names : list string) :
  forall datasets errors,
    lookupDatasets DATASETS names datasets errors
    = ((datasets ++ omap (fun n => DATASETS !! n)
                      (filter (fun n => n <> "") (map strip names)))%list,
       (errors ++ filter (fun n => DATASETS !! n = None)
                    (filter (fun n => n <> "") (map strip names)))%list).
Proof.
  induction names as [|n names IH]; intros datasets errors; cbn [lookupDatasets map].
  - cbn. by rewrite !app_nil_r.
  - case_decide as Hn.
    + rewrite IH. rewrite filter_cons_False by (by intros ?). done.
    + rewrite filter_cons_True by done. destruct (DATASETS !! strip n) eqn:Hd.
      * rewrite IH. cbn [omap list_omap]. rewrite Hd.
        rewrite filter_cons_False by (by rewrite Hd). by rewrite <- app_assoc.
      * rewrite IH. cbn [omap list_omap]. rewrite Hd.
        rewrite filter_cons_True by done. by rewrite <- app_assoc.
Qed.

(** A process that [PhysicsProcess.fromString] returns has no datasets:
    the registered datasets of the listed names are bound to [isData], the
    fifth parameter of the constructor, and [datasets] is left empty. *)
Theorem PhysicsProcess_fromString_attaches_no_dataset (DATASETS : gmap string Py.loc)
    (s : string) errors (p : @Process num) :
  PhysicsProcess_fromString py_int py_float DATASETS s = (errors, Built p) ->
  p_datasets p = [] /\
  p_isData p
  = IsList (omap (fun n => DATASETS !! n)
              (filter (fun n => n <> "")
                 (map strip (split "," (default "" (map strip (split ";" s) !! 4)))))).
Proof.
  unfold PhysicsProcess_fromString.
  destruct (field py_int _ 2 0%Z) as [lineColor|]; [|done].
  destruct (field py_float _ 3 nunit) as [kFactor|]; [|done].
  rewrite lookupDatasets_spec. cbn [app]. unfold PhysicsProcess_init.
  destruct (init_titles _ _) as [[title titleLatex]|]; [|done].
  by intros [= _ <-].
Qed.

(** ** The text file *)

Lemma lines_app (a b : string) :
  occurs "010" a = false -> lines (a ++ String "010" b) = (a ++ String "010" "") :: lines b.
Proof.
  induction a as [|x a IH].
  - intros _. rewrite !append_nil_l. cbn. by rewrite decide_True.
  - rewrite !append_cons. cbn. intros [Hx Ha]%orb_false_elim.
    apply bool_decide_eq_false in Hx. rewrite decide_False by done. by rewrite IH.
Qed.

Lemma fold_written (ds : list (@Fields num)) (s0 : string) :
  fold_left (fun f dataset => f ++ (toString fmt_d fmt_g dataset ++ String "010" ""))
    ds s0
  = s0 ++ fold_right (fun dataset r => toString fmt_d fmt_g dataset ++ String "010" r)
            "" ds.
Proof.
  revert s0. induction ds as [|d ds IH]; intros s0; cbn [fold_left fold_right].
  - by rewrite append_nil_r.
  - rewrite IH, !append_assoc. by rewrite append_cons, append_nil_l.
Qed.

Lemma lines_written (ds : list (@Fields num)) :
  Forall (fun d => occurs "010" (toString fmt_d fmt_g d) = false) ds ->
  lines (writeDatasetsToTextFile fmt_d fmt_g ds)
  = ("# Datasets" ++ String "010" "")
    :: ("# name; title; treeName; color; crossSection; kFactor; fileName1, fileName2, ..."
        ++ String "010" "")
    :: map (fun d => toString fmt_d fmt_g d ++ String "010" "") ds.
Proof.
  intros Hall. unfold writeDatasetsToTextFile. rewrite fold_written.
  rewrite !append_assoc. rewrite (append_cons "010"), append_nil_l.
  rewrite lines_app by done. f_equal.
  rewrite (append_cons "010"), append_nil_l. rewrite lines_app by done. f_equal.
  induction Hall as [|d ds Hd _ IH]; [done|]. cbn [fold_right map].
  rewrite lines_app by done. by rewrite IH.
Qed.

Lemma lstrip_app_space p (s w : string) :
  lstrip p w = "" ->
  lstrip p (s ++ w) = match lstrip p s with "" => "" | r => r ++ w end.
Proof.
  intros Hw. induction s as [|x s IH]; [by rewrite append_nil_l, Hw|].
  rewrite append_cons. cbn. destruct (p x); [done|]. by rewrite append_cons.
Qed.

Lemma strip_line_feed (s : string) : strip (s ++ String "010" "") = strip s.
Proof.
  unfold strip. rewrite lstrip_app_space by done.
  destruct (lstrip whitespace s) as [|x r] eqn:Hs; [done|].
  by rewrite rstrip_app_drop.
Qed.

Lemma readLines_line_feed (ds : list (@Fields num)) acc :
  readLines py_int py_float (map (fun d => toString fmt_d fmt_g d ++ String "010" "") ds)
    acc
  = readLines py_int py_float (map (toString fmt_d fmt_g) ds) acc.
Proof.
  revert acc. induction ds as [|d ds IH]; intros acc; [done|].
  cbn [map readLines]. rewrite strip_line_feed.
  destruct (strip (toString fmt_d fmt_g d)) as [|a line]; [apply IH|].
  case_bool_decide; [apply IH|].
  destruct (fromString py_int py_float (String a line)); [apply IH|done].
Qed.

Lemma readLines_app (ls1 ls2 : list string) acc :
  readLines py_int py_float (ls1 ++ ls2) acc
  = match readLines py_int py_float ls1 acc with
    | Built acc' => readLines py_int py_float ls2 acc'
    | Failed e => Failed e
    end.
Proof.
  revert acc. induction ls1 as [|l ls1 IH]; intros acc; [done|].
  cbn [app readLines]. destruct (strip l) as [|a line]; [apply IH|].
  case_bool_decide; [apply IH|].
  destruct (fromString py_int py_float (String a line)); [apply IH|done].
Qed.

(** Reading the file that [writeDatasetsToTextFile] wrote is reading the
    lines of the datasets one after the other: the two header lines are
    skipped, and each dataset's line arrives as [toString] made it. *)
Theorem written_file_is_read_line_by_line (ds : list (@Fields num)) :
  Forall (fun d => occurs "010" (toString fmt_d fmt_g d) = false) ds ->
  readDatasetsFromTextFile py_int py_float (writeDatasetsToTextFile fmt_d fmt_g ds)
  = readLines py_int py_float (map (toString fmt_d fmt_g) ds) [].
Proof.
  intros Hall. unfold readDatasetsFromTextFile. rewrite (lines_written ds Hall).
  change (readLines py_int py_float
            (map (fun d => toString fmt_d fmt_g d ++ String "010" "") ds) []
          = readLines py_int py_float (map (toString fmt_d fmt_g) ds) []).
  apply readLines_line_feed.
Qed.

(** A dataset whose name begins with [#] or [/] is written and never read
    back: its line counts as a comment. *)
Theorem comment_like_name_is_not_read_back (ds1 ds2 : list (@Fields num))
    (d : @Fields num) (a : ascii) (rest : string) :
  f_name d = String a rest ->
  a = "#"%char \/ a = "/"%char ->
  Forall (fun d => occurs "010" (toString fmt_d fmt_g d) = false) (ds1 ++ d :: ds2) ->
  readDatasetsFromTextFile py_int py_float
    (writeDatasetsToTextFile fmt_d fmt_g (ds1 ++ d :: ds2))
  = readDatasetsFromTextFile py_int py_float
      (writeDatasetsToTextFile fmt_d fmt_g (ds1 ++ ds2)).
Proof.
  intros Hname Ha Hall.
  assert (Hall' : Forall (fun d => occurs "010" (toString fmt_d fmt_g d) = false)
                    (ds1 ++ ds2)).
  { apply Forall_app in Hall as [H1 H2]. apply Forall_cons in H2 as [_ H2].
    by apply Forall_app. }
  unfold readDatasetsFromTextFile.
  rewrite (lines_written _ Hall), (lines_written _ Hall').
  rewrite !map_app. cbn [map]. rewrite !app_comm_cons, !readLines_app.
  destruct (readLines py_int py_float _ []) as [acc|]; [|done].
  cbn [readLines]. rewrite strip_line_feed.
  assert (Hline : exists line, strip (toString fmt_d fmt_g d) = String a line).
  { unfold toString. rewrite fold_files, Hname. rewrite !append_cons.
    assert (Hw : whitespace a = false) by (by destruct Ha as [-> | ->]).
    assert (Hc : comma_or_space a = false) by (by destruct Ha as [-> | ->]).
    rewrite (rstrip_cons_keep _ _ _ Hc). unfold strip. cbn [lstrip]. rewrite Hw.
    rewrite (rstrip_cons_keep _ _ _ Hw). by eexists. }
  destruct Hline as [line ->].
  rewrite bool_decide_eq_true_2; [done|].
  destruct Ha as [-> | ->]; set_solver.
Qed.

End Facts.
End TextFacts.

(** * The further properties on the simulated samples *)

Lemma getHistogram_store_frame_witness :
  stores (snd (getHistogram Demo.engine Demo.background1 Demo.massVar (Demo.args 2500)
                 Demo.world0))
    !! ("other.root", queryKey Demo.background1 Demo.massVar (Demo.args 2500))
  = stores Demo.world0
      !! ("other.root", queryKey Demo.background1 Demo.massVar (Demo.args 2500)).
Proof.
  apply (getHistogram_store_frame Demo.engine Demo.background1 Demo.massVar
           (Demo.args 2500) Demo.world0).
  intros s Hs Heq. injection Hs as <-. discriminate Heq.
Defined.

Lemma getHistogram_store_ignores_weight_witness :
  getHistogram Demo.engine Demo.background1 Demo.massVar (Demo.reweighted 2500)
    (snd (getHistogram Demo.engine Demo.background1 Demo.massVar (Demo.args 2500)
            Demo.world0))
  = (Some (mkHist "Reweighted" [0%Q; 31250%Q; 0%Q] [0%Q; 244140625%Q; 0%Q] 4%Q None),
     snd (getHistogram Demo.engine Demo.background1 Demo.massVar (Demo.args 2500)
            Demo.world0)).
Proof.
  exact (getHistogram_store_ignores_weight Demo.engine Demo.background1 Demo.massVar
           (Demo.args 2500) (Demo.reweighted 2500) Demo.world0 "hist.root"
           (mkHist "Background 1" [0%Q; 5%Q; 0%Q] [0%Q; (25 # 4)%Q; 0%Q] 4%Q None)
           eq_refl eq_refl eq_refl eq_refl (or_introl eq_refl) eq_refl eq_refl eq_refl).
Defined.

Lemma Sample_getHistogram_demotes_witness :
  Sample_getHistogram Demo.engine Demo.stack Demo.massVar
    (set_variation (Some Demo.jesUp) (Demo.args 2500)) Demo.world0
  = Sample_getHistogram Demo.engine Demo.stack Demo.massVar
      (set_variation None (Demo.args 2500)) Demo.world0 /\
  getYield Demo.engine Demo.stack
    (mkYieldArgs Cut_empty [] 2500%Q false (Some Demo.jesUp) false false None false)
    Demo.world0
  = getYield Demo.engine Demo.stack
      (mkYieldArgs Cut_empty [] 2500%Q false None false false None false) Demo.world0.
Proof.
  apply (Sample_getHistogram_demotes Demo.engine Demo.stack Demo.massVar (Demo.args 2500)
           (Demo.yargs 2500 false) Demo.world0 Demo.jesUp "JES" eq_refl).
  - apply (bool_decide_unpack _). vm_compute. reflexivity.
  - apply not_elem_of_empty.
  - apply not_elem_of_empty.
Defined.

Lemma Sample_getHistogram2D_demotes_witness :
  Sample_getHistogram2D Demo.engine Demo.stack Demo.massVar Demo.massVar
    (set_variation (Some Demo.lumiUp) (Demo.args 2500)) false Demo.world0
  = Sample_getHistogram2D Demo.engine Demo.stack Demo.massVar Demo.massVar
      (set_variation None (Demo.args 2500)) false Demo.world0.
Proof.
  apply (Sample_getHistogram2D_demotes Demo.engine Demo.stack Demo.massVar Demo.massVar
           (Demo.args 2500) false Demo.world0 Demo.lumiUp "LUMI" eq_refl).
  apply (bool_decide_unpack _). vm_compute. reflexivity.
Defined.

Lemma process_without_datasets_witness :
  fst (Sample_getHistogram Demo.engine (Process Demo.group Demo.hollow) Demo.massVar
         (Demo.args 2500) Demo.world0) = None /\
  scans (snd (Sample_getHistogram Demo.engine (Process Demo.group Demo.hollow)
                Demo.massVar (Demo.args 2500) Demo.world0)) = scans Demo.world0 /\
  fst (getYield Demo.engine (Process Demo.group Demo.hollow) (Demo.yargs 2500 false)
         Demo.world0) = Raised AttributeError.
Proof.
  exact (process_without_datasets Demo.engine Demo.group Demo.hollow Demo.massVar
           (Demo.args 2500) (Demo.yargs 2500 false) Demo.world0 eq_refl).
Defined.

Lemma register_rebinds_name_witness :
  exists s',
    Py._register (fst Demo.built) "b" (snd Demo.copied) = Some s' /\
    Py.DATASETS s' !! "a" = Some (fst Demo.built) /\
    Py.DATASETS s' !! "b" = Some (fst Demo.copied).
Proof.
  destruct (PyMore.register_rebinds_name (fst Demo.built) "b" (snd Demo.copied) "a")
    as (s' & Hr & _ & Hbound & Hother & Hold & _).
  - vm_compute. reflexivity.
  - exists s'. split; [exact Hr|]. split; [exact Hbound|].
    rewrite Hold by discriminate. vm_compute. reflexivity.
Defined.

Lemma rename_moves_registration_witness :
  exists s',
    Py.set_name (fst Demo.built) "z" (snd Demo.built) = Some s' /\
    Py.getattr (fst Demo.built) "_name" s' = Some (Py.VStr "z") /\
    Py.DATASETS s' !! "z" = Some (fst Demo.built) /\
    Py.DATASETS s' !! "a" = None /\
    (forall k, k <> "z" -> k <> "a" ->
               Py.DATASETS s' !! k = Py.DATASETS (snd Demo.built) !! k).
Proof.
  apply (PyMore.rename_moves_registration (fst Demo.built) "a" "z" (snd Demo.built)).
  - vm_compute. reflexivity.
  - vm_compute. reflexivity.
  - discriminate.
  - discriminate.
Defined.

Lemma copy_owns_duplicated_containers_witness :
  Py.deref (fst Demo.copied) "fileNames" (snd Demo.copied)
  = Py.deref (fst Demo.built) "fileNames" (snd Demo.copied) /\
  (forall k v s2,
      Py.dict_setitem (fst Demo.copied) "fileNames" k v (snd Demo.copied) = Some s2 ->
      Py.deref (fst Demo.built) "fileNames" s2
      = Py.deref (fst Demo.built) "fileNames" (snd Demo.copied)
      /\ Py.dict_get (fst Demo.copied) "fileNames" k s2 = Some v) /\
  (forall v s2,
      Py.list_append (fst Demo.copied) "fileNames" v (snd Demo.copied) = Some s2 ->
      Py.deref (fst Demo.built) "fileNames" s2
      = Py.deref (fst Demo.built) "fileNames" (snd Demo.copied)).
Proof.
  apply (PyMore.copy_owns_duplicated_containers (fst Demo.built) "b" "B" (snd Demo.built)
           (fst Demo.copied) (snd Demo.copied) "fileNames").
  - vm_compute. reflexivity.
  - apply (bool_decide_unpack _). vm_compute. reflexivity.
  - eexists. vm_compute. reflexivity.
Defined.

Lemma copy_registers_beside_the_original_witness :
  fst Demo.copied <> fst Demo.built /\
  Py.getattr (fst Demo.copied) "_name" (snd Demo.copied) = Some (Py.VStr "b") /\
  Py.getattr (fst Demo.copied) "title" (snd Demo.copied) = Some (Py.VStr "B") /\
  Py.getattr (fst Demo.built) "_name" (snd Demo.copied) = Some (Py.VStr "a") /\
  Py.DATASETS (snd Demo.copied) !! "b" = Some (fst Demo.copied) /\
  Py.DATASETS (snd Demo.copied) !! "a" = Some (fst Demo.built) /\
  (forall k, k <> "b" ->
             Py.DATASETS (snd Demo.copied) !! k = Py.DATASETS (snd Demo.built) !! k).
Proof.
  apply (PyMore.copy_registers_beside_the_original (fst Demo.built) "a" "b" "B"
           (snd Demo.built) (fst Demo.copied) (snd Demo.copied)).
  - vm_compute. reflexivity.
  - vm_compute. reflexivity.
  - vm_compute. reflexivity.
  - discriminate.
Defined.

Lemma factor_set_on_copy_spares_original_witness :
  Py.dict_get (fst Demo.copied) "scaleFactors" "crossSection" Demo.rescaled
  = Some (Py.VNum 7%Q) /\
  Py.getattr (fst Demo.copied) "_Dataset__crossSection" Demo.rescaled
  = Some (Py.VNum 7%Q) /\
  Py.deref (fst Demo.built) "scaleFactors" Demo.rescaled
  = Py.deref (fst Demo.built) "scaleFactors" (snd Demo.copied) /\
  (forall a, Py.getattr (fst Demo.built) a Demo.rescaled
             = Py.getattr (fst Demo.built) a (snd Demo.copied)).
Proof.
  apply (PyMore.factor_set_on_copy_spares_original (fst Demo.built) "b" "B"
           (snd Demo.built) (fst Demo.copied) (snd Demo.copied) "crossSection"
           "_Dataset__crossSection" 7%Q Demo.rescaled).
  - vm_compute. reflexivity.
  - eexists. vm_compute. reflexivity.
  - discriminate.
  - vm_compute. reflexivity.
Defined.

(** A second dataset of the name [a], built where the first one is. *)
Lemma Dataset_init_registers_the_dataset_witness :
  exists s',
    Py.Dataset_init "a" "" None "NOMINAL" "weight" 5%Q 1%Q false "" (snd Demo.built)
    = Some (length (Py.heap (snd Demo.built)), s') /\
    Py.DATASETS s' !! "a" = Some (length (Py.heap (snd Demo.built))) /\
    Py.warnings s' = ["name(): registering a Dataset with an already existing name"] /\
    Py.getattr (length (Py.heap (snd Demo.built))) "title" s' = Some (Py.VStr "a") /\
    Py.getattr (fst Demo.built) "title" s' = Some (Py.VStr "A").
Proof.
  destruct (PyInit.Dataset_init_registers_the_dataset "a" "" None "NOMINAL" "weight"
              5%Q 1%Q false "" (snd Demo.built))
    as (s' & Hrun & Hold & Hbound & _ & Hwarn & _ & Htitle).
  exists s'. split; [exact Hrun|]. split; [exact Hbound|].
  split; [rewrite Hwarn; vm_compute; reflexivity|]. split; [exact Htitle|].
  unfold Py.getattr. rewrite (Hold (fst Demo.built)) by (vm_compute; lia).
  vm_compute. reflexivity.
Defined.

(** A dataset of the empty name is registered like any other. *)
Example Dataset_init_registers_the_empty_name :
  exists s',
    Py.Dataset_init "" "" None "NOMINAL" "weight" 5%Q 1%Q false "" Py.empty_state
    = Some (0, s') /\
    Py.DATASETS s' !! "" = Some 0 /\ Py.warnings s' = [].
Proof.
  destruct (Py.Dataset_init "" "" None "NOMINAL" "weight" 5%Q 1%Q false ""
              Py.empty_state) as [[l s']|] eqn:Hrun; [|by vm_compute in Hrun].
  exists s'. vm_compute in Hrun. injection Hrun as <- <-. by vm_compute.
Qed.

Lemma Dataset_init_scale_factors_witness :
  exists s',
    Py.Dataset_init "a" "A" None "NOMINAL" "weight" 5%Q 2%Q false "" Py.empty_state
    = Some (0, s') /\
    Py.dict_get 0 "scaleFactors" "crossSection" s' = Some (Py.VNum 5%Q) /\
    Py.dict_get 0 "scaleFactors" "kFactor" s' = Some (Py.VNum 2%Q) /\
    Py.dict_get 0 "scaleFactors" "luminosity" s' = None.
Proof.
  destruct (PyInit.Dataset_init_scale_factors "a" "A" None "NOMINAL" "weight"
              5%Q 2%Q false "" Py.empty_state)
    as (s' & Hrun & Hxs & Hkf & Hrest & _).
  - discriminate.
  - exists s'. split; [exact Hrun|]. split; [exact Hxs|]. split; [exact Hkf|].
    apply Hrest; discriminate.
Defined.

Lemma Dataset_init_file_list_witness :
  (exists s',
      Py.Dataset_init "a" "A" (Some 0) "NOMINAL" "weight" 5%Q 1%Q false ""
        (Demo.filed [Py.VStr "temp.root"]) = Some (1, s') /\
      forall v s'',
        Py.list_append 1 "fileNames" v s' = Some s'' ->
        Py.heap s'' !! 0 = Some (Py.OList [Py.VStr "temp.root"; v])) /\
  (exists s',
      Py.Dataset_init "a" "A" (Some 0) "NOMINAL" "weight" 5%Q 1%Q false ""
        (Demo.filed []) = Some (1, s') /\
      forall v s'',
        Py.list_append 1 "fileNames" v s' = Some s'' ->
        Py.heap s'' !! 0 = Some (Py.OList [])).
Proof.
  split.
  - destruct (PyInit.Dataset_init_file_list "a" "A" 0 "NOMINAL" "weight" 5%Q 1%Q false
                "" (Demo.filed [Py.VStr "temp.root"]) [Py.VStr "temp.root"])
      as (s' & Hrun & _ & _ & Happ).
    + discriminate.
    + reflexivity.
    + exists s'. split; [exact Hrun|exact Happ].
  - destruct (PyInit.Dataset_init_file_list "a" "A" 0 "NOMINAL" "weight" 5%Q 1%Q false
                "" (Demo.filed []) [])
      as (s' & Hrun & _ & _ & Happ).
    + discriminate.
    + reflexivity.
    + exists s'. split; [exact Hrun|exact Happ].
Defined.

(** The calculator of the sum of weights of the dataset built above. *)
Lemma calculate_recomputes_every_time_witness :
  exists s',
    Py.calculate Demo.metadata Demo.tiny 11 (fst Demo.built) (snd Demo.built)
    = Some (Py.VNum 12000%Q, s') /\
    Py.getattr 11 "calculated" s' = Some (Py.VBool false).
Proof.
  destruct (PyInit.calculate_recomputes_every_time Demo.metadata Demo.tiny 11
              (fst Demo.built) (snd Demo.built) (Py.VStr "h_metadata") (Py.VStr "8"))
    as (s' & Hrun & Hc & _).
  - vm_compute. reflexivity.
  - vm_compute. reflexivity.
  - vm_compute. reflexivity.
  - exists s'. split; [exact Hrun|exact Hc].
Defined.

Lemma new_dataset_sums_weights_from_the_files_witness :
  exists s' s1 s2,
    Py.Dataset_init "a" "A" None "NOMINAL" "weight" 5%Q 1%Q false "" Py.empty_state
    = Some (0, s') /\
    Py.Dataset_sumOfWeights Demo.metadata Demo.tiny 0 s' = Some (Py.VNum 12000%Q, s1) /\
    Py.Dataset_sumOfWeights Demo.metadata Demo.tiny 0 s1 = Some (Py.VNum 12000%Q, s2).
Proof.
  apply (PyInit.new_dataset_sums_weights_from_the_files Demo.metadata Demo.tiny "a" "A"
           None "NOMINAL" "weight" 5%Q 1%Q false "" Py.empty_state).
  - discriminate.
  - reflexivity.
Defined.

(** ** Text lines *)

Lemma fromString_reads_what_toString_wrote_witness :
  Text.toString Demo.fmt_d Demo.fmt_g (Demo.stored "background1" ["temp.root"; "more.root"])
  = "background1; Background 1; NOMINAL; 2; 5; 1; temp.root, more.root" /\
  Text.fromString Demo.py_int Demo.py_float
    (Text.toString Demo.fmt_d Demo.fmt_g
       (Demo.stored "background1" ["temp.root"; "more.root"]))
  = Text.Built (Demo.stored "background1" ["temp.root"; "more.root"]) /\
  Text.fromString Demo.py_int Demo.py_float
    (Text.toString Demo.fmt_d Demo.fmt_g (Demo.stored "background1" []))
  = Text.Built (Demo.stored "background1" [""]).
Proof.
  split; [vm_compute; reflexivity|]. split.
  - apply (TextFacts.fromString_reads_what_toString_wrote Demo.py_int Demo.py_float
             Demo.fmt_d Demo.fmt_g (Demo.stored "background1" ["temp.root"; "more.root"])
             2%Z 5%Q 1%Q);
      try (vm_compute; reflexivity);
      try (repeat split; vm_compute; reflexivity).
    repeat constructor; try discriminate; vm_compute; reflexivity.
  - apply (TextFacts.fromString_reads_what_toString_wrote Demo.py_int Demo.py_float
             Demo.fmt_d Demo.fmt_g (Demo.stored "background1" []) 2%Z 5%Q 1%Q);
      try (vm_compute; reflexivity);
      try (repeat split; vm_compute; reflexivity).
    constructor.
Defined.

Lemma fromString_needs_a_title_witness :
  Text.fromString Demo.py_int Demo.py_float "background1"
  = Text.Failed Text.AttributeError.
Proof.
  apply (TextFacts.fromString_needs_a_title Demo.py_int Demo.py_float "background1").
  reflexivity.
Defined.

Lemma PhysicsProcess_fromString_attaches_no_dataset_witness :
  Text.PhysicsProcess_fromString Demo.py_int Demo.py_float Demo.registry
    "top; Top; 2; 1; a, c, b"
  = (["c"], Text.Built (Text.mkProcess "top" "Top" "Top" 2%Z 1%Q (Text.IsList [0; 3]) [])) /\
  Text.p_datasets (Text.mkProcess "top" "Top" "Top" 2%Z 1%Q (Text.IsList [0; 3]) []) = [] /\
  Text.IsList [0; 3]
  = Text.IsList (omap (fun n => Demo.registry !! n)
                   (filter (fun n => n <> "")
                      (map Text.strip
                         (Text.split ","
                            (default ""
                               (map Text.strip (Text.split ";" "top; Top; 2; 1; a, c, b")
                                  !! 4)))))).
Proof.
  split; [vm_compute; reflexivity|].
  apply (TextFacts.PhysicsProcess_fromString_attaches_no_dataset Demo.py_int
           Demo.py_float Demo.registry "top; Top; 2; 1; a, c, b" ["c"]
           (Text.mkProcess "top" "Top" "Top" 2%Z 1%Q (Text.IsList [0; 3]) [])).
  vm_compute. reflexivity.
Defined.

Lemma written_file_is_read_line_by_line_witness :
  Text.readDatasetsFromTextFile Demo.py_int Demo.py_float
    (Text.writeDatasetsToTextFile Demo.fmt_d Demo.fmt_g
       [Demo.stored "background1" ["temp.root"]; Demo.stored "background2" []])
  = Text.readLines Demo.py_int Demo.py_float
      (map (Text.toString Demo.fmt_d Demo.fmt_g)
         [Demo.stored "background1" ["temp.root"]; Demo.stored "background2" []]) [].
Proof.
  apply (TextFacts.written_file_is_read_line_by_line Demo.py_int Demo.py_float Demo.fmt_d
           Demo.fmt_g).
  repeat constructor; vm_compute; reflexivity.
Defined.

Lemma comment_like_name_is_not_read_back_witness :
  Text.readDatasetsFromTextFile Demo.py_int Demo.py_float
    (Text.writeDatasetsToTextFile Demo.fmt_d Demo.fmt_g
       ([Demo.stored "background1" ["temp.root"]]
        ++ Demo.stored "#2" ["more.root"] :: [Demo.stored "background3" ["last.root"]]))
  = Text.readDatasetsFromTextFile Demo.py_int Demo.py_float
      (Text.writeDatasetsToTextFile Demo.fmt_d Demo.fmt_g
         ([Demo.stored "background1" ["temp.root"]]
          ++ [Demo.stored "background3" ["last.root"]])).
Proof.
  apply (TextFacts.comment_like_name_is_not_read_back Demo.py_int Demo.py_float Demo.fmt_d
           Demo.fmt_g [Demo.stored "background1" ["temp.root"]]
           [Demo.stored "background3" ["last.root"]] (Demo.stored "#2" ["more.root"])
           "#"%char "2").
  - reflexivity.
  - by left.
  - repeat constructor; vm_compute; reflexivity.
Defined.
